(** * url_metadata_crawler: date normalisation and metadata extraction

    A shallow embedding of [src/url_metadata_crawler.py]:
    [parse_date_to_iso], [extract_date] and [extract_metadata_from_url],
    together with the parts of the Python runtime they call
    ([str.strip], [re.search], [datetime.strptime] / [strftime],
    and the BeautifulSoup lookups [find], [get] and [get_text]).

    Modelling conventions.
    - A Python [str] is a Rocq [string]; each [ascii] stands for the code
      point of the same number, so the model covers text over U+0000..U+00FF.
      Character classes ([\d], [\s], [\w]) follow the Unicode classification
      of these code points.
    - [None] is [None]; a raised exception is an explicit [Raise] result.
    - [strptime] follows CPython's [Lib/_strptime.py] in the C locale.
    - [strftime("%Y-%m-%d")] hands the format to the C library; the model
      follows glibc, as CPython 3.11 on Linux does: the year is written in
      decimal without zero fill ([999] for the year 999), the month and the
      day with two digits.
    - The document follows BeautifulSoup 4.12 with an HTML tree builder:
      a string below a tag is a [NavigableString] or an instance of one of
      its subclasses, and [get_text] keeps the classes the tag finds
      interesting. *)

From Stdlib Require Import String Ascii List Bool Arith NArith Lia.
Import ListNotations.
Local Open Scope string_scope.
Local Open Scope list_scope.
Local Open Scope nat_scope.

Set Warnings "-register-all".

(** ** Characters *)

Definition code (c : ascii) : N := N_of_ascii c.

Definition in_range (lo hi : ascii) (c : ascii) : bool :=
  ((code lo <=? code c) && (code c <=? code hi))%N.

(** [\d] *)
Definition is_digit (c : ascii) : bool := in_range "0" "9" c.

(** [str.isspace] and [\s]: TAB..CR, FS..US, space, NEL, NBSP. *)
Definition is_space (c : ascii) : bool :=
  let n := code c in
  (((9 <=? n) && (n <=? 13)) || ((28 <=? n) && (n <=? 32))
   || (n =? 133) || (n =? 160))%N.

Definition is_upper (c : ascii) : bool := in_range "A" "Z" c.
Definition is_lower (c : ascii) : bool := in_range "a" "z" c.

(** [[A-Za-z]] *)
Definition is_alpha (c : ascii) : bool := is_upper c || is_lower c.

(** [\w]: alphanumeric code points and the underscore. *)
Definition is_word (c : ascii) : bool :=
  let n := code c in
  (is_digit c || is_alpha c || (n =? 95)
   || (n =? 170) || (n =? 178) || (n =? 179) || (n =? 181)
   || (n =? 185) || (n =? 186) || ((188 <=? n) && (n <=? 190))
   || ((192 <=? n) && (n <=? 214)) || ((216 <=? n) && (n <=? 246))
   || (248 <=? n))%N.

Definition lower (c : ascii) : ascii :=
  if is_upper c then ascii_of_N (code c + 32) else c.

Definition is_char (a : ascii) (c : ascii) : bool := Ascii.eqb a c.

(** A literal under [re.IGNORECASE]. *)
Definition is_char_ci (a : ascii) (c : ascii) : bool :=
  Ascii.eqb (lower a) (lower c).

(** [[/\-]] *)
Definition is_sep (c : ascii) : bool := is_char "/" c || is_char "-" c.

(** ** Strings *)

Fixpoint lstrip (s : string) : string :=
  match s with
  | String c s' => if is_space c then lstrip s' else s
  | EmptyString => s
  end.

Fixpoint rstrip (s : string) : string :=
  match s with
  | String c s' =>
      match rstrip s' with
      | EmptyString => if is_space c then EmptyString else String c EmptyString
      | r => String c r
      end
  | EmptyString => EmptyString
  end.

(** [str.strip()] *)
Definition strip (s : string) : string := rstrip (lstrip s).

Fixpoint str_lower (s : string) : string :=
  match s with
  | String c s' => String (lower c) (str_lower s')
  | EmptyString => EmptyString
  end.

Fixpoint all_chars (p : ascii -> bool) (s : string) : bool :=
  match s with
  | String c s' => p c && all_chars p s'
  | EmptyString => true
  end.

Fixpoint last_char (d : option ascii) (s : string) : option ascii :=
  match s with
  | String c s' => last_char (Some c) s'
  | EmptyString => d
  end.

Definition first_char (s : string) : option ascii :=
  match s with
  | String c _ => Some c
  | EmptyString => None
  end.

(** Python truthiness of a [str]. *)
Definition truthy (s : string) : bool :=
  match s with
  | EmptyString => false
  | _ => true
  end.

(** ** Regular expressions, matched as Python's [re] does: by backtracking,
    alternatives left to right, repetitions greedy. *)

Module Re.

Inductive re : Type :=
| Eps
| Chr (p : ascii -> bool)
| Seq (a b : re)
| Alt (a b : re)
| Rep (p : ascii -> bool) (lo : nat) (hi : option nat)
| Opt (a : re)
| Bnd
| Grp (name : string) (a : re).

Definition captures := list (string * string).

(** One way of matching: the text consumed, the text left, the groups. *)
Definition mres : Type := string * string * captures.

(** [p{lo,hi}], longest first. *)
Fixpoint rep (p : ascii -> bool) (lo hi : nat) (s : string)
  : list (string * string) :=
  match hi with
  | 0 => if lo =? 0 then [(EmptyString, s)] else []
  | S hi' =>
      (match s with
       | String c s' =>
           if p c
           then map (fun ts => (String c (fst ts), snd ts)) (rep p (lo - 1) hi' s')
           else []
       | EmptyString => []
       end)
      ++ (if lo =? 0 then [(EmptyString, s)] else [])
  end.

Definition is_word_opt (o : option ascii) : bool :=
  match o with
  | Some c => is_word c
  | None => false
  end.

(** All matches of [r] at the head of [s], in the order a backtracking
    matcher finds them; [prev] is the character before [s]. *)
Fixpoint rmatch (r : re) (prev : option ascii) (s : string) : list mres :=
  match r with
  | Eps => [(EmptyString, s, [])]
  | Chr p =>
      match s with
      | String c s' => if p c then [(String c EmptyString, s', [])] else []
      | EmptyString => []
      end
  | Seq a b =>
      flat_map
        (fun m1 : mres =>
           let '(t1, s1, g1) := m1 in
           map (fun m2 : mres =>
                  let '(t2, s2, g2) := m2 in
                  ((t1 ++ t2)%string, s2, g1 ++ g2))
               (rmatch b (last_char prev t1) s1))
        (rmatch a prev s)
  | Alt a b => rmatch a prev s ++ rmatch b prev s
  | Rep p lo hi =>
      map (fun ts => (fst ts, snd ts, []))
          (rep p lo (match hi with Some h => h | None => String.length s end) s)
  | Opt a => rmatch a prev s ++ [(EmptyString, s, [])]
  | Bnd =>
      if xorb (is_word_opt prev) (is_word_opt (first_char s))
      then [(EmptyString, s, [])] else []
  | Grp n a =>
      map (fun m : mres => let '(t, s', g) := m in (t, s', (n, t) :: g))
          (rmatch a prev s)
  end.

(** [re.match]: the first match at the start of the string. *)
Definition re_match (r : re) (s : string) : option mres :=
  hd_error (rmatch r None s).

Fixpoint search_from (r : re) (prev : option ascii) (s : string)
  : option mres :=
  match rmatch r prev s with
  | m :: _ => Some m
  | [] =>
      match s with
      | String c s' => search_from r (Some c) s'
      | EmptyString => None
      end
  end.

(** [re.search]: the first match at the leftmost position that has one. *)
Definition re_search (r : re) (s : string) : option mres :=
  search_from r None s.

(** [m.group()] *)
Definition group0 (m : mres) : string := fst (fst m).

Fixpoint lookup (n : string) (g : captures) : option string :=
  match g with
  | (k, v) :: g' => if String.eqb k n then Some v else lookup n g'
  | [] => None
  end.

(** [m.group(n)]; every group of the patterns below takes part in a match. *)
Definition group (n : string) (m : mres) : string :=
  match lookup n (snd m) with
  | Some v => v
  | None => EmptyString
  end.

(** A string of literals. *)
Fixpoint lit (s : string) : re :=
  match s with
  | String c EmptyString => Chr (is_char c)
  | String c s' => Seq (Chr (is_char c)) (lit s')
  | EmptyString => Eps
  end.

Fixpoint lit_ci (s : string) : re :=
  match s with
  | String c EmptyString => Chr (is_char_ci c)
  | String c s' => Seq (Chr (is_char_ci c)) (lit_ci s')
  | EmptyString => Eps
  end.

Fixpoint alts (rs : list re) : re :=
  match rs with
  | [] => Rep (fun _ => false) 1 (Some 1)
  | [r] => r
  | r :: rs' => Alt r (alts rs')
  end.

Fixpoint seqs (rs : list re) : re :=
  match rs with
  | [] => Eps
  | [r] => r
  | r :: rs' => Seq r (seqs rs')
  end.

Definition digit : re := Chr is_digit.
Definition digits (lo hi : nat) : re := Rep is_digit lo (Some hi).
Definition rng (lo hi : ascii) : re := Chr (in_range lo hi).
Definition chr (c : ascii) : re := Chr (is_char c).

End Re.
Import Re.

(** ** [datetime.strptime] and [strftime]

    [Lib/_strptime.py]: the format is turned into a regular expression
    (compiled with [re.IGNORECASE]), the string must match it entirely, the
    named groups are converted, and the [datetime] constructor checks the
    calendar.  Every failure is a [ValueError], here [None]. *)

Module Strptime.

Definition a_month : list string :=
  ["jan"; "feb"; "mar"; "apr"; "may"; "jun";
   "jul"; "aug"; "sep"; "oct"; "nov"; "dec"].

Definition f_month : list string :=
  ["january"; "february"; "march"; "april"; "may"; "june"; "july";
   "august"; "september"; "october"; "november"; "december"].

(** [x] goes behind the entries that are not shorter. *)
Fixpoint insert_by_len (x : string) (l : list string) : list string :=
  match l with
  | [] => [x]
  | y :: l' =>
      if String.length y <? String.length x
      then x :: l
      else y :: insert_by_len x l'
  end.

(** [sorted(to_convert, key=len, reverse=True)]: longest first, entries of
    equal length in their order in [to_convert]. *)
Definition sort_by_len (to_convert : list string) : list string :=
  fold_left (fun sorted x => insert_by_len x sorted) to_convert [].

(** [TimeRE.__seqToRE] *)
Definition seqToRE (to_convert : list string) (directive : string) : re :=
  Grp directive (alts (map lit_ci (sort_by_len to_convert))).

(** The table of [TimeRE.__init__], for the directives that the formats of
    [parse_date_to_iso] use; any other directive is a [KeyError]. *)
Definition directive (d : ascii) : option re :=
  if Ascii.eqb d "d" then
    (* 3[0-1]|[1-2]\d|0[1-9]|[1-9]| [1-9] *)
    Some (Grp "d" (alts [Seq (chr "3") (rng "0" "1");
                         Seq (rng "1" "2") digit;
                         Seq (chr "0") (rng "1" "9");
                         rng "1" "9";
                         Seq (chr " ") (rng "1" "9")]))
  else if Ascii.eqb d "H" then
    (* 2[0-3]|[0-1]\d|\d *)
    Some (Grp "H" (alts [Seq (chr "2") (rng "0" "3");
                         Seq (rng "0" "1") digit;
                         digit]))
  else if Ascii.eqb d "m" then
    (* 1[0-2]|0[1-9]|[1-9] *)
    Some (Grp "m" (alts [Seq (chr "1") (rng "0" "2");
                         Seq (chr "0") (rng "1" "9");
                         rng "1" "9"]))
  else if Ascii.eqb d "M" then
    (* [0-5]\d|\d *)
    Some (Grp "M" (alts [Seq (rng "0" "5") digit; digit]))
  else if Ascii.eqb d "S" then
    (* 6[0-1]|[0-5]\d|\d *)
    Some (Grp "S" (alts [Seq (chr "6") (rng "0" "1");
                         Seq (rng "0" "5") digit;
                         digit]))
  else if Ascii.eqb d "y" then
    Some (Grp "y" (Seq digit digit))
  else if Ascii.eqb d "Y" then
    Some (Grp "Y" (seqs [digit; digit; digit; digit]))
  else if Ascii.eqb d "z" then
    (* [+-]\d\d:?[0-5]\d(:?[0-5]\d(\.\d{1,6})?)?|(?-i:Z) *)
    Some (Grp "z"
            (Alt (seqs [Chr (fun c => is_char "+" c || is_char "-" c);
                        digit; digit; Opt (chr ":"); rng "0" "5"; digit;
                        Opt (seqs [Opt (chr ":"); rng "0" "5"; digit;
                                   Opt (Seq (chr ".") (digits 1 6))])])
                 (chr "Z")))
  else if Ascii.eqb d "B" then Some (seqToRE f_month "B")
  else if Ascii.eqb d "b" then Some (seqToRE a_month "b")
  else None.

(** [TimeRE.pattern]: a run of white space in the format stands for [\s+],
    a directive for its expression, any other character for itself. *)
Fixpoint pattern_from (in_space : bool) (format : string) : option re :=
  match format with
  | EmptyString => Some Eps
  | String c rest =>
      if Ascii.eqb c "%" then
        match rest with
        | String d rest' =>
            match directive d, pattern_from false rest' with
            | Some r, Some k => Some (Seq r k)
            | _, _ => None
            end
        | EmptyString => None
        end
      else if is_space c then
        if in_space then pattern_from true rest
        else option_map (Seq (Rep is_space 1 None)) (pattern_from true rest)
      else option_map (Seq (Chr (is_char_ci c))) (pattern_from false rest)
  end.

Definition pattern (format : string) : option re := pattern_from false format.

Definition digit_val (c : ascii) : nat := N.to_nat (code c - 48).

Fixpoint digits_val (acc : nat) (s : string) : nat :=
  match s with
  | String c s' => digits_val (10 * acc + digit_val c) s'
  | EmptyString => acc
  end.

(** [int(s)] on the texts that the groups can hold: optional surrounding
    white space around decimal digits; anything else is a [ValueError]. *)
Definition py_int (s : string) : option nat :=
  let t := strip s in
  if truthy t && all_chars is_digit t then Some (digits_val 0 t) else None.

Fixpoint index_of (x : string) (l : list string) (i : nat) : option nat :=
  match l with
  | [] => None
  | y :: l' => if String.eqb y x then Some i else index_of x l' (S i)
  end.

(** The local variables of [_strptime]. *)
Record fields : Type := {
  f_year : option nat;
  f_month_ : nat;
  f_day : nat;
  f_hour : nat;
  f_minute : nat;
  f_second : nat;
  (* [gmtoff] and [gmtoff_fraction]: sign, seconds, microseconds *)
  f_gmtoff : option (bool * nat * nat)
}.

Definition init : fields :=
  {| f_year := None; f_month_ := 1; f_day := 1;
     f_hour := 0; f_minute := 0; f_second := 0; f_gmtoff := None |}.

Definition slice (a b : nat) (s : string) : string := substring a (b - a) s.

Definition char_is (c : ascii) (o : option ascii) : bool :=
  match o with
  | Some x => Ascii.eqb x c
  | None => false
  end.

Fixpoint zeros (n : nat) : string :=
  match n with
  | 0 => EmptyString
  | S n' => String "0" (zeros n')
  end.

(** The branch [group_key == 'z']. *)
Definition convert_z (z0 : string) : option (bool * nat * nat) :=
  if String.eqb z0 "Z" then Some (false, 0, 0)
  else
    let oz :=
      if char_is ":" (get 3 z0) then
        let z1 := (slice 0 3 z0 ++ substring 4 (String.length z0) z0)%string in
        if 5 <? String.length z1 then
          if char_is ":" (get 5 z1)
          then Some (slice 0 5 z1 ++ substring 6 (String.length z1) z1)%string
          else None (* Inconsistent use of : *)
        else Some z1
      else Some z0 in
    match oz with
    | None => None
    | Some z =>
        let gmtoff_remainder := substring 8 (String.length z) z in
        match py_int (slice 1 3 z), py_int (slice 3 5 z),
              (if truthy (slice 5 7 z) then py_int (slice 5 7 z) else Some 0),
              py_int (gmtoff_remainder
                      ++ zeros (6 - String.length gmtoff_remainder))%string
        with
        | Some hours, Some minutes, Some seconds, Some fraction =>
            Some (char_is "-" (get 0 z),
                  hours * 60 * 60 + minutes * 60 + seconds, fraction)
        | _, _, _, _ => None
        end
    end.

Definition set_year (f : fields) (y : nat) : fields :=
  {| f_year := Some y; f_month_ := f_month_ f; f_day := f_day f;
     f_hour := f_hour f; f_minute := f_minute f; f_second := f_second f;
     f_gmtoff := f_gmtoff f |}.

Definition set_month (f : fields) (m : nat) : fields :=
  {| f_year := f_year f; f_month_ := m; f_day := f_day f;
     f_hour := f_hour f; f_minute := f_minute f; f_second := f_second f;
     f_gmtoff := f_gmtoff f |}.

Definition set_day (f : fields) (d : nat) : fields :=
  {| f_year := f_year f; f_month_ := f_month_ f; f_day := d;
     f_hour := f_hour f; f_minute := f_minute f; f_second := f_second f;
     f_gmtoff := f_gmtoff f |}.

Definition set_hour (f : fields) (h : nat) : fields :=
  {| f_year := f_year f; f_month_ := f_month_ f; f_day := f_day f;
     f_hour := h; f_minute := f_minute f; f_second := f_second f;
     f_gmtoff := f_gmtoff f |}.

Definition set_minute (f : fields) (m : nat) : fields :=
  {| f_year := f_year f; f_month_ := f_month_ f; f_day := f_day f;
     f_hour := f_hour f; f_minute := m; f_second := f_second f;
     f_gmtoff := f_gmtoff f |}.

Definition set_second (f : fields) (s : nat) : fields :=
  {| f_year := f_year f; f_month_ := f_month_ f; f_day := f_day f;
     f_hour := f_hour f; f_minute := f_minute f; f_second := s;
     f_gmtoff := f_gmtoff f |}.

Definition set_gmtoff (f : fields) (z : bool * nat * nat) : fields :=
  {| f_year := f_year f; f_month_ := f_month_ f; f_day := f_day f;
     f_hour := f_hour f; f_minute := f_minute f; f_second := f_second f;
     f_gmtoff := Some z |}.

(** One round of [for group_key in found_dict.keys()]. *)
Definition convert (f : fields) (kv : string * string) : option fields :=
  let '(group_key, v) := kv in
  if String.eqb group_key "y" then
    option_map (fun y => set_year f (if y <=? 68 then y + 2000 else y + 1900))
               (py_int v)
  else if String.eqb group_key "Y" then option_map (set_year f) (py_int v)
  else if String.eqb group_key "m" then option_map (set_month f) (py_int v)
  else if String.eqb group_key "B" then
    option_map (set_month f) (index_of (str_lower v) f_month 1)
  else if String.eqb group_key "b" then
    option_map (set_month f) (index_of (str_lower v) a_month 1)
  else if String.eqb group_key "d" then option_map (set_day f) (py_int v)
  else if String.eqb group_key "H" then option_map (set_hour f) (py_int v)
  else if String.eqb group_key "M" then option_map (set_minute f) (py_int v)
  else if String.eqb group_key "S" then option_map (set_second f) (py_int v)
  else if String.eqb group_key "z" then option_map (set_gmtoff f) (convert_z v)
  else Some f.

Fixpoint convert_all (f : fields) (g : captures) : option fields :=
  match g with
  | [] => Some f
  | kv :: g' =>
      match convert f kv with
      | Some f' => convert_all f' g'
      | None => None
      end
  end.

Definition is_leap (y : nat) : bool :=
  (y mod 4 =? 0) && (negb (y mod 100 =? 0) || (y mod 400 =? 0)).

Definition days_in_month (y m : nat) : nat :=
  match m with
  | 2 => if is_leap y then 29 else 28
  | 4 | 6 | 9 | 11 => 30
  | _ => 31
  end.

(** The checks of the [date] constructor. *)
Definition check_date (y m d : nat) : bool :=
  (1 <=? y) && (y <? 100 * 100) && (1 <=? m) && (m <=? 12)
  && (1 <=? d) && (d <=? days_in_month y m).

Definition check_time (h mi s : nat) : bool :=
  (h <=? 23) && (mi <=? 59) && (s <=? 59).

(** [timezone(timedelta(seconds, microseconds))]: the offset must be
    strictly between -24 and 24 hours. *)
Definition check_tz (z : option (bool * nat * nat)) : bool :=
  match z with
  | Some (_, secs, micros) => secs + micros / (1000 * 1000) <? 24 * 60 * 60
  | None => true
  end.

Record datetime : Type := {
  year : nat; month : nat; day : nat;
  hour : nat; minute : nat; second : nat
}.

(** The end of [_strptime] and [_strptime_datetime]. *)
Definition build (f : fields) : option datetime :=
  let leap_year_fix :=
    match f_year f with
    | None => (f_month_ f =? 2) && (f_day f =? 29)
    | Some _ => false
    end in
  let y :=
    match f_year f with
    | Some y => y
    | None => if leap_year_fix then 1904 else 1900
    end in
  if check_date y (f_month_ f) (f_day f) then
    let y' := if leap_year_fix then 1900 else y in
    if check_tz (f_gmtoff f)
       && check_date y' (f_month_ f) (f_day f)
       && check_time (f_hour f) (f_minute f) (f_second f)
    then Some {| year := y'; month := f_month_ f; day := f_day f;
                 hour := f_hour f; minute := f_minute f;
                 second := f_second f |}
    else None
  else None.

(** [datetime.strptime(data_string, format)] *)
Definition strptime (data_string format : string) : option datetime :=
  match pattern format with
  | None => None
  | Some format_regex =>
      match re_match format_regex data_string with
      | None => None (* does not match format *)
      | Some (_, rest, found_dict) =>
          if truthy rest then None (* unconverted data remains *)
          else
            match convert_all init found_dict with
            | Some f => build f
            | None => None
            end
      end
  end.

Definition digit_char (n : nat) : ascii := ascii_of_nat (48 + n).

(** The [w] low decimal digits of [n]. *)
Fixpoint zero_pad (w n : nat) : string :=
  match w with
  | 0 => EmptyString
  | S w' => (zero_pad w' (n / 10) ++ String (digit_char (n mod 10)) EmptyString)%string
  end.

(** [n] in decimal, without leading zeros. *)
Fixpoint decimal_digits (fuel n : nat) : string :=
  match fuel with
  | 0 => EmptyString
  | S fuel' =>
      if n <? 10 then String (digit_char n) EmptyString
      else (decimal_digits fuel' (n / 10)
            ++ String (digit_char (n mod 10)) EmptyString)%string
  end.

Definition decimal (n : nat) : string := decimal_digits (S n) n.

(** [dt.strftime("%Y-%m-%d")]: [%Y] is the year in decimal, [%m] and [%d]
    are zero filled to two digits. *)
Definition strftime (dt : datetime) : string :=
  (decimal (year dt) ++ "-" ++ zero_pad 2 (month dt) ++ "-"
   ++ zero_pad 2 (day dt))%string.

End Strptime.
Import Strptime.

(** ** [parse_date_to_iso] *)

Definition patterns : list (list string) :=
  [ ["%Y-%m-%d"];
    ["%Y-%m-%dT%H:%M:%S%z"; "%Y-%m-%dT%H:%M:%S"];
    ["%b %d, %Y"; "%B %d, %Y"];
    ["%m/%d/%Y"; "%d/%m/%Y"];
    ["%Y/%m/%d"];
    ["%d-%b-%y"; "%d-%B-%Y"] ].

(** [(\d{4})[\/\-](\d{2})[\/\-](\d{2})] *)
Definition ymd_re : re :=
  seqs [Grp "1" (digits 4 4); Chr is_sep; Grp "2" (digits 2 2);
        Chr is_sep; Grp "3" (digits 2 2)].

(** [(\d{4})] *)
Definition year_re : re := Grp "1" (digits 4 4).

(** The inner loop: the first format of the group that parses. *)
Fixpoint try_group (date_str : string) (pattern_group : list string)
  : option string :=
  match pattern_group with
  | [] => None
  | pattern :: rest =>
      match strptime (strip date_str) pattern with
      | Some dt => Some (strftime dt)
      | None => try_group date_str rest
      end
  end.

(** The outer loop. *)
Fixpoint try_patterns (date_str : string) (groups : list (list string))
  : option string :=
  match groups with
  | [] => None
  | pattern_group :: rest =>
      match try_group date_str pattern_group with
      | Some iso => Some iso
      | None => try_patterns date_str rest
      end
  end.

Definition parse_date_to_iso (date_str : option string) : option string :=
  match date_str with
  | None => None
  | Some date_str =>
      if negb (truthy date_str) then None
      else
        match try_patterns date_str patterns with
        | Some iso => Some iso
        | None =>
            match re_search ymd_re date_str with
            | Some ymd_match =>
                Some (group "1" ymd_match ++ "-" ++ group "2" ymd_match
                      ++ "-" ++ group "3" ymd_match)%string
            | None =>
                match re_search year_re date_str with
                | Some year_match => Some (group "1" year_match ++ "-01-01")%string
                | None => None
                end
            end
        end
  end.

(** ** The parsed document

    What BeautifulSoup hands to the code: a tree of tags and strings.  A tag
    has a name, its attributes, and its children; the [class] attribute is
    kept apart because BeautifulSoup stores it as a list of class names.
    A string is a [NavigableString], or an instance of one of its
    subclasses: the tree builder uses them for text that is not page text
    (comments, declarations, the text inside [script], [style], [template],
    [rt] and [rp]). *)

Inductive string_class : Type :=
| CData | Comment | Declaration | Doctype | ProcessingInstruction
| Stylesheet | Script | TemplateString
| RubyTextString | RubyParenthesisString.

Inductive node : Type :=
| NavigableString (text : string)
| SubclassString (cls : string_class) (text : string)
| Tag (name : string) (attrs : list (string * string))
      (class_ : list string) (contents : list node).

Definition soup : Type := list node.

(** [tag.descendants]: the nodes below, in document order. *)
Fixpoint self_and_descendants (n : node) : list node :=
  match n with
  | NavigableString _ => [n]
  | SubclassString _ _ => [n]
  | Tag _ _ _ cs =>
      n :: (fix below (l : list node) : list node :=
              match l with
              | [] => []
              | c :: l' => self_and_descendants c ++ below l'
              end) cs
  end.

Definition descendants (doc : soup) : list node :=
  flat_map self_and_descendants doc.

(** [tag.get(key)] *)
Definition get (key : string) (element : node) : option string :=
  match element with
  | Tag _ attrs _ _ => Re.lookup key attrs
  | NavigableString _ => None
  | SubclassString _ _ => None
  end.

Fixpoint join (sep : string) (l : list string) : string :=
  match l with
  | [] => EmptyString
  | [x] => x
  | x :: l' => (x ++ sep ++ join sep l')%string
  end.

(** The keyword arguments of [find]. *)
Inductive criterion : Type :=
| AttrIs (key value : string)   (* key="value" *)
| AttrAny (key : string)        (* {key: True} *)
| ClassIs (value : string).     (* class_="value" *)

Definition meets (element : node) (c : criterion) : bool :=
  match element with
  | Tag _ attrs cls _ =>
      match c with
      | AttrIs k v =>
          match Re.lookup k attrs with
          | Some x => String.eqb x v
          | None => false
          end
      | AttrAny k =>
          match Re.lookup k attrs with
          | Some _ => true
          | None => false
          end
      | ClassIs v =>
          existsb (fun x => String.eqb x v) cls || String.eqb (join " " cls) v
      end
  | NavigableString _ => false
  | SubclassString _ _ => false
  end.

Definition is_tag_named (name : option string) (element : node) : bool :=
  match element with
  | Tag n _ _ _ =>
      match name with
      | Some x => String.eqb n x
      | None => true
      end
  | NavigableString _ => false
  | SubclassString _ _ => false
  end.

(** [soup.find(name, **criteria)]: the first matching tag in document
    order, or [None]. *)
Definition find (name : option string) (criteria : list criterion)
  (doc : soup) : option node :=
  List.find (fun e => is_tag_named name e && forallb (meets e) criteria)
            (descendants doc).

(** The classes of strings; [None] stands for [NavigableString] itself. *)
Definition class_code (cls : string_class) : nat :=
  match cls with
  | CData => 0 | Comment => 1 | Declaration => 2 | Doctype => 3
  | ProcessingInstruction => 4 | Stylesheet => 5 | Script => 6
  | TemplateString => 7 | RubyTextString => 8 | RubyParenthesisString => 9
  end.

Definition same_type (a b : option string_class) : bool :=
  match a, b with
  | None, None => true
  | Some x, Some y => class_code x =? class_code y
  | _, _ => false
  end.

(** [HTMLTreeBuilder.DEFAULT_STRING_CONTAINERS] *)
Definition string_containers (name : string) : option string_class :=
  if String.eqb name "rt" then Some RubyTextString
  else if String.eqb name "rp" then Some RubyParenthesisString
  else if String.eqb name "style" then Some Stylesheet
  else if String.eqb name "script" then Some Script
  else if String.eqb name "template" then Some TemplateString
  else None.

(** [tag.interesting_string_types]: the container class of the tag, by
    default [(NavigableString, CData)]. *)
Definition interesting_string_types (name : string)
  : list (option string_class) :=
  match string_containers name with
  | Some cls => [Some cls]
  | None => [None; Some CData]
  end.

(** The text of a string whose type is one of [types]. *)
Definition string_of_types (types : list (option string_class)) (d : node)
  : list string :=
  match d with
  | NavigableString t => if existsb (same_type None) types then [t] else []
  | SubclassString cls t =>
      if existsb (same_type (Some cls)) types then [t] else []
  | Tag _ _ _ _ => []
  end.

(** [tag._all_strings()]: the strings below the tag whose type is one of
    the tag's interesting types, in document order. *)
Definition all_strings (n : node) : list string :=
  match n with
  | Tag name _ _ cs =>
      flat_map (string_of_types (interesting_string_types name))
               (descendants cs)
  | _ =>
      filter truthy (string_of_types [None; Some CData] n)
  end.

(** [tag.get_text()]: these strings, joined by the empty separator. *)
Definition get_text (n : node) : string := join "" (all_strings n).

(** [a or b] on two optional tags; a tag is always true. *)
Definition or_else {A : Type} (a b : option A) : option A :=
  match a with
  | Some _ => a
  | None => b
  end.

(** ** [extract_date] *)

Definition date_sources (doc : soup) : list (option node * string) :=
  [ (find (Some "meta") [AttrIs "property" "article:modified_time"] doc, "content");
    (find (Some "meta") [AttrIs "property" "article:published_time"] doc, "content");
    (find (Some "time") [AttrAny "datetime"] doc, "datetime") ].

Definition date_patterns : list re :=
  [ (* \b\d{4}-\d{2}-\d{2}\b *)
    seqs [Bnd; digits 4 4; chr "-"; digits 2 2; chr "-"; digits 2 2; Bnd];
    (* \b[A-Za-z]{3,9} \d{1,2},? \d{4}\b *)
    seqs [Bnd; Rep is_alpha 3 (Some 9); chr " "; digits 1 2; Opt (chr ",");
          chr " "; digits 4 4; Bnd];
    (* \b\d{1,2} [A-Za-z]{3,9} \d{4}\b *)
    seqs [Bnd; digits 1 2; chr " "; Rep is_alpha 3 (Some 9); chr " ";
          digits 4 4; Bnd];
    (* \b\d{1,2}[/\-]\d{1,2}[/\-]\d{2,4}\b *)
    seqs [Bnd; digits 1 2; Chr is_sep; digits 1 2; Chr is_sep; digits 2 4; Bnd] ].

(** [if element and (date_str := element.get(attr))]: the candidate of one
    source, when the tag is there and the attribute is a non-empty string. *)
Definition candidate (source : option node * string) : option string :=
  match fst source with
  | Some element =>
      match get (snd source) element with
      | Some date_str => if truthy date_str then Some date_str else None
      | None => None
      end
  | None => None
  end.

(** The loop over [date_sources]. *)
Fixpoint first_source (sources : list (option node * string))
  : option string :=
  match sources with
  | [] => None
  | source :: rest =>
      match candidate source with
      | Some date_str =>
          match parse_date_to_iso (Some date_str) with
          | Some iso_date => Some iso_date
          | None => first_source rest
          end
      | None => first_source rest
      end
  end.

(** The loop over [date_patterns]. *)
Fixpoint first_pattern (text : string) (pats : list re) : option string :=
  match pats with
  | [] => None
  | pattern :: rest =>
      match re_search pattern text with
      | Some m =>
          match parse_date_to_iso (Some (group0 m)) with
          | Some iso_date => Some iso_date
          | None => first_pattern text rest
          end
      | None => first_pattern text rest
      end
  end.

Definition post_header (doc : soup) : option node :=
  or_else (find (Some "div") [ClassIs "post-header"] doc)
          (find None [ClassIs "article-header"] doc).

Definition extract_date (doc : soup) : option string :=
  match first_source (date_sources doc) with
  | Some iso_date => Some iso_date
  | None =>
      match post_header doc with
      | Some header => first_pattern (get_text header) date_patterns
      | None => None
      end
  end.

(** ** [extract_metadata_from_url] *)

(** The outcome of a Python computation: a value or a raised exception,
    the latter with its [str(e)]. *)
Inductive result (A : Type) : Type :=
| Ok (a : A)
| Raise (e : string).
Arguments Ok {A} a.
Arguments Raise {A} e.

Definition bind {A B : Type} (r : result A) (k : A -> result B) : result B :=
  match r with
  | Ok a => k a
  | Raise e => Raise e
  end.

Notation "x <- r ;; k" := (bind r (fun x => k))
  (at level 61, r at next level, right associativity).

(** The dictionary that is returned; a key that is missing reads as
    [None]. *)
Record metadata : Type := {
  url : string;
  og_title : option string;
  author : option string;
  article_date : option string;
  error : option string
}.

(** [tag[key]]: a missing key raises [KeyError(key)]. *)
Definition getitem (key : string) (element : node) : result string :=
  match get key element with
  | Some v => Ok v
  | None => Raise ("'" ++ key ++ "'")%string
  end.

Section Extract.

(** The request and the HTML parser are outside the model: [fetch url] is
    the parsed page, or the exception of [requests.get],
    [raise_for_status] or [BeautifulSoup]. *)
Variable fetch : string -> result soup.

(** The body of the [try]. *)
Definition try_body (u : string) : result metadata :=
  doc <- fetch u ;;
  title <- match find (Some "meta") [AttrIs "property" "og:title"] doc with
           | Some tag => v <- getitem "content" tag ;; Ok (Some v)
           | None => Ok None
           end ;;
  let author_meta :=
    or_else (find (Some "meta") [AttrIs "name" "author"] doc)
      (or_else (find (Some "meta") [AttrIs "property" "article:author"] doc)
               (find (Some "meta") [AttrIs "property" "og:author"] doc)) in
  let author :=
    match author_meta with
    | Some tag => get "content" tag
    | None => None
    end in
  let article_date := extract_date doc in
  Ok {| url := u; og_title := title; author := author;
        article_date := article_date; error := None |}.

Definition extract_metadata_from_url (u : string) : metadata :=
  match try_body u with
  | Ok r => r
  | Raise e =>
      {| url := u; og_title := None; author := None;
         article_date := None; error := Some e |}
  end.

End Extract.


(** ** [main] *)

(** [urls]: the lines of the input file, each with its line end, without the
    blank ones and the ones that begin with [#], stripped. *)
Definition read_urls (lines : list string) : list string :=
  map strip
      (filter (fun line => truthy (strip line) && negb (prefix "#" line))
              lines).

(** [success_count]: the records [r] with [not r.get("error")]. *)
Definition no_error (r : metadata) : bool :=
  match error r with
  | Some e => negb (truthy e)
  | None => true
  end.

Definition success_count (results : list metadata) : nat :=
  length (filter no_error results).

(** [r.keys()] *)
Definition keys (r : metadata) : list string :=
  ["url"; "og_title"; "author"; "article_date"]
  ++ match error r with
     | Some _ => ["error"]
     | None => []
     end.

(** [rowdict.get(key, restval)] with [restval = ""]; [None] is Python's
    [None]. *)
Definition cell (rowdict : metadata) (key : string) : option string :=
  if String.eqb key "url" then Some (url rowdict)
  else if String.eqb key "og_title" then og_title rowdict
  else if String.eqb key "author" then author rowdict
  else if String.eqb key "article_date" then article_date rowdict
  else if String.eqb key "error" then
    match error rowdict with
    | Some e => Some e
    | None => Some EmptyString
    end
  else Some EmptyString.

(** [repr] of a key. *)
Definition repr (key : string) : string := ("'" ++ key ++ "'")%string.

(** [DictWriter._dict_to_list]: a key of the row that is no field name
    raises [ValueError]. *)
Definition dict_to_list (fieldnames : list string) (rowdict : metadata)
  : result (list (option string)) :=
  let wrong_fields :=
    filter (fun k => negb (existsb (String.eqb k) fieldnames)) (keys rowdict) in
  match wrong_fields with
  | [] => Ok (map (cell rowdict) fieldnames)
  | _ =>
      Raise ("dict contains fields not in fieldnames: "
             ++ join ", " (map repr wrong_fields))%string
  end.

(** [DictWriter.writerows]: the rows that reach the file, and the exception
    that stops the writing, if any. *)
Fixpoint writerows (fieldnames : list string) (rowdicts : list metadata)
  : list (list (option string)) * option string :=
  match rowdicts with
  | [] => ([], None)
  | rowdict :: rest =>
      match dict_to_list fieldnames rowdict with
      | Ok row =>
          let '(rows, e) := writerows fieldnames rest in (row :: rows, e)
      | Raise e => ([], Some e)
      end
  end.

(** What the output file holds: the rows of cells of the CSV file, or the
    records of the JSON file.  The text of the cells and of the JSON values
    is outside the model. *)
Inductive file : Type :=
| CsvRows (rows : list (list (option string)))
| JsonRecords (records : list metadata).

(** The CSV branch: the file is opened, then [results[0].keys()] are the
    field names, then the header and the rows are written. *)
Definition save_csv (results : list metadata) : file * option string :=
  match results with
  | [] => (CsvRows [], Some "list index out of range")
  | first :: _ =>
      let fieldnames := keys first in
      let '(rows, e) := writerows fieldnames results in
      (CsvRows (map Some fieldnames :: rows), e)
  end.

(** What a run of [main] shows and leaves: the two numbers of the summary
    line and, when an output path is given, the file and the message of
    the exception caught while saving, if any. *)
Record report : Type := {
  processed : nat;
  successful : nat;
  saved : option (file * option string)
}.

Section Main.

(** [network i url]: the outcome of the request number [i], for [url]. *)
Variable network : nat -> string -> result soup.

(** [results]: one record for each URL, in order. *)
Fixpoint crawl_from (i : nat) (urls : list string) : list metadata :=
  match urls with
  | [] => []
  | u :: rest =>
      extract_metadata_from_url (network i) u :: crawl_from (S i) rest
  end.

Definition crawl (lines : list string) : list metadata :=
  crawl_from 0 (read_urls lines).

Definition main (lines : list string) (output : option string)
  (format : string) : report :=
  let results := crawl lines in
  {| processed := length results;
     successful := success_count results;
     saved :=
       match output with
       | Some path =>
           if truthy path then
             if String.eqb format "csv" then Some (save_csv results)
             else Some (JsonRecords results, None)
           else None
       | None => None
       end |}.

End Main.

(** * Vocabulary of the statements and of their proofs *)

(** The 256 characters. *)
Definition all_ascii : list ascii := map ascii_of_nat (seq 0 256).

(** The characters of [\d]. *)
Definition digit_chars : list ascii :=
  ["0"; "1"; "2"; "3"; "4"; "5"; "6"; "7"; "8"; "9"]%char.

(** The characters of [[/\-]]. *)
Definition sep_chars : list ascii := ["/"; "-"]%char.

(** The texts of [n] digits. *)
Fixpoint digit_strings (n : nat) : list string :=
  match n with
  | 0 => [EmptyString]
  | S n' => flat_map (fun c => map (String c) (digit_strings n')) digit_chars
  end.

(** The expression has no [\b]. *)
Fixpoint no_bnd (r : re) : bool :=
  match r with
  | Bnd => false
  | Seq a b | Alt a b => no_bnd a && no_bnd b
  | Opt a | Grp _ a => no_bnd a
  | Eps | Chr _ | Rep _ _ _ => true
  end.

(** The expression of [%Y]. *)
Definition gY : re := Grp "Y" (seqs [digit; digit; digit; digit]).

(** What follows the year in the expression of a format. *)
Definition tail_re (format : string) : re :=
  match pattern format with
  | Some (Seq _ k) => k
  | _ => Eps
  end.

(** The formats of [patterns] that begin with [%Y]. *)
Definition year_formats : list string :=
  ["%Y-%m-%d"; "%Y-%m-%dT%H:%M:%S%z"; "%Y-%m-%dT%H:%M:%S"; "%Y/%m/%d"].

(** A text of four characters. *)
Definition four (y1 y2 y3 y4 : ascii) : string :=
  String y1 (String y2 (String y3 (String y4 EmptyString))).

(** A text of two characters. *)
Definition two (a b : ascii) : string := String a (String b EmptyString).

(** Equality of groups, decided. *)
Fixpoint captures_eqb (a b : captures) : bool :=
  match a, b with
  | [], [] => true
  | (k, v) :: a', (k', v') :: b' =>
      String.eqb k k' && String.eqb v v' && captures_eqb a' b'
  | _, _ => false
  end.

(** The texts that may follow the year: separator, two digits, separator,
    two digits. *)
Definition tails : list string :=
  flat_map (fun s1 =>
    flat_map (fun M =>
      flat_map (fun s2 =>
        map (fun D => String s1 (M ++ String s2 D)%string) (digit_strings 2))
        sep_chars)
      (digit_strings 2))
    sep_chars.

(** On such a text the first match of the rest of a year-led format, when it
    reaches the end, has taken the two digit pairs as month and day. *)
Definition tail_ok (r : re) (tail : string) : bool :=
  match tail with
  | String _ (String m1 (String m2 (String _ (String d1 (String d2 EmptyString))))) =>
      match rmatch r None tail with
      | [] => true
      | (_, rest, g) :: _ =>
          truthy rest || captures_eqb g [("m", two m1 m2); ("d", two d1 d2)]
      end
  | _ => false
  end.

(** The year that four digits stand for, as [strftime] writes it: without
    the leading zeros. *)
Definition year_text (y1 y2 y3 y4 : ascii) : string :=
  decimal (digits_val 0 (four y1 y2 y3 y4)).

(** The formats of [patterns] that begin with a month or a day. *)
Definition other_formats : list string :=
  ["%b %d, %Y"; "%B %d, %Y"; "%m/%d/%Y"; "%d/%m/%Y"; "%d-%b-%y"; "%d-%B-%Y"].

(** The expression of [%m]. *)
Definition gm : re :=
  Grp "m" (alts [Seq (chr "1") (rng "0" "2");
                 Seq (chr "0") (rng "1" "9");
                 rng "1" "9"]).

(** A text of exactly four digits. *)
Definition is_year_text (y : string) : bool :=
  (String.length y =? 4) && all_chars is_digit y.

(** The four characters of [s] from position [i] on are digits. *)
Definition four_digits_at (s : string) (i : nat) : bool :=
  is_year_text (substring i 4 s).

(** No position of [s] is followed by four digits. *)
Definition no_four_digits (s : string) : bool :=
  forallb (fun i => negb (four_digits_at s i)) (seq 0 (String.length s)).

(** The maximal runs of digits of a text, left to right. *)
Fixpoint digit_runs (s : string) : list string :=
  match s with
  | EmptyString => []
  | String c s' =>
      if is_digit c then
        match s' with
        | String c' _ =>
            if is_digit c' then
              match digit_runs s' with
              | r :: rs => String c r :: rs
              | [] => [String c EmptyString]
              end
            else String c EmptyString :: digit_runs s'
        | EmptyString => [String c EmptyString]
        end
      else digit_runs s'
  end.

(** The four digits at the head of a text, if it begins with four digits. *)
Definition head_four (s : string) : option string :=
  match s with
  | String a (String b (String c (String d _))) =>
      if is_digit a && is_digit b && is_digit c && is_digit d
      then Some (four a b c d) else None
  | _ => None
  end.

(** The first four digits in a row, reading from the left. *)
Fixpoint leftmost_four (s : string) : option string :=
  match head_four s with
  | Some y => Some y
  | None =>
      match s with
      | String _ s' => leftmost_four s'
      | EmptyString => None
      end
  end.

(** What one source contributes: its candidate, normalised. *)
Definition source_date (source : option node * string) : option string :=
  match candidate source with
  | Some date_str => parse_date_to_iso (Some date_str)
  | None => None
  end.

(** The tags that [date_sources] looks up. *)
Definition modified_tag (doc : soup) : option node :=
  find (Some "meta") [AttrIs "property" "article:modified_time"] doc.

Definition published_tag (doc : soup) : option node :=
  find (Some "meta") [AttrIs "property" "article:published_time"] doc.

Definition time_tag (doc : soup) : option node :=
  find (Some "time") [AttrAny "datetime"] doc.

(** A page with a modified-time tag that holds no date and a published-time
    tag that holds one. *)
Definition doc_two_tags : soup :=
  [Tag "html" [] []
     [Tag "head" [] []
        [Tag "meta" [("property", "article:modified_time");
                     ("content", "to be announced")] [] [];
         Tag "meta" [("property", "article:published_time");
                     ("content", "2025-02-15")] [] []]]].

(** A page whose only date is in the text of its post-header block. *)
Definition doc_post_header : soup :=
  [Tag "html" [] []
     [Tag "body" [] []
        [Tag "div" [] ["post-header"]
           [NavigableString "Updated: 5 March 2024"]]]].

(** The tags that [extract_metadata_from_url] looks up. *)
Definition title_tag (doc : soup) : option node :=
  find (Some "meta") [AttrIs "property" "og:title"] doc.

Definition name_author_tag (doc : soup) : option node :=
  find (Some "meta") [AttrIs "name" "author"] doc.

Definition article_author_tag (doc : soup) : option node :=
  find (Some "meta") [AttrIs "property" "article:author"] doc.

Definition og_author_tag (doc : soup) : option node :=
  find (Some "meta") [AttrIs "property" "og:author"] doc.

(** The tag that the author is read from. *)
Definition author_meta (doc : soup) : option node :=
  or_else (name_author_tag doc)
    (or_else (article_author_tag doc) (og_author_tag doc)).

(** A page whose [og:title] tag has no [content] attribute. *)
Definition doc_title_without_content : soup :=
  [Tag "html" [] []
     [Tag "head" [] []
        [Tag "meta" [("property", "og:title")] [] [];
         Tag "meta" [("name", "author"); ("content", "A. Writer")] [] [];
         Tag "meta" [("property", "article:published_time");
                     ("content", "2025-02-15")] [] []]]].

(** A page whose name=author tag has no [content] attribute and whose
    og:author tag has one. *)
Definition doc_author_without_content : soup :=
  [Tag "html" [] []
     [Tag "head" [] []
        [Tag "meta" [("property", "og:author"); ("content", "B. Later")] [] [];
         Tag "meta" [("name", "author")] [] []]]].

(** A text of the shape dddd-dd-dd. *)
Definition is_iso_date_text (r : string) : bool :=
  match r with
  | String y1 (String y2 (String y3 (String y4 (String s1 (String m1
      (String m2 (String s2 (String d1 (String d2 EmptyString))))))))) =>
      is_digit y1 && is_digit y2 && is_digit y3 && is_digit y4
      && is_char "-" s1 && is_digit m1 && is_digit m2
      && is_char "-" s2 && is_digit d1 && is_digit d2
  | _ => false
  end.

(** A text of the shape -dd-dd. *)
Definition is_month_day_text (t : string) : bool :=
  match t with
  | String s1 (String m1 (String m2 (String s2 (String d1
      (String d2 EmptyString))))) =>
      is_char "-" s1 && is_digit m1 && is_digit m2
      && is_char "-" s2 && is_digit d1 && is_digit d2
  | _ => false
  end.

(** Between one and [S k] digits, then -dd-dd. *)
Fixpoint digits_then (k : nat) (r : string) {struct r} : bool :=
  match r with
  | String c r' =>
      is_digit c
      && (is_month_day_text r'
          || match k with
             | 0 => false
             | S k' => digits_then k' r'
             end)
  | EmptyString => false
  end.

(** A text of the shape d-dd-dd, dd-dd-dd, ddd-dd-dd or dddd-dd-dd. *)
Definition is_date_text (r : string) : bool := digits_then 3 r.

Definition doc_header_two_dates : soup :=
  [Tag "article" [] []
     [Tag "header" [] ["article-header"; "wide"]
        [Tag "script" [] [] [SubclassString Script "var shown = '2020-01-01';"];
         SubclassString Comment " 2021-01-01 ";
         NavigableString "Posted Feb 3, 2024";
         Tag "span" [] [] [NavigableString " (revised 2024-13-45) "]]]].

(** The title of a page: absent, present, or a tag without value. *)
Definition title_of (doc : soup) : result (option string) :=
  match title_tag doc with
  | Some tag =>
      match get "content" tag with
      | Some v => Ok (Some v)
      | None => Raise "'content'"
      end
  | None => Ok None
  end.

(** Neither a meta tag, nor a time tag with a datetime, nor a div of class
    post-header, nor a tag of class article-header. *)
Definition is_plain (e : node) : bool :=
  negb (is_tag_named (Some "meta") e)
  && negb (is_tag_named (Some "time") e && meets e (AttrAny "datetime"))
  && negb (is_tag_named (Some "div") e && meets e (ClassIs "post-header"))
  && negb (meets e (ClassIs "article-header")).

Definition doc_plain : soup :=
  [Tag "html" [] []
     [Tag "body" [] ["article"]
        [Tag "time" [] [] [NavigableString "15 February 2025"];
         Tag "p" [("id", "lead")] [] [NavigableString "Written in 2025."]]]].

(** How the request for one URL can fail: an exception with a message, or
    a page whose title tag has no value. *)
Definition request_fails (outcome : result soup) : bool :=
  match outcome with
  | Raise e => truthy e
  | Ok doc =>
      match title_of doc with
      | Raise _ => true
      | Ok _ => false
      end
  end.

(** The URLs of a run, from request number [i] on, whose request does not
    fail. *)
Fixpoint count_ok (network : nat -> string -> result soup) (i : nat)
  (urls : list string) : nat :=
  match urls with
  | [] => 0
  | u :: rest =>
      (if request_fails (network i u) then 0 else 1)
      + count_ok network (S i) rest
  end.

(** The record has the key [error]. *)
Definition has_error (r : metadata) : bool :=
  match error r with
  | Some _ => true
  | None => false
  end.

(** The row of a record under given field names. *)
Definition row_of (fieldnames : list string) (r : metadata)
  : list (option string) :=
  map (cell r) fieldnames.

(** The message of the [ValueError] of the CSV writer. *)
Definition extra_field_message : string :=
  "dict contains fields not in fieldnames: 'error'".

Definition record_ok (u : string) : metadata :=
  {| url := u; og_title := Some "T"; author := None;
     article_date := Some "2025-02-15"; error := None |}.

Definition record_failed (u e : string) : metadata :=
  {| url := u; og_title := None; author := None;
     article_date := None; error := Some e |}.

(** No character class of the expression holds a white space character,
    and the expression has neither [\b] nor an unbounded repetition. *)
Fixpoint spaceless (r : re) : bool :=
  match r with
  | Eps => true
  | Chr p => forallb (fun c => implb (is_space c) (negb (p c))) all_ascii
  | Seq a b | Alt a b => spaceless a && spaceless b
  | Rep p _ (Some _) =>
      forallb (fun c => implb (is_space c) (negb (p c))) all_ascii
  | Rep _ _ None => false
  | Opt a | Grp _ a => spaceless a
  | Bnd => false
  end.

(** The same match, with [ws] behind the text that is left. *)
Definition extend (ws : string) (m : mres) : mres :=
  let '(t, rest, g) := m in (t, (rest ++ ws)%string, g).

(** The expression has no group. *)
Fixpoint no_grp (r : re) : bool :=
  match r with
  | Grp _ _ => false
  | Seq a b | Alt a b => no_grp a && no_grp b
  | Opt a => no_grp a
  | Eps | Chr _ | Rep _ _ _ | Bnd => true
  end.

(** The expression of [%d]. *)
Definition gd : re :=
  Grp "d" (alts [Seq (chr "3") (rng "0" "1");
                 Seq (rng "1" "2") digit;
                 Seq (chr "0") (rng "1" "9");
                 rng "1" "9";
                 Seq (chr " ") (rng "1" "9")]).

(** The expression of [%y]. *)
Definition gy : re := Grp "y" (Seq digit digit).

(** One or two digits and a dash. *)
Definition starts_short (t : string) : Prop :=
  exists c0 r,
    is_digit c0 = true
    /\ (t = String c0 (String "-" r)
        \/ exists c1, is_digit c1 = true
                      /\ t = String c0 (String c1 (String "-" r))).

(** The year that two digits stand for. *)
Definition pivot_year (yy : nat) : nat :=
  if yy <=? 68 then yy + 2000 else yy + 1900.

(** The names of the groups of an expression. *)
Fixpoint names (r : re) : list string :=
  match r with
  | Grp n a => n :: names a
  | Seq a b | Alt a b => names a ++ names b
  | Opt a => names a
  | Eps | Chr _ | Rep _ _ _ | Bnd => []
  end.

(** The groups that set the year, the month or the day. *)
Definition date_keys : list string := ["y"; "Y"; "m"; "B"; "b"; "d"].

(** The fields of the date. *)
Definition date_of (f : fields) : option nat * nat * nat :=
  (f_year f, f_month_ f, f_day f).

(** What comes after the day in the expression of a format. *)
Definition after_day (format : string) : re :=
  match tail_re format with
  | Seq _ (Seq _ (Seq _ (Seq _ k))) => k
  | _ => Eps
  end.

(** The separator of a year-led format. *)
Definition sep_of (format : string) : ascii :=
  if String.eqb format "%Y/%m/%d" then "/"%char else "-"%char.

Definition doc_modified_and_published : soup :=
  [Tag "html" [] []
     [Tag "head" [] []
        [Tag "meta" [("property", "article:published_time");
                     ("content", "2024-12-01T08:00:00Z")] [] [];
         Tag "meta" [("property", "article:modified_time");
                     ("content", "2025-02-15T10:30:00.250+01:00")] [] []]]].


(** * Properties *)

(** ** Worked inputs *)

Example parse_iso : parse_date_to_iso (Some "2025-02-15") = Some "2025-02-15".
Proof. vm_compute. reflexivity. Qed.

Example parse_iso_time_offset :
  parse_date_to_iso (Some "2025-02-15T10:30:00+05:30") = Some "2025-02-15".
Proof. vm_compute. reflexivity. Qed.

Example parse_month_names :
  parse_date_to_iso (Some "Feb 15, 2025") = Some "2025-02-15"
  /\ parse_date_to_iso (Some "February 15, 2025") = Some "2025-02-15".
Proof. vm_compute. split; reflexivity. Qed.

Example parse_two_digit_year :
  parse_date_to_iso (Some "15-Feb-25") = Some "2025-02-15".
Proof. vm_compute. reflexivity. Qed.

Example parse_year_only :
  parse_date_to_iso (Some "Published sometime in 2019, details TBD")
  = Some "2019-01-01".
Proof. vm_compute. reflexivity. Qed.

Example parse_offset_out_of_range :
  strptime "2025-02-15T10:30:00+2400" "%Y-%m-%dT%H:%M:%S%z" = None
  /\ parse_date_to_iso (Some "2025-02-15T10:30:00+2400") = Some "2025-02-15".
Proof. vm_compute. split; reflexivity. Qed.

Example parse_not_a_calendar_day :
  strptime "2025-02-30" "%Y-%m-%d" = None
  /\ parse_date_to_iso (Some "2025-02-30") = Some "2025-02-30".
Proof. vm_compute. split; reflexivity. Qed.

Example month_names_longest_first :
  sort_by_len f_month
  = ["september"; "february"; "november"; "december"; "january"; "october";
     "august"; "march"; "april"; "june"; "july"; "may"].
Proof. reflexivity. Qed.


(** ** Characters, by enumeration *)

Lemma in_all_ascii (c : ascii) : In c all_ascii.
Proof.
  unfold all_ascii. rewrite <- (ascii_nat_embedding c).
  apply in_map, in_seq. pose proof (nat_ascii_bounded c). lia.
Qed.

Lemma ascii_all (f : ascii -> bool) :
  forallb f all_ascii = true -> forall c, f c = true.
Proof.
  intros H c. rewrite forallb_forall in H. apply H, in_all_ascii.
Qed.

Lemma implb_true (a b : bool) : implb a b = true -> a = true -> b = true.
Proof. destruct a, b; simpl; congruence. Qed.

Lemma existsb_eqb_in (c : ascii) (l : list ascii) :
  existsb (Ascii.eqb c) l = true -> In c l.
Proof.
  rewrite existsb_exists. intros (x & Hx & He).
  apply Ascii.eqb_eq in He. subst. exact Hx.
Qed.

Lemma digit_in (c : ascii) : is_digit c = true -> In c digit_chars.
Proof.
  intros H. apply existsb_eqb_in. revert H. apply implb_true. revert c.
  apply (ascii_all
           (fun c => implb (is_digit c) (existsb (Ascii.eqb c) digit_chars))).
  vm_compute. reflexivity.
Qed.

Lemma sep_in (c : ascii) : is_sep c = true -> In c sep_chars.
Proof.
  intros H. apply existsb_eqb_in. revert H. apply implb_true. revert c.
  apply (ascii_all
           (fun c => implb (is_sep c) (existsb (Ascii.eqb c) sep_chars))).
  vm_compute. reflexivity.
Qed.

Lemma digit_not_space (c : ascii) : is_digit c = true -> is_space c = false.
Proof.
  intros H. apply negb_true_iff. revert H. apply implb_true. revert c.
  apply (ascii_all (fun c => implb (is_digit c) (negb (is_space c)))).
  vm_compute. reflexivity.
Qed.

Lemma digit_not_sep (c : ascii) : is_digit c = true -> is_sep c = false.
Proof.
  intros H. apply negb_true_iff. revert H. apply implb_true. revert c.
  apply (ascii_all (fun c => implb (is_digit c) (negb (is_sep c)))).
  vm_compute. reflexivity.
Qed.

(** ** Strings of digits *)

Lemma in_digit_strings (s : string) :
  all_chars is_digit s = true -> In s (digit_strings (String.length s)).
Proof.
  induction s as [|c s IH]; intros H.
  - left. reflexivity.
  - simpl in H. apply andb_true_iff in H. destruct H as [Hc Hs].
    change (In (String c s)
              (flat_map (fun c => map (String c)
                                      (digit_strings (String.length s)))
                        digit_chars)).
    apply in_flat_map. exists c. split; [apply digit_in, Hc|].
    apply in_map, IH, Hs.
Qed.

Lemma append_assoc (a b c : string) :
  ((a ++ b) ++ c)%string = (a ++ (b ++ c))%string.
Proof. induction a as [|x a IH]; simpl; [reflexivity | now rewrite IH]. Qed.

Lemma append_nil_r (a : string) : (a ++ "")%string = a.
Proof. induction a as [|x a IH]; simpl; [reflexivity | now rewrite IH]. Qed.

Lemma digit_char_val (c : ascii) :
  is_digit c = true -> digit_char (digit_val c) = c /\ digit_val c < 10.
Proof.
  intros H. apply digit_in in H. simpl in H.
  repeat (destruct H as [<-|H]; [split; [reflexivity | vm_compute; lia]|]).
  contradiction.
Qed.

Lemma zero_pad_step (w n d : nat) :
  d < 10 ->
  zero_pad (S w) (10 * n + d)
  = (zero_pad w n ++ String (digit_char d) EmptyString)%string.
Proof.
  intros Hd. cbn [zero_pad].
  replace ((10 * n + d) / 10) with n
    by (apply Nat.div_unique with d; lia).
  replace ((10 * n + d) mod 10) with d
    by (apply Nat.mod_unique with n; lia).
  reflexivity.
Qed.

(** Writing a number with as many digits as it was read from gives the
    digits back. *)
Lemma zero_pad_digits_val (s : string) :
  forall w acc,
    all_chars is_digit s = true ->
    zero_pad (w + String.length s) (digits_val acc s)
    = (zero_pad w acc ++ s)%string.
Proof.
  induction s as [|c s IH]; intros w acc H.
  - cbn [String.length digits_val]. rewrite Nat.add_0_r, append_nil_r.
    reflexivity.
  - simpl in H. apply andb_true_iff in H. destruct H as [Hc Hs].
    destruct (digit_char_val c Hc) as [Hdc Hlt].
    cbn [String.length digits_val].
    replace (w + S (String.length s)) with (S w + String.length s) by lia.
    rewrite (IH (S w) _ Hs), zero_pad_step by exact Hlt.
    rewrite Hdc, append_assoc. reflexivity.
Qed.

Lemma zero_pad_4 (s : string) :
  String.length s = 4 -> all_chars is_digit s = true ->
  zero_pad 4 (digits_val 0 s) = s.
Proof.
  intros Hl Hs. rewrite <- Hl at 1.
  apply (zero_pad_digits_val s 0 0 Hs).
Qed.

Lemma zero_pad_2 (s : string) :
  String.length s = 2 -> all_chars is_digit s = true ->
  zero_pad 2 (digits_val 0 s) = s.
Proof.
  intros Hl Hs. rewrite <- Hl at 1.
  apply (zero_pad_digits_val s 0 0 Hs).
Qed.

Lemma lstrip_digit (c : ascii) (s : string) :
  is_digit c = true -> lstrip (String c s) = String c s.
Proof. intros H. simpl. rewrite (digit_not_space c H). reflexivity. Qed.

Lemma rstrip_digits (s : string) :
  all_chars is_digit s = true -> rstrip s = s.
Proof.
  induction s as [|c s IH]; simpl; intros H; [reflexivity|].
  apply andb_true_iff in H. destruct H as [Hc Hs].
  rewrite (IH Hs). destruct s; [|reflexivity].
  rewrite (digit_not_space c Hc). reflexivity.
Qed.

Lemma py_int_digits (s : string) :
  truthy s = true -> all_chars is_digit s = true ->
  py_int s = Some (digits_val 0 s).
Proof.
  intros Ht Hs. unfold py_int, strip.
  destruct s as [|c s]; [discriminate|].
  simpl in Hs. apply andb_true_iff in Hs. destruct Hs as [Hc Hs].
  rewrite (lstrip_digit c s Hc), rstrip_digits.
  - simpl. rewrite Hc, Hs. reflexivity.
  - simpl. rewrite Hc, Hs. reflexivity.
Qed.


(** ** Numbers in decimal *)

(** A number of [S w] digits is written as [zero_pad] writes it. *)
Lemma decimal_digits_zero_pad (w : nat) :
  forall fuel n,
    n < fuel -> 10 ^ w <= n -> n < 10 ^ S w ->
    decimal_digits fuel n = zero_pad (S w) n.
Proof.
  induction w as [|w IH]; intros fuel n Hf Hlo Hhi.
  - destruct fuel as [|fuel]; [lia|].
    change (10 ^ 1) with 10 in Hhi.
    cbn [decimal_digits zero_pad].
    destruct (Nat.ltb_spec n 10) as [_|H]; [|lia].
    rewrite (Nat.mod_small n 10) by lia. reflexivity.
  - destruct fuel as [|fuel]; [lia|].
    assert (H10 : 10 <= n).
    { apply Nat.le_trans with (10 ^ S w); [|exact Hlo].
      rewrite Nat.pow_succ_r'. pose proof (Nat.pow_nonzero 10 w). lia. }
    cbn [decimal_digits]. destruct (Nat.ltb_spec n 10) as [H|_]; [lia|].
    rewrite (IH fuel (n / 10)).
    + reflexivity.
    + apply Nat.lt_le_trans with n; [|lia].
      apply Nat.div_lt; lia.
    + apply Nat.div_le_lower_bound; [lia|].
      rewrite <- Nat.pow_succ_r'. exact Hlo.
    + apply Nat.Div0.div_lt_upper_bound.
      rewrite <- Nat.pow_succ_r'. exact Hhi.
Qed.

(** From 1000 on a year is written with its four digits. *)
Lemma decimal_four_digits (n : nat) :
  1000 <= n -> n < 10 * 1000 -> decimal n = zero_pad 4 n.
Proof.
  intros Hlo Hhi. unfold decimal.
  apply (decimal_digits_zero_pad 3); [lia | exact Hlo | exact Hhi].
Qed.

(** Below 1000 it is written with fewer. *)
Lemma decimal_short (n : nat) :
  n < 1000 -> String.length (decimal n) <= 3.
Proof.
  intros H. unfold decimal.
  destruct (Nat.lt_ge_cases n 10) as [H1|H1].
  { cbn [decimal_digits]. destruct (Nat.ltb_spec n 10); [cbn; lia | lia]. }
  destruct (Nat.lt_ge_cases n 100) as [H2|H2].
  { rewrite (decimal_digits_zero_pad 1) by (cbn; lia).
    cbn [zero_pad String.length append]. lia. }
  rewrite (decimal_digits_zero_pad 2) by (cbn; lia).
  cbn [zero_pad String.length append]. lia.
Qed.

Lemma digit_val_nonzero (c : ascii) :
  is_digit c = true -> Ascii.eqb c "0" = false -> 1 <= digit_val c.
Proof.
  intros H H0. apply digit_in in H. simpl in H.
  repeat (destruct H as [<-|H]; [first [discriminate H0 | vm_compute; lia]|]).
  contradiction.
Qed.


(** ** Matching without word boundaries does not look back *)

Lemma rmatch_prev (r : re) :
  no_bnd r = true -> forall p p' s, rmatch r p s = rmatch r p' s.
Proof.
  induction r as [|q|a IHa b IHb|a IHa b IHb|q lo hi|a IHa| |n a IHa];
    cbn [no_bnd rmatch]; intros H p p' s; try reflexivity; try discriminate.
  - apply andb_true_iff in H. destruct H as [Ha Hb].
    rewrite (IHa Ha p p' s). apply flat_map_ext. intros [[t1 s1] g1].
    rewrite (IHb Hb (last_char p t1) (last_char p' t1) s1). reflexivity.
  - apply andb_true_iff in H. destruct H as [Ha Hb].
    rewrite (IHa Ha p p' s), (IHb Hb p p' s). reflexivity.
  - rewrite (IHa H p p' s). reflexivity.
  - rewrite (IHa H p p' s). reflexivity.
Qed.

(** ** Formats that begin with the year *)

Lemma pattern_year_format (format : string) :
  In format year_formats ->
  pattern format = Some (Seq gY (tail_re format))
  /\ no_bnd (tail_re format) = true.
Proof.
  intros H. simpl in H.
  repeat (destruct H as [<-|H]; [split; reflexivity|]). contradiction.
Qed.

Lemma rmatch_year_then (k : re) (prev : option ascii)
  (y1 y2 y3 y4 : ascii) (rest : string) :
  is_digit y1 = true -> is_digit y2 = true ->
  is_digit y3 = true -> is_digit y4 = true ->
  rmatch (Seq gY k) prev (four y1 y2 y3 y4 ++ rest)%string
  = map (fun m : mres =>
           let '(t, s, g) := m in
           ((four y1 y2 y3 y4 ++ t)%string, s, ("Y", four y1 y2 y3 y4) :: g))
        (rmatch k (Some y4) rest).
Proof.
  intros H1 H2 H3 H4.
  cbn -[is_digit]. rewrite H1. cbn -[is_digit]. rewrite H2. cbn -[is_digit]. rewrite H3. cbn -[is_digit]. rewrite H4. cbn -[is_digit].
  rewrite app_nil_r. apply map_ext. intros [[t s] g]. reflexivity.
Qed.

Lemma captures_eqb_eq (a b : captures) : captures_eqb a b = true -> a = b.
Proof.
  revert b. induction a as [|[k v] a IH]; intros [|[k' v'] b]; simpl;
    try discriminate; [reflexivity|].
  intros H. apply andb_true_iff in H. destruct H as [H Hab].
  apply andb_true_iff in H. destruct H as [Hk Hv].
  apply String.eqb_eq in Hk. apply String.eqb_eq in Hv.
  rewrite (IH b Hab). subst. reflexivity.
Qed.

Lemma in_tails (s1 m1 m2 s2 d1 d2 : ascii) :
  is_sep s1 = true -> is_digit m1 = true -> is_digit m2 = true ->
  is_sep s2 = true -> is_digit d1 = true -> is_digit d2 = true ->
  In (String s1 (two m1 m2 ++ String s2 (two d1 d2))%string) tails.
Proof.
  intros Hs1 Hm1 Hm2 Hs2 Hd1 Hd2. unfold tails.
  apply in_flat_map. exists s1. split; [apply sep_in, Hs1|].
  apply in_flat_map. exists (two m1 m2). split.
  { apply (in_digit_strings (two m1 m2)). simpl. rewrite Hm1, Hm2. reflexivity. }
  apply in_flat_map. exists s2. split; [apply sep_in, Hs2|].
  apply (in_map (fun D => String s1 (two m1 m2 ++ String s2 D)%string)).
  apply (in_digit_strings (two d1 d2)). simpl. rewrite Hd1, Hd2. reflexivity.
Qed.

Lemma tails_ok :
  forallb (fun r => forallb (tail_ok r) tails) (map tail_re year_formats) = true.
Proof. vm_compute. reflexivity. Qed.

Lemma tail_ok_of (format : string) (s1 m1 m2 s2 d1 d2 : ascii) :
  In format year_formats ->
  is_sep s1 = true -> is_digit m1 = true -> is_digit m2 = true ->
  is_sep s2 = true -> is_digit d1 = true -> is_digit d2 = true ->
  tail_ok (tail_re format)
    (String s1 (two m1 m2 ++ String s2 (two d1 d2))%string) = true.
Proof.
  intros Hf Hs1 Hm1 Hm2 Hs2 Hd1 Hd2.
  pose proof tails_ok as H. rewrite forallb_forall in H.
  specialize (H (tail_re format) (in_map tail_re _ _ Hf)).
  rewrite forallb_forall in H. apply H, in_tails; assumption.
Qed.

Lemma convert_ymd (Y M D : string) (y m d : nat) :
  py_int Y = Some y -> py_int M = Some m -> py_int D = Some d ->
  convert_all init [("Y", Y); ("m", M); ("d", D)]
  = Some {| f_year := Some y; f_month_ := m; f_day := d;
            f_hour := 0; f_minute := 0; f_second := 0; f_gmtoff := None |}.
Proof.
  intros HY HM HD. cbn -[py_int]. rewrite HY. cbn -[py_int].
  rewrite HM. cbn -[py_int]. rewrite HD. reflexivity.
Qed.

Lemma build_ymd (y m d : nat) :
  build {| f_year := Some y; f_month_ := m; f_day := d;
           f_hour := 0; f_minute := 0; f_second := 0; f_gmtoff := None |}
  = if check_date y m d
    then Some {| year := y; month := m; day := d;
                 hour := 0; minute := 0; second := 0 |}
    else None.
Proof.
  unfold build. cbn -[check_date].
  destruct (check_date y m d); reflexivity.
Qed.

(** Four digits that do not begin with [0] are written as they are. *)
Lemma year_text_four (y1 y2 y3 y4 : ascii) :
  is_digit y1 = true -> is_digit y2 = true ->
  is_digit y3 = true -> is_digit y4 = true ->
  Ascii.eqb y1 "0" = false ->
  year_text y1 y2 y3 y4 = four y1 y2 y3 y4.
Proof.
  intros H1 H2 H3 H4 H0. unfold year_text.
  assert (HY : all_chars is_digit (four y1 y2 y3 y4) = true)
    by (simpl; rewrite H1, H2, H3, H4; reflexivity).
  rewrite <- (zero_pad_4 (four y1 y2 y3 y4) eq_refl HY) at 2.
  pose proof (digit_val_nonzero y1 H1 H0) as B1.
  destruct (digit_char_val y1 H1) as [_ L1].
  destruct (digit_char_val y2 H2) as [_ L2].
  destruct (digit_char_val y3 H3) as [_ L3].
  destruct (digit_char_val y4 H4) as [_ L4].
  apply decimal_four_digits; unfold four; cbn [digits_val]; lia.
Qed.

(** A year-led format, on four digits, a separator, two digits, a separator
    and two digits, either fails or reads exactly these three numbers. *)
Lemma strptime_year_format (format : string)
  (y1 y2 y3 y4 s1 m1 m2 s2 d1 d2 : ascii) :
  In format year_formats ->
  is_digit y1 = true -> is_digit y2 = true ->
  is_digit y3 = true -> is_digit y4 = true ->
  is_sep s1 = true -> is_digit m1 = true -> is_digit m2 = true ->
  is_sep s2 = true -> is_digit d1 = true -> is_digit d2 = true ->
  let data := (four y1 y2 y3 y4
               ++ String s1 (two m1 m2 ++ String s2 (two d1 d2)))%string in
  strptime data format = None
  \/ exists dt,
      strptime data format = Some dt
      /\ strftime dt
         = (year_text y1 y2 y3 y4 ++ "-" ++ two m1 m2 ++ "-" ++ two d1 d2)%string.
Proof.
  intros Hf Hy1 Hy2 Hy3 Hy4 Hs1 Hm1 Hm2 Hs2 Hd1 Hd2 data.
  destruct (pattern_year_format format Hf) as [Hpat Hnb].
  pose proof (tail_ok_of format s1 m1 m2 s2 d1 d2 Hf Hs1 Hm1 Hm2 Hs2 Hd1 Hd2)
    as Hok.
  unfold strptime. rewrite Hpat. unfold re_match, data.
  rewrite rmatch_year_then by assumption.
  rewrite (rmatch_prev _ Hnb (Some y4) None).
  unfold tail_ok in Hok. cbn [two append] in Hok |- *.
  destruct (rmatch (tail_re format) None _) as [|[[t rest] g] l];
    [left; reflexivity|].
  cbn [map hd_error].
  destruct (truthy rest); [left; reflexivity|].
  cbn [orb] in Hok. apply captures_eqb_eq in Hok. subst g.
  assert (HY : all_chars is_digit (four y1 y2 y3 y4) = true)
    by (simpl; rewrite Hy1, Hy2, Hy3, Hy4; reflexivity).
  assert (HM : all_chars is_digit (two m1 m2) = true)
    by (simpl; rewrite Hm1, Hm2; reflexivity).
  assert (HD : all_chars is_digit (two d1 d2) = true)
    by (simpl; rewrite Hd1, Hd2; reflexivity).
  rewrite (convert_ymd _ _ _ _ _ _
             (py_int_digits (four y1 y2 y3 y4) eq_refl HY)
             (py_int_digits (two m1 m2) eq_refl HM)
             (py_int_digits (two d1 d2) eq_refl HD)).
  rewrite build_ymd.
  destruct (check_date _ _ _); [right | left; reflexivity].
  eexists. split; [reflexivity|].
  unfold strftime. cbn [year month day].
  rewrite (zero_pad_2 (two m1 m2) eq_refl HM), (zero_pad_2 (two d1 d2) eq_refl HD).
  reflexivity.
Qed.


Ltac digit_cases H :=
  apply digit_in in H; simpl in H;
  repeat (destruct H as [<-|H]); try contradiction.

(** The formats that do not begin with the year fail on a text that
    begins with three digits. *)
Lemma strptime_other_format (format : string) (y1 y2 y3 : ascii) (rest : string) :
  In format other_formats ->
  is_digit y1 = true -> is_digit y2 = true -> is_digit y3 = true ->
  strptime (String y1 (String y2 (String y3 rest))) format = None.
Proof.
  intros Hf H1 H2 H3. simpl in Hf.
  repeat (destruct Hf as [<-|Hf]); try contradiction.
  all: digit_cases H1; digit_cases H2; digit_cases H3.
  all: vm_compute; reflexivity.
Qed.

Lemma strip_digits_ends (c : ascii) (s : string) :
  is_digit c = true ->
  rstrip (String c s) = String c s ->
  strip (String c s) = String c s.
Proof. intros Hc Hr. unfold strip. rewrite (lstrip_digit c s Hc). exact Hr. Qed.

Lemma rstrip_cons (c : ascii) (s : string) :
  truthy s = true -> rstrip s = s -> rstrip (String c s) = String c s.
Proof.
  intros Ht Hs. cbn [rstrip]. rewrite Hs. destruct s; [discriminate|reflexivity].
Qed.

Lemma strip_ymd_shape (y1 y2 y3 y4 s1 m1 m2 s2 d1 d2 : ascii) :
  is_digit y1 = true -> is_digit d2 = true ->
  let data := (four y1 y2 y3 y4
               ++ String s1 (two m1 m2 ++ String s2 (two d1 d2)))%string in
  strip data = data.
Proof.
  intros Hy1 Hd2 data. apply (strip_digits_ends _ _ Hy1).
  repeat (apply rstrip_cons; [reflexivity|]).
  cbn [rstrip]. rewrite (digit_not_space d2 Hd2). reflexivity.
Qed.

Lemma search_ymd_shape (y1 y2 y3 y4 s1 m1 m2 s2 d1 d2 : ascii) :
  is_digit y1 = true -> is_digit y2 = true ->
  is_digit y3 = true -> is_digit y4 = true ->
  is_sep s1 = true -> is_digit m1 = true -> is_digit m2 = true ->
  is_sep s2 = true -> is_digit d1 = true -> is_digit d2 = true ->
  let data := (four y1 y2 y3 y4
               ++ String s1 (two m1 m2 ++ String s2 (two d1 d2)))%string in
  re_search ymd_re data
  = Some (data, EmptyString,
          [("1", four y1 y2 y3 y4); ("2", two m1 m2); ("3", two d1 d2)]).
Proof.
  intros Hy1 Hy2 Hy3 Hy4 Hs1 Hm1 Hm2 Hs2 Hd1 Hd2 data.
  unfold re_search, data. cbn -[is_digit is_sep].
  rewrite Hy1. cbn -[is_digit is_sep]. rewrite Hy2. cbn -[is_digit is_sep].
  rewrite Hy3. cbn -[is_digit is_sep]. rewrite Hy4. cbn -[is_digit is_sep].
  rewrite Hs1. cbn -[is_digit is_sep]. rewrite Hm1. cbn -[is_digit is_sep].
  rewrite Hm2. cbn -[is_digit is_sep]. rewrite Hs2. cbn -[is_digit is_sep].
  rewrite Hd1. cbn -[is_digit is_sep]. rewrite Hd2. cbn -[is_digit is_sep].
  reflexivity.
Qed.

(** Four digits, a separator, two digits, a separator, two digits, the
    separators being [-] or [/]: the result is the same year, month and day,
    written with [-]; when a format reads the text, the year is written
    without its leading zeros. *)
Lemma parse_ymd_text (y1 y2 y3 y4 s1 m1 m2 s2 d1 d2 : ascii) :
  is_digit y1 = true -> is_digit y2 = true ->
  is_digit y3 = true -> is_digit y4 = true ->
  is_sep s1 = true -> is_digit m1 = true -> is_digit m2 = true ->
  is_sep s2 = true -> is_digit d1 = true -> is_digit d2 = true ->
  let data := (four y1 y2 y3 y4
               ++ String s1 (two m1 m2 ++ String s2 (two d1 d2)))%string in
  parse_date_to_iso (Some data)
  = Some (four y1 y2 y3 y4 ++ "-" ++ two m1 m2 ++ "-" ++ two d1 d2)%string
  \/ parse_date_to_iso (Some data)
     = Some (year_text y1 y2 y3 y4 ++ "-" ++ two m1 m2 ++ "-" ++ two d1 d2)%string.
Proof.
  intros Hy1 Hy2 Hy3 Hy4 Hs1 Hm1 Hm2 Hs2 Hd1 Hd2.
  pose proof (fun f Hf => strptime_year_format f y1 y2 y3 y4 s1 m1 m2 s2 d1 d2
                Hf Hy1 Hy2 Hy3 Hy4 Hs1 Hm1 Hm2 Hs2 Hd1 Hd2) as Hyear.
  pose proof (fun f Hf => strptime_other_format f y1 y2 y3
                (String y4 (String s1 (two m1 m2 ++ String s2 (two d1 d2))))
                Hf Hy1 Hy2 Hy3) as Hother.
  pose proof (search_ymd_shape y1 y2 y3 y4 s1 m1 m2 s2 d1 d2
                Hy1 Hy2 Hy3 Hy4 Hs1 Hm1 Hm2 Hs2 Hd1 Hd2) as Hsearch.
  pose proof (strip_ymd_shape y1 y2 y3 y4 s1 m1 m2 s2 d1 d2 Hy1 Hd2) as Hstrip.
  cbv zeta in Hyear, Hsearch, Hstrip |- *.
  set (data := (four y1 y2 y3 y4
                ++ String s1 (two m1 m2 ++ String s2 (two d1 d2)))%string) in *.
  change (String y1 (String y2 (String y3
            (String y4 (String s1 (two m1 m2 ++ String s2 (two d1 d2)))))))
    with data in Hother.
  unfold parse_date_to_iso. change (negb (truthy data)) with false. cbv iota.
  unfold patterns. cbn [try_patterns try_group]. rewrite Hstrip.
  destruct (Hyear "%Y-%m-%d") as [->|(dt & -> & ->)];
    [simpl; tauto | | right; reflexivity].
  destruct (Hyear "%Y-%m-%dT%H:%M:%S%z") as [->|(dt & -> & ->)];
    [simpl; tauto | | right; reflexivity].
  destruct (Hyear "%Y-%m-%dT%H:%M:%S") as [->|(dt & -> & ->)];
    [simpl; tauto | | right; reflexivity].
  rewrite (Hother "%b %d, %Y") by (simpl; tauto).
  rewrite (Hother "%B %d, %Y") by (simpl; tauto).
  rewrite (Hother "%m/%d/%Y") by (simpl; tauto).
  rewrite (Hother "%d/%m/%Y") by (simpl; tauto).
  destruct (Hyear "%Y/%m/%d") as [->|(dt & -> & ->)];
    [simpl; tauto | | right; reflexivity].
  rewrite (Hother "%d-%b-%y") by (simpl; tauto).
  rewrite (Hother "%d-%B-%Y") by (simpl; tauto).
  rewrite Hsearch. left. reflexivity.
Qed.



(** ** The slash formats *)

Lemma flat_map_nonempty {A B : Type} (f : A -> list B) (l : list A) :
  flat_map f l <> [] -> exists x, In x l /\ f x <> [].
Proof.
  induction l as [|x l IH]; simpl; intros H; [contradiction|].
  destruct (f x) eqn:E.
  - destruct (IH H) as (y & Hy & Hf). exists y. auto.
  - exists x. split; [auto|]. rewrite E. discriminate.
Qed.

Lemma map_nonempty {A B : Type} (f : A -> B) (l : list A) :
  map f l <> [] -> l <> [].
Proof. destruct l; simpl; congruence. Qed.

Lemma rmatch_seq_nonempty (a b : re) (prev : option ascii) (s : string) :
  rmatch (Seq a b) prev s <> [] ->
  exists t1 s1 g1,
    In (t1, s1, g1) (rmatch a prev s)
    /\ rmatch b (last_char prev t1) s1 <> [].
Proof.
  cbn [rmatch]. intros H.
  destruct (flat_map_nonempty _ _ H) as ([[t1 s1] g1] & Hin & Hne).
  exists t1, s1, g1. split; [exact Hin|]. exact (map_nonempty _ _ Hne).
Qed.

Lemma rmatch_chr_nonempty (p : ascii -> bool) (prev : option ascii) (s : string) :
  rmatch (Chr p) prev s <> [] -> exists c r, s = String c r /\ p c = true.
Proof.
  cbn [rmatch]. destruct s as [|c r]; [congruence|].
  destruct (p c) eqn:E; [|congruence]. intros _. exists c, r. auto.
Qed.

Lemma char_impl (p q : ascii -> bool) :
  forallb (fun c => implb (p c) (q c)) all_ascii = true ->
  forall c, p c = true -> q c = true.
Proof.
  intros H c Hp. apply (implb_true (p c)); [|exact Hp].
  exact (ascii_all (fun c => implb (p c) (q c)) H c).
Qed.

Lemma ci_slash (c : ascii) : is_char_ci "/" c = true -> c = "/"%char.
Proof.
  intros H. symmetry. apply Ascii.eqb_eq. revert c H.
  apply char_impl. vm_compute. reflexivity.
Qed.

Lemma is_char_digit (a c : ascii) :
  is_digit a = true -> is_char a c = true -> is_digit c = true.
Proof. intros Ha H. apply Ascii.eqb_eq in H. subst. exact Ha. Qed.

Lemma in_range_digit (lo hi c : ascii) :
  is_digit lo = true -> is_digit hi = true ->
  in_range lo hi c = true -> is_digit c = true.
Proof.
  unfold is_digit, in_range. intros Hlo Hhi H.
  apply andb_true_iff in Hlo, Hhi, H.
  destruct Hlo as [Hlo _], Hhi as [_ Hhi], H as [H1 H2].
  apply N.leb_le in Hlo, Hhi, H1, H2.
  apply andb_true_iff. split; apply N.leb_le; lia.
Qed.

Ltac split_ifs H :=
  repeat match type of H with
         | context [if ?b then _ else _] =>
             let E := fresh "E" in
             destruct b eqn:E; cbn -[is_char in_range is_digit] in H
         end.

Ltac digit_fact :=
  solve [ eapply is_char_digit; [|eassumption]; reflexivity
        | eapply in_range_digit; [| |eassumption]; reflexivity ].

(** The month group takes one digit or two. *)
Lemma gm_results (prev : option ascii) (t t1 s1 : string) (g1 : captures) :
  In (t1, s1, g1) (rmatch gm prev t) ->
  exists c0,
    is_digit c0 = true
    /\ (t = String c0 s1
        \/ exists c1, is_digit c1 = true /\ t = String c0 (String c1 s1)).
Proof.
  intros H. destruct t as [|c0 [|c1 r]].
  - cbn in H. contradiction.
  - cbn -[is_char in_range is_digit] in H. split_ifs H.
    all: repeat (destruct H as [H|H]; [injection H as <- <- <-|]);
      try contradiction.
    all: exists c0; split; [digit_fact | left; reflexivity].
  - cbn -[is_char in_range is_digit] in H. split_ifs H.
    all: repeat (destruct H as [H|H]; [injection H as <- <- <-|]);
      try contradiction.
    all: exists c0; split; [digit_fact|].
    all: try (left; reflexivity).
    all: right; exists c1; split; [digit_fact | reflexivity].
Qed.

Lemma pattern_us :
  exists k, pattern "%m/%d/%Y" = Some (Seq gm (Seq (Chr (is_char_ci "/")) k)).
Proof. eexists. reflexivity. Qed.

(** A text that the US format reads begins with one or two digits and a
    slash. *)
Lemma us_prefix (t : string) :
  strptime t "%m/%d/%Y" <> None ->
  exists c0 r,
    is_digit c0 = true
    /\ (t = String c0 (String "/" r)
        \/ exists c1, is_digit c1 = true
                      /\ t = String c0 (String c1 (String "/" r))).
Proof.
  destruct pattern_us as [k Hk]. unfold strptime. rewrite Hk.
  unfold re_match. intros H.
  assert (Hne : rmatch (Seq gm (Seq (Chr (is_char_ci "/")) k)) None t <> []).
  { intros E. rewrite E in H. apply H. reflexivity. }
  destruct (rmatch_seq_nonempty _ _ _ _ Hne) as (t1 & s1 & g1 & Hin & Hne1).
  destruct (rmatch_seq_nonempty _ _ _ _ Hne1) as (t2 & s2 & g2 & Hin2 & _).
  assert (Hc : rmatch (Chr (is_char_ci "/")) (last_char None t1) s1 <> []).
  { intros E. rewrite E in Hin2. contradiction. }
  destruct (rmatch_chr_nonempty _ _ _ Hc) as (c & r & -> & Hci).
  apply ci_slash in Hci. subst c.
  destruct (gm_results _ _ _ _ _ Hin) as (c0 & Hc0 & Ht).
  exists c0, r. split; [exact Hc0|]. exact Ht.
Qed.

Lemma rmatch_gY_slash (prev : option ascii) (t : string) :
  (exists c0 r,
      t = String c0 (String "/" r)
      \/ exists c1, t = String c0 (String c1 (String "/" r))) ->
  rmatch gY prev t = [].
Proof.
  intros (c0 & r & [->|(c1 & ->)]); cbn -[is_digit].
  - destruct (is_digit c0); reflexivity.
  - destruct (is_digit c0); [|reflexivity]. cbn -[is_digit].
    destruct (is_digit c1); reflexivity.
Qed.

(** A year-led format fails on a text with a slash in second or third
    place. *)
Lemma strptime_year_format_slash (format : string) (t : string) :
  In format year_formats ->
  (exists c0 r,
      t = String c0 (String "/" r)
      \/ exists c1, t = String c0 (String c1 (String "/" r))) ->
  strptime t format = None.
Proof.
  intros Hf Ht. destruct (pattern_year_format format Hf) as [Hpat _].
  unfold strptime, re_match. rewrite Hpat. cbn [rmatch].
  rewrite (rmatch_gY_slash None t Ht). reflexivity.
Qed.

(** A format that begins with a month name fails on a text that begins
    with a digit. *)
Lemma strptime_name_format_digit (format : string) (c0 : ascii) (r : string) :
  In format ["%b %d, %Y"; "%B %d, %Y"] ->
  is_digit c0 = true ->
  strptime (String c0 r) format = None.
Proof.
  intros Hf H0. simpl in Hf.
  repeat (destruct Hf as [<-|Hf]); try contradiction.
  all: digit_cases H0.
  all: vm_compute; reflexivity.
Qed.

Lemma strip_empty_input (s : string) :
  truthy s = false -> strip s = EmptyString.
Proof. destruct s; [reflexivity | discriminate]. Qed.

(** C5. The US order is tried before the European one and the first format
    that parses decides: whenever the month/day/year format reads the
    trimmed input, the result is that reading, whatever day/month/year
    would give. *)
Theorem us_order_wins (s : string) (us : datetime) :
  strptime (strip s) "%m/%d/%Y" = Some us ->
  parse_date_to_iso (Some s) = Some (strftime us).
Proof.
  intros Hus.
  assert (Hne : strptime (strip s) "%m/%d/%Y" <> None) by congruence.
  destruct (us_prefix _ Hne) as (c0 & r & Hc0 & Ht).
  assert (Hs : truthy s = true).
  { destruct (truthy s) eqn:E; [reflexivity|].
    rewrite (strip_empty_input s E) in Hus. discriminate Hus. }
  assert (Hslash : exists c0 r,
             strip s = String c0 (String "/" r)
             \/ exists c1, strip s = String c0 (String c1 (String "/" r))).
  { exists c0, r. destruct Ht as [Ht|(c1 & _ & Ht)]; [left|right; exists c1];
      exact Ht. }
  assert (Hdigit : exists r', strip s = String c0 r').
  { destruct Ht as [Ht|(c1 & _ & Ht)]; rewrite Ht; eexists; reflexivity. }
  destruct Hdigit as [r' Hr'].
  unfold parse_date_to_iso. rewrite Hs. cbn [negb].
  unfold patterns. cbn [try_patterns try_group].
  rewrite (strptime_year_format_slash "%Y-%m-%d" _ (or_introl eq_refl) Hslash).
  rewrite (strptime_year_format_slash "%Y-%m-%dT%H:%M:%S%z" _
             (or_intror (or_introl eq_refl)) Hslash).
  rewrite (strptime_year_format_slash "%Y-%m-%dT%H:%M:%S" _
             (or_intror (or_intror (or_introl eq_refl))) Hslash).
  rewrite Hr'.
  rewrite (strptime_name_format_digit "%b %d, %Y" c0 r' (or_introl eq_refl) Hc0).
  rewrite (strptime_name_format_digit "%B %d, %Y" c0 r'
             (or_intror (or_introl eq_refl)) Hc0).
  rewrite <- Hr', Hus. reflexivity.
Qed.

Lemma us_order_wins_witness :
  option_map strftime (strptime (strip "03/04/2025") "%d/%m/%Y")
  = Some "2025-04-03"
  /\ parse_date_to_iso (Some "03/04/2025") = Some "2025-03-04".
Proof.
  split.
  - vm_compute. reflexivity.
  - apply (us_order_wins "03/04/2025"
             {| year := 2025; month := 3; day := 4;
                hour := 0; minute := 0; second := 0 |}).
    vm_compute. reflexivity.
Defined.


(** ** Four digits in a row *)

Lemma rep_four_digits (s : string) :
  map fst (rep is_digit 4 4 s)
  = match head_four s with
    | Some y => [y]
    | None => []
    end.
Proof.
  destruct s as [|a [|b [|c [|d r]]]]; cbn -[is_digit].
  - reflexivity.
  - destruct (is_digit a); reflexivity.
  - destruct (is_digit a); [|reflexivity]. cbn -[is_digit].
    destruct (is_digit b); reflexivity.
  - destruct (is_digit a); [|reflexivity]. cbn -[is_digit].
    destruct (is_digit b); [|reflexivity]. cbn -[is_digit].
    destruct (is_digit c); reflexivity.
  - destruct (is_digit a); [|reflexivity]. cbn -[is_digit].
    destruct (is_digit b); [|reflexivity]. cbn -[is_digit].
    destruct (is_digit c); [|reflexivity]. cbn -[is_digit].
    destruct (is_digit d); reflexivity.
Qed.

Lemma rmatch_year_re (prev : option ascii) (s : string) :
  map (group "1") (rmatch year_re prev s)
  = match head_four s with
    | Some y => [y]
    | None => []
    end.
Proof.
  rewrite <- rep_four_digits. unfold year_re, digits. cbn [rmatch].
  rewrite !map_map. apply map_ext. intros [t s']. reflexivity.
Qed.

Lemma search_year_re (s : string) :
  forall prev,
    option_map (group "1") (search_from year_re prev s) = leftmost_four s.
Proof.
  induction s as [|c s IH]; intros prev.
  - reflexivity.
  - cbn [search_from leftmost_four].
    pose proof (rmatch_year_re prev (String c s)) as H.
    destruct (head_four (String c s)) as [y|].
    + destruct (rmatch year_re prev (String c s)) as [|m l];
        [discriminate H|].
      injection H as H _. cbn [option_map]. rewrite H. reflexivity.
    + destruct (rmatch year_re prev (String c s)); [|discriminate H].
      apply IH.
Qed.

Lemma rmatch_ymd_re_none (prev : option ascii) (s : string) :
  head_four s = None -> rmatch ymd_re prev s = [].
Proof.
  intros H. pose proof (rep_four_digits s) as Hrep. rewrite H in Hrep.
  unfold ymd_re, digits. cbn [seqs rmatch].
  destruct (rep is_digit 4 4 s); [reflexivity | discriminate Hrep].
Qed.

Lemma leftmost_four_head (s : string) :
  leftmost_four s = None -> head_four s = None.
Proof.
  destruct s; cbn [leftmost_four]; [reflexivity|].
  destruct (head_four (String a s)); [discriminate | reflexivity].
Qed.

Lemma search_ymd_re_none (s : string) :
  forall prev, leftmost_four s = None -> search_from ymd_re prev s = None.
Proof.
  induction s as [|c s IH]; intros prev H.
  - reflexivity.
  - cbn [search_from].
    rewrite (rmatch_ymd_re_none prev _ (leftmost_four_head _ H)).
    apply IH. cbn [leftmost_four] in H.
    destruct (head_four (String c s)); [discriminate H | exact H].
Qed.

Lemma head_four_spec (s : string) :
  head_four s
  = if four_digits_at s 0 then Some (substring 0 4 s) else None.
Proof.
  unfold four_digits_at, is_year_text.
  destruct s as [|a [|b [|c [|d r]]]]; try reflexivity.
  cbn -[is_digit].
  replace (substring 0 0 r) with EmptyString by (destruct r; reflexivity).
  cbn -[is_digit]. rewrite !andb_true_r, !andb_assoc. reflexivity.
Qed.

Lemma four_digits_at_S (c : ascii) (s : string) (i : nat) :
  four_digits_at (String c s) (S i) = four_digits_at s i.
Proof. reflexivity. Qed.

Lemma four_digits_at_empty (i : nat) : four_digits_at EmptyString i = false.
Proof. destruct i; reflexivity. Qed.

(** The leftmost position followed by four digits decides. *)
Lemma leftmost_four_first (s : string) :
  forall i,
    four_digits_at s i = true ->
    (forall j, j < i -> four_digits_at s j = false) ->
    leftmost_four s = Some (substring i 4 s).
Proof.
  induction s as [|c s IH]; intros i Hi Hmin.
  - rewrite four_digits_at_empty in Hi. discriminate Hi.
  - cbn [leftmost_four]. rewrite head_four_spec.
    destruct i as [|i].
    + rewrite Hi. reflexivity.
    + rewrite (Hmin 0) by lia.
      rewrite four_digits_at_S in Hi.
      change (substring (S i) 4 (String c s)) with (substring i 4 s).
      apply IH; [exact Hi|].
      intros j Hj. rewrite <- (four_digits_at_S c). apply Hmin. lia.
Qed.

Lemma leftmost_four_none (s : string) :
  (forall i, four_digits_at s i = false) -> leftmost_four s = None.
Proof.
  induction s as [|c s IH]; intros H; [reflexivity|].
  cbn [leftmost_four]. rewrite head_four_spec, (H 0).
  apply IH. intros i. rewrite <- (four_digits_at_S c). apply H.
Qed.

Lemma substring_beyond (s : string) :
  forall i, String.length s <= i -> substring i 4 s = EmptyString.
Proof.
  induction s as [|c s IH]; intros i Hi.
  - destruct i; reflexivity.
  - destruct i as [|i]; [simpl in Hi; lia|].
    cbn [substring]. apply IH. simpl in Hi. lia.
Qed.

Lemma no_four_digits_all (s : string) :
  no_four_digits s = true -> forall i, four_digits_at s i = false.
Proof.
  intros H i. unfold no_four_digits in H. rewrite forallb_forall in H.
  destruct (Nat.lt_ge_cases i (String.length s)) as [Hlt|Hge].
  - apply negb_true_iff, H, in_seq. lia.
  - unfold four_digits_at. rewrite (substring_beyond s i Hge). reflexivity.
Qed.

(** What [parse_date_to_iso] does once the formats and the numeric triple
    have failed. *)
Lemma parse_year_fallback (s : string) :
  truthy s = true ->
  try_patterns s patterns = None ->
  re_search ymd_re s = None ->
  parse_date_to_iso (Some s)
  = option_map (fun y => (y ++ "-01-01")%string) (leftmost_four s).
Proof.
  intros Ht Htry Hymd. unfold parse_date_to_iso.
  rewrite Ht, Htry, Hymd. cbn [negb].
  rewrite <- (search_year_re s None). unfold re_search.
  destruct (search_from year_re None s); reflexivity.
Qed.

Lemma four_digits_at_truthy (s : string) (i : nat) :
  four_digits_at s i = true -> truthy s = true.
Proof.
  destruct s; [rewrite four_digits_at_empty; discriminate | reflexivity].
Qed.

(** C4, as stated: the year comes from a run of exactly four digits.  This
    fails: "12345" has one run of digits, of length five, no format reads
    it, it holds no numeric triple, and the result is the year 1234. *)
Lemma year_from_longer_run :
  digit_runs "12345" = ["12345"]
  /\ try_patterns "12345" patterns = None
  /\ re_search ymd_re "12345" = None
  /\ parse_date_to_iso (Some "12345") = Some "1234-01-01".
Proof. vm_compute. repeat split. Qed.

(** C4, amended. When no format parses and no numeric triple is found, the
    result is the leftmost four digits in a row, whether or not more digits
    follow or precede them, as the year, with month 01 and day 01; when the
    text has no four digits in a row, there is no result. *)
Theorem year_fallback_leftmost_four_digits (s : string) :
  try_patterns s patterns = None ->
  re_search ymd_re s = None ->
  (forall i,
      four_digits_at s i = true ->
      (forall j, j < i -> four_digits_at s j = false) ->
      parse_date_to_iso (Some s) = Some (substring i 4 s ++ "-01-01")%string)
  /\ (no_four_digits s = true -> parse_date_to_iso (Some s) = None).
Proof.
  intros Htry Hymd. split.
  - intros i Hi Hmin.
    rewrite (parse_year_fallback s (four_digits_at_truthy s i Hi) Htry Hymd).
    rewrite (leftmost_four_first s i Hi Hmin). reflexivity.
  - intros Hno. destruct (truthy s) eqn:Ht.
    + rewrite (parse_year_fallback s Ht Htry Hymd).
      rewrite (leftmost_four_none s (no_four_digits_all s Hno)). reflexivity.
    + destruct s; [reflexivity | discriminate Ht].
Qed.

Lemma year_fallback_leftmost_four_digits_witness :
  parse_date_to_iso (Some "in 12345 or so") = Some "1234-01-01"
  /\ parse_date_to_iso (Some "no date info") = None.
Proof.
  split.
  - apply (proj1 (year_fallback_leftmost_four_digits "in 12345 or so"
                    eq_refl eq_refl) 3).
    + reflexivity.
    + intros j Hj.
      destruct j as [|[|[|j]]]; [reflexivity | reflexivity | reflexivity | lia].
  - apply (proj2 (year_fallback_leftmost_four_digits "no date info"
                    eq_refl eq_refl)).
    reflexivity.
Defined.

(** C6, as stated: empty input and unparseable input fail in two ways that
    can be told apart.  This fails: both give [None]. *)
Lemma failure_kinds_coincide :
  ~ (parse_date_to_iso (Some "") <> parse_date_to_iso (Some "no date info")).
Proof. intros H. apply H. vm_compute. reflexivity. Qed.

(** C6, amended. There is one failure outcome, [None]: it is the result for
    null and for empty input, and also for a non-empty input that no format
    parses and that has no four digits in a row (hence no numeric triple and
    no year). *)
Theorem normalize_single_failure (s : string) :
  try_patterns s patterns = None ->
  no_four_digits s = true ->
  re_search ymd_re s = None
  /\ re_search year_re s = None
  /\ parse_date_to_iso (Some s) = None
  /\ parse_date_to_iso (Some s) = parse_date_to_iso (Some EmptyString)
  /\ parse_date_to_iso (Some s) = parse_date_to_iso None.
Proof.
  intros Htry Hno.
  pose proof (leftmost_four_none s (no_four_digits_all s Hno)) as Hleft.
  assert (Hymd : re_search ymd_re s = None)
    by (apply search_ymd_re_none, Hleft).
  assert (Hyear : re_search year_re s = None).
  { pose proof (search_year_re s None) as H. rewrite Hleft in H.
    unfold re_search. destruct (search_from year_re None s);
      [discriminate H | reflexivity]. }
  assert (Hparse : parse_date_to_iso (Some s) = None).
  { unfold parse_date_to_iso. rewrite Htry, Hymd, Hyear.
    destruct (negb (truthy s)); reflexivity. }
  rewrite Hparse. repeat split; assumption.
Qed.

Lemma normalize_single_failure_witness :
  parse_date_to_iso (Some "no date info") = None.
Proof.
  apply (normalize_single_failure "no date info"); vm_compute; reflexivity.
Defined.



(** ** The order of the date sources *)

Lemma parse_empty : parse_date_to_iso (Some EmptyString) = None.
Proof. reflexivity. Qed.

Lemma first_source_cons source rest :
  first_source (source :: rest)
  = or_else (source_date source) (first_source rest).
Proof.
  unfold source_date. cbn [first_source].
  destruct (candidate source) as [date_str|]; [|reflexivity].
  destruct (parse_date_to_iso (Some date_str)); reflexivity.
Qed.

Lemma first_source_skip pre :
  forall rest,
    (forall s, In s pre -> source_date s = None) ->
    first_source (pre ++ rest) = first_source rest.
Proof.
  induction pre as [|s pre IH]; intros rest Hpre; [reflexivity|].
  rewrite <- app_comm_cons, first_source_cons.
  rewrite (Hpre s (or_introl eq_refl)). simpl.
  apply IH. intros s' Hs'. apply Hpre. right. exact Hs'.
Qed.

Lemma extract_date_of_source doc pre src post d :
  date_sources doc = pre ++ src :: post ->
  (forall s, In s pre -> source_date s = None) ->
  source_date src = Some d ->
  extract_date doc = Some d.
Proof.
  intros Hsplit Hpre Hsrc. unfold extract_date.
  rewrite Hsplit, (first_source_skip pre (src :: post) Hpre).
  rewrite first_source_cons, Hsrc. reflexivity.
Qed.

Lemma source_date_tag tag attr v :
  get attr tag = Some v ->
  source_date (Some tag, attr) = parse_date_to_iso (Some v).
Proof.
  intros Hget. unfold source_date, candidate. simpl. rewrite Hget.
  destruct v; [symmetry; apply parse_empty | reflexivity].
Qed.

(** C1. The sources are tried in order (modified-time tag, published-time
    tag, time element, header text), each one giving way to the next when it
    yields no date; in particular a modified-time tag whose value does not
    normalise does not keep a valid published-time tag from giving the
    result. *)
Theorem locate_advances_past_unparseable (doc : soup) :
  extract_date doc
  = or_else (source_date (modified_tag doc, "content"))
      (or_else (source_date (published_tag doc, "content"))
         (or_else (source_date (time_tag doc, "datetime"))
            (match post_header doc with
             | Some header => first_pattern (get_text header) date_patterns
             | None => None
             end)))
  /\ forall tag_m v_m tag_p v_p d,
      modified_tag doc = Some tag_m ->
      get "content" tag_m = Some v_m ->
      parse_date_to_iso (Some v_m) = None ->
      published_tag doc = Some tag_p ->
      get "content" tag_p = Some v_p ->
      parse_date_to_iso (Some v_p) = Some d ->
      extract_date doc = Some d.
Proof.
  split.
  - unfold extract_date, date_sources.
    rewrite !first_source_cons.
    fold (modified_tag doc) (published_tag doc) (time_tag doc).
    destruct (source_date (modified_tag doc, "content")); [reflexivity|].
    destruct (source_date (published_tag doc, "content")); [reflexivity|].
    destruct (source_date (time_tag doc, "datetime")); reflexivity.
  - intros tag_m v_m tag_p v_p d Hm Hvm Hpm Hp Hvp Hpp.
    apply (extract_date_of_source doc
             [(modified_tag doc, "content")]
             (published_tag doc, "content")
             [(time_tag doc, "datetime")]).
    + reflexivity.
    + intros s [<-|[]]. rewrite Hm, (source_date_tag _ _ _ Hvm). exact Hpm.
    + rewrite Hp, (source_date_tag _ _ _ Hvp). exact Hpp.
Qed.

Lemma locate_advances_past_unparseable_witness :
  extract_date doc_two_tags = Some "2025-02-15".
Proof.
  apply (proj2 (locate_advances_past_unparseable doc_two_tags)
           (Tag "meta" [("property", "article:modified_time");
                        ("content", "to be announced")] [] [])
           "to be announced"
           (Tag "meta" [("property", "article:published_time");
                        ("content", "2025-02-15")] [] [])
           "2025-02-15" "2025-02-15");
    vm_compute; reflexivity.
Defined.

(** C2, as stated: the result is decided by the first tag that is present,
    whether or not its value normalises.  This fails: the modified-time tag
    of [doc_two_tags] is present, its value does not normalise, and the
    result comes from the published-time tag. *)
Lemma first_present_tag_does_not_decide :
  ~ (forall doc tag v,
        modified_tag doc = Some tag ->
        get "content" tag = Some v ->
        extract_date doc = parse_date_to_iso (Some v)).
Proof.
  intros H.
  specialize (H doc_two_tags
                (Tag "meta" [("property", "article:modified_time");
                             ("content", "to be announced")] [] [])
                "to be announced" eq_refl eq_refl).
  vm_compute in H. discriminate H.
Qed.

(** C2, amended. The result is the date of the first source, in the order of
    [date_sources], that is present with a value that normalises; sources
    before it that are absent, empty or not normalisable are passed over. *)
Theorem locate_first_normalizable (doc : soup) pre src post d :
  date_sources doc = pre ++ src :: post ->
  (forall s, In s pre -> source_date s = None) ->
  source_date src = Some d ->
  extract_date doc = Some d.
Proof. apply extract_date_of_source. Qed.

Lemma locate_first_normalizable_witness :
  extract_date doc_two_tags = Some "2025-02-15".
Proof.
  apply (locate_first_normalizable doc_two_tags
           [(modified_tag doc_two_tags, "content")]
           (published_tag doc_two_tags, "content")
           [(time_tag doc_two_tags, "datetime")]).
  - reflexivity.
  - intros s [<-|[]]. vm_compute. reflexivity.
  - vm_compute. reflexivity.
Defined.

(** ** The text fallback *)

(** C3. On a document whose only date evidence is a post-header block with
    the text "Updated: 5 March 2024" the day-first pattern finds
    "5 March 2024", no format of [parse_date_to_iso] reads it, and the
    year-only fallback answers 2024-01-01 instead of 2024-03-05. *)
Theorem locate_day_first_text :
  option_map group0
    (re_search (nth 2 date_patterns Eps) "Updated: 5 March 2024")
  = Some "5 March 2024"
  /\ try_patterns "5 March 2024" patterns = None
  /\ extract_date doc_post_header = Some "2024-01-01".
Proof. vm_compute. repeat split. Qed.

(** ** The metadata record *)

Lemma try_body_fetch_raises fetch u e :
  fetch u = Raise e -> try_body fetch u = Raise e.
Proof. intros H. unfold try_body. rewrite H. reflexivity. Qed.

Lemma try_body_no_title fetch u doc :
  fetch u = Ok doc ->
  title_tag doc = None ->
  try_body fetch u
  = Ok {| url := u; og_title := None;
          author := match author_meta doc with
                    | Some tag => get "content" tag
                    | None => None
                    end;
          article_date := extract_date doc; error := None |}.
Proof.
  intros Hf Ht. unfold try_body. rewrite Hf. cbn [bind].
  fold (title_tag doc). rewrite Ht. reflexivity.
Qed.

Lemma try_body_title fetch u doc tag :
  fetch u = Ok doc ->
  title_tag doc = Some tag ->
  try_body fetch u
  = match get "content" tag with
    | Some v =>
        Ok {| url := u; og_title := Some v;
              author := match author_meta doc with
                        | Some tag => get "content" tag
                        | None => None
                        end;
              article_date := extract_date doc; error := None |}
    | None => Raise "'content'"
    end.
Proof.
  intros Hf Ht. unfold try_body. rewrite Hf. cbn [bind].
  fold (title_tag doc). rewrite Ht. unfold getitem.
  destruct (get "content" tag); reflexivity.
Qed.

(** The three shapes of the returned record. *)
Lemma extract_metadata_cases fetch u :
  let r := extract_metadata_from_url fetch u in
  (exists e, error r = Some e /\ og_title r = None /\ author r = None
             /\ article_date r = None)
  \/ (exists doc, fetch u = Ok doc /\ error r = None
                  /\ author r = match author_meta doc with
                                | Some tag => get "content" tag
                                | None => None
                                end
                  /\ article_date r = extract_date doc).
Proof.
  unfold extract_metadata_from_url.
  destruct (fetch u) as [doc|e] eqn:Hf.
  - destruct (title_tag doc) as [tag|] eqn:Ht.
    + rewrite (try_body_title fetch u doc tag Hf Ht).
      destruct (get "content" tag) as [v|].
      * right. exists doc. repeat split; reflexivity.
      * left. exists "'content'". repeat split; reflexivity.
    + rewrite (try_body_no_title fetch u doc Hf Ht).
      right. exists doc. repeat split; reflexivity.
  - rewrite (try_body_fetch_raises fetch u e Hf).
    left. exists e. repeat split; reflexivity.
Qed.

(** C7. A page that was fetched and parsed, and whose [og:title] tag has no
    [content] attribute, gives a record with an error and without author
    and date: reading the title raises [KeyError], which the handler of the
    fetch errors catches.  The author and the date are read with [get]
    and do not raise. *)
Theorem extract_title_without_content_is_error :
  let r := extract_metadata_from_url
             (fun _ => Ok doc_title_without_content) "http://example.org/a" in
  error r = Some "'content'" /\ og_title r = None /\ author r = None
  /\ article_date r = None
  /\ extract_date doc_title_without_content = Some "2025-02-15"
  /\ option_map (get "content") (author_meta doc_title_without_content)
     = Some (Some "A. Writer").
Proof. vm_compute. repeat split. Qed.

(** C8. A record with an error has no title, no author and no date; a
    record with any of the three has no error. *)
Theorem error_excludes_content (fetch : string -> result soup) (u : string) :
  let r := extract_metadata_from_url fetch u in
  (error r <> None ->
   og_title r = None /\ author r = None /\ article_date r = None)
  /\ (og_title r <> None \/ author r <> None \/ article_date r <> None ->
      error r = None).
Proof.
  cbv zeta.
  destruct (extract_metadata_cases fetch u)
    as [(e & He & Ht & Ha & Hd) | (doc & _ & He & _)].
  - split.
    + intros _. auto.
    + rewrite Ht, Ha, Hd. intros [H|[H|H]]; contradiction H; reflexivity.
  - split.
    + intros H. contradiction.
    + intros _. exact He.
Qed.

Lemma error_excludes_content_witness :
  let r := extract_metadata_from_url (fun _ => Raise "timed out") "u" in
  og_title r = None /\ author r = None /\ article_date r = None.
Proof.
  apply (proj1 (error_excludes_content (fun _ => Raise "timed out") "u")).
  vm_compute. discriminate.
Defined.

(** C10. The author is read from the first author tag that is present, in
    the order name=author, article:author, og:author; when that tag has no
    [content] attribute the author is null, whatever the later tags
    hold. *)
Theorem author_commits_to_first_present_tag
  (fetch : string -> result soup) (u : string) (doc : soup) (tag : node) :
  fetch u = Ok doc ->
  name_author_tag doc = Some tag
  \/ (name_author_tag doc = None /\ article_author_tag doc = Some tag)
  \/ (name_author_tag doc = None /\ article_author_tag doc = None
      /\ og_author_tag doc = Some tag) ->
  get "content" tag = None ->
  author (extract_metadata_from_url fetch u) = None.
Proof.
  intros Hf Hfirst Hget.
  assert (Hmeta : author_meta doc = Some tag).
  { unfold author_meta.
    destruct Hfirst as [H1 | [[H1 H2] | (H1 & H2 & H3)]].
    - rewrite H1. reflexivity.
    - rewrite H1, H2. reflexivity.
    - rewrite H1, H2, H3. reflexivity. }
  destruct (extract_metadata_cases fetch u)
    as [(e & _ & _ & Ha & _) | (doc' & Hf' & _ & Ha & _)].
  - exact Ha.
  - rewrite Hf in Hf'. injection Hf' as <-.
    rewrite Ha, Hmeta. exact Hget.
Qed.

Lemma author_commits_to_first_present_tag_witness :
  og_author_tag doc_author_without_content
  = Some (Tag "meta" [("property", "og:author"); ("content", "B. Later")] [] [])
  /\ author (extract_metadata_from_url
               (fun _ => Ok doc_author_without_content) "u") = None.
Proof.
  split.
  - reflexivity.
  - apply (author_commits_to_first_present_tag
             (fun _ => Ok doc_author_without_content) "u"
             doc_author_without_content
             (Tag "meta" [("name", "author")] [] [])).
    + reflexivity.
    + left. reflexivity.
    + reflexivity.
Defined.


(** ** What a match holds *)

Lemma all_chars_app (p : ascii -> bool) (a b : string) :
  all_chars p (a ++ b)%string = all_chars p a && all_chars p b.
Proof.
  induction a as [|c a IH]; simpl; [reflexivity|].
  rewrite IH, andb_assoc. reflexivity.
Qed.

Lemma length_append (a b : string) :
  String.length (a ++ b)%string = String.length a + String.length b.
Proof. induction a as [|c a IH]; simpl; [reflexivity | now rewrite IH]. Qed.

(** [p{lo,hi}] takes between [lo] and [hi] characters, all in [p]. *)
Lemma rep_in (p : ascii -> bool) (hi : nat) :
  forall lo s t s',
    In (t, s') (rep p lo hi s) ->
    all_chars p t = true /\ lo <= String.length t <= hi
    /\ s = (t ++ s')%string.
Proof.
  induction hi as [|hi IH]; intros lo s t s' H; cbn [rep] in H.
  - destruct (Nat.eqb_spec lo 0) as [->|]; [|contradiction].
    destruct H as [H|[]]. injection H as <- <-. simpl. repeat split; lia.
  - apply in_app_or in H. destruct H as [H|H].
    + destruct s as [|c s]; [contradiction|].
      destruct (p c) eqn:Hc; [|contradiction].
      apply in_map_iff in H. destruct H as ([t0 s0] & Heq & Hin).
      cbn [fst snd] in Heq. injection Heq as <- <-.
      destruct (IH _ _ _ _ Hin) as (Hall & Hlen & ->).
      simpl. rewrite Hc, Hall. repeat split; lia.
    + destruct (Nat.eqb_spec lo 0) as [->|]; [|contradiction].
      destruct H as [H|[]]. injection H as <- <-. simpl. repeat split; lia.
Qed.

Lemma rmatch_seq_in (a b : re) (prev : option ascii) (s t s' : string)
  (g : captures) :
  In (t, s', g) (rmatch (Seq a b) prev s) ->
  exists t1 s1 g1 t2 g2,
    In (t1, s1, g1) (rmatch a prev s)
    /\ In (t2, s', g2) (rmatch b (last_char prev t1) s1)
    /\ t = (t1 ++ t2)%string /\ g = g1 ++ g2.
Proof.
  cbn [rmatch]. intros H. apply in_flat_map in H.
  destruct H as ([[t1 s1] g1] & H1 & H2).
  apply in_map_iff in H2. destruct H2 as ([[t2 s2] g2] & Heq & H2).
  injection Heq as <- <- <-. exists t1, s1, g1, t2, g2. auto.
Qed.

Lemma rmatch_grp_in (n : string) (a : re) (prev : option ascii)
  (s t s' : string) (g : captures) :
  In (t, s', g) (rmatch (Grp n a) prev s) ->
  exists g', g = (n, t) :: g' /\ In (t, s', g') (rmatch a prev s).
Proof.
  cbn [rmatch]. intros H. apply in_map_iff in H.
  destruct H as ([[t0 s0] g0] & Heq & H). injection Heq as <- <- <-.
  exists g0. auto.
Qed.

Lemma rmatch_rep_in (p : ascii -> bool) (lo hi : nat) (prev : option ascii)
  (s t s' : string) (g : captures) :
  In (t, s', g) (rmatch (Rep p lo (Some hi)) prev s) ->
  g = [] /\ all_chars p t = true /\ lo <= String.length t <= hi
  /\ s = (t ++ s')%string.
Proof.
  cbn [rmatch]. intros H. apply in_map_iff in H.
  destruct H as ([t0 s0] & Heq & H). cbn [fst snd] in Heq.
  injection Heq as <- <- <-. split; [reflexivity|]. exact (rep_in _ _ _ _ _ _ H).
Qed.

Lemma rmatch_chr_in (p : ascii -> bool) (prev : option ascii)
  (s t s' : string) (g : captures) :
  In (t, s', g) (rmatch (Chr p) prev s) ->
  exists c, t = String c EmptyString /\ p c = true /\ g = []
            /\ s = String c s'.
Proof.
  cbn [rmatch]. destruct s as [|c s]; [contradiction|].
  destruct (p c) eqn:Hc; [|contradiction].
  intros [H|[]]. injection H as <- <- <-. exists c. auto.
Qed.

Lemma rmatch_bnd_in (prev : option ascii) (s t s' : string) (g : captures) :
  In (t, s', g) (rmatch Bnd prev s) ->
  t = EmptyString /\ s' = s /\ g = []
  /\ xorb (is_word_opt prev) (is_word_opt (first_char s)) = true.
Proof.
  cbn [rmatch].
  destruct (xorb (is_word_opt prev) (is_word_opt (first_char s)));
    [|contradiction].
  intros [H|[]]. injection H as <- <- <-. auto.
Qed.

(** A match found by [re.search] is a match at some position. *)
Lemma search_from_in (r : re) (s : string) :
  forall prev m,
    search_from r prev s = Some m ->
    exists prev' s', In m (rmatch r prev' s').
Proof.
  induction s as [|c s IH]; intros prev m H; cbn [search_from] in H.
  - destruct (rmatch r prev "") as [|m0 l] eqn:E; [discriminate|].
    injection H as <-. exists prev, "". rewrite E. left. reflexivity.
  - destruct (rmatch r prev (String c s)) as [|m0 l] eqn:E.
    + exact (IH _ _ H).
    + injection H as <-. exists prev, (String c s). rewrite E. left.
      reflexivity.
Qed.

Lemma digits_in (lo hi : nat) (prev : option ascii) (s t s' : string)
  (g : captures) :
  In (t, s', g) (rmatch (digits lo hi) prev s) ->
  g = [] /\ all_chars is_digit t = true /\ lo <= String.length t <= hi
  /\ s = (t ++ s')%string.
Proof. apply rmatch_rep_in. Qed.

Lemma iso_text_of_parts (y m d : string) :
  String.length y = 4 -> all_chars is_digit y = true ->
  String.length m = 2 -> all_chars is_digit m = true ->
  String.length d = 2 -> all_chars is_digit d = true ->
  is_iso_date_text (y ++ "-" ++ m ++ "-" ++ d)%string = true.
Proof.
  intros Hy Dy Hm Dm Hd Dd.
  destruct y as [|y1 [|y2 [|y3 [|y4 [|]]]]]; try discriminate Hy.
  destruct m as [|m1 [|m2 [|]]]; try discriminate Hm.
  destruct d as [|d1 [|d2 [|]]]; try discriminate Hd.
  cbn -[is_digit] in Dy, Dm, Dd |- *.
  rewrite !andb_true_r in Dy, Dm, Dd.
  apply andb_true_iff in Dm, Dd. destruct Dm as [-> ->], Dd as [-> ->].
  rewrite !andb_assoc in Dy. rewrite Dy. reflexivity.
Qed.

(** The groups of a numeric triple: four digits, two digits, two digits. *)
Lemma ymd_re_groups (prev : option ascii) (s : string) (m : mres) :
  In m (rmatch ymd_re prev s) ->
  is_iso_date_text
    (group "1" m ++ "-" ++ group "2" m ++ "-" ++ group "3" m)%string = true.
Proof.
  destruct m as [[t s'] g]. unfold ymd_re. cbn [seqs]. intros H.
  apply rmatch_seq_in in H.
  destruct H as (t1 & s1 & g1 & ta & ga & H1 & H & -> & ->).
  apply rmatch_grp_in in H1. destruct H1 as (g1' & -> & H1).
  apply digits_in in H1. destruct H1 as (-> & D1 & L1 & _).
  apply rmatch_seq_in in H.
  destruct H as (c1 & s2 & gc1 & tb & gb & Hc1 & H & -> & ->).
  apply rmatch_chr_in in Hc1. destruct Hc1 as (x1 & _ & _ & -> & _).
  apply rmatch_seq_in in H.
  destruct H as (t2 & s3 & g2 & tc & gc & H2 & H & -> & ->).
  apply rmatch_grp_in in H2. destruct H2 as (g2' & -> & H2).
  apply digits_in in H2. destruct H2 as (-> & D2 & L2 & _).
  apply rmatch_seq_in in H.
  destruct H as (c2 & s4 & gc2 & t3 & g3 & Hc2 & H3 & -> & ->).
  apply rmatch_chr_in in Hc2. destruct Hc2 as (x2 & _ & _ & -> & _).
  apply rmatch_grp_in in H3. destruct H3 as (g3' & -> & H3).
  apply digits_in in H3. destruct H3 as (-> & D3 & L3 & _).
  unfold group. cbn. apply iso_text_of_parts; try assumption; lia.
Qed.

(** ** The shape of the result *)

Lemma digit_char_digit (k : nat) : k < 10 -> is_digit (digit_char k) = true.
Proof.
  intros H.
  do 10 (destruct k as [|k]; [reflexivity|]). lia.
Qed.

Lemma zero_pad_shape (w : nat) :
  forall n,
    String.length (zero_pad w n) = w
    /\ all_chars is_digit (zero_pad w n) = true.
Proof.
  induction w as [|w IH]; intros n; [split; reflexivity|].
  cbn [zero_pad]. destruct (IH (n / 10)) as [Hl Hd].
  rewrite length_append, all_chars_app, Hl, Hd.
  cbn [String.length all_chars andb].
  rewrite digit_char_digit by (apply Nat.mod_upper_bound; lia).
  split; [lia | reflexivity].
Qed.

Lemma digits_then_app (y t : string) :
  forall k,
    1 <= String.length y <= S k -> all_chars is_digit y = true ->
    is_month_day_text t = true ->
    digits_then k (y ++ t)%string = true.
Proof.
  induction y as [|c y IH]; intros k Hl Hd Ht; cbn [String.length] in Hl;
    [lia|].
  cbn [all_chars] in Hd. apply andb_true_iff in Hd. destruct Hd as [Hc Hd].
  cbn [append digits_then]. rewrite Hc. cbn [andb].
  destruct y as [|c' y].
  - cbn [append]. rewrite Ht. reflexivity.
  - destruct k as [|k]; [cbn [String.length] in Hl; lia|].
    rewrite (IH k); [apply orb_true_r | cbn [String.length] in Hl |- *; lia
                    | exact Hd | exact Ht].
Qed.

Lemma month_day_text_of_parts (m d : string) :
  String.length m = 2 -> all_chars is_digit m = true ->
  String.length d = 2 -> all_chars is_digit d = true ->
  is_month_day_text ("-" ++ m ++ "-" ++ d)%string = true.
Proof.
  intros Hm Dm Hd Dd.
  destruct m as [|m1 [|m2 [|]]]; try discriminate Hm.
  destruct d as [|d1 [|d2 [|]]]; try discriminate Hd.
  cbn -[is_digit] in Dm, Dd |- *.
  rewrite !andb_true_r in Dm, Dd.
  apply andb_true_iff in Dm, Dd. destruct Dm as [-> ->], Dd as [-> ->].
  reflexivity.
Qed.

Lemma date_text_of_parts (y m d : string) :
  1 <= String.length y <= 4 -> all_chars is_digit y = true ->
  String.length m = 2 -> all_chars is_digit m = true ->
  String.length d = 2 -> all_chars is_digit d = true ->
  is_date_text (y ++ "-" ++ m ++ "-" ++ d)%string = true.
Proof.
  intros Hy Dy Hm Dm Hd Dd. apply digits_then_app; [exact Hy | exact Dy |].
  apply month_day_text_of_parts; assumption.
Qed.

Lemma iso_text_is_date_text (r : string) :
  is_iso_date_text r = true -> is_date_text r = true.
Proof.
  intros H.
  destruct r as [|y1 [|y2 [|y3 [|y4 [|s1 [|m1 [|m2 [|s2 [|d1 [|d2 [|]]]]]]]]]]];
    try discriminate H.
  cbn -[is_digit is_char] in H.
  do 9 (apply andb_true_iff in H; destruct H as [H ?]).
  repeat match goal with
         | E : is_char _ _ = true |- _ => apply Ascii.eqb_eq in E; subst
         end.
  apply (date_text_of_parts (String y1 (String y2 (String y3 (String y4 ""))))
           (String m1 (String m2 "")) (String d1 (String d2 "")));
    cbn -[is_digit]; try lia; try reflexivity;
    repeat match goal with E : is_digit _ = true |- _ => rewrite E; clear E end;
    reflexivity.
Qed.

(** A date text of ten characters has a year of four digits. *)
Lemma date_text_ten (r : string) :
  is_date_text r = true -> String.length r = 10 -> is_iso_date_text r = true.
Proof.
  intros H L.
  destruct r as [|y1 [|y2 [|y3 [|y4 [|s1 [|m1 [|m2 [|s2 [|d1 [|d2 [|]]]]]]]]]]];
    try discriminate L.
  unfold is_date_text in H. cbn -[is_digit is_char] in H |- *.
  rewrite ?orb_false_r, ?orb_false_l in H.
  rewrite !andb_assoc in H. exact H.
Qed.

(** A year up to 9999 in decimal: between one and four digits. *)
Lemma decimal_shape (n : nat) :
  n < 10 * 1000 ->
  1 <= String.length (decimal n) <= 4
  /\ all_chars is_digit (decimal n) = true.
Proof.
  intros H.
  assert (E : exists w, w < 4 /\ decimal n = zero_pad (S w) n).
  { unfold decimal.
    destruct (Nat.lt_ge_cases n 10) as [H1|H1].
    { exists 0. split; [lia|]. cbn [decimal_digits zero_pad append].
      destruct (Nat.ltb_spec n 10); [|lia].
      rewrite (Nat.mod_small n 10) by lia. reflexivity. }
    destruct (Nat.lt_ge_cases n 100) as [H2|H2].
    { exists 1. split; [lia|]. apply decimal_digits_zero_pad; cbn; lia. }
    destruct (Nat.lt_ge_cases n 1000) as [H3|H3].
    { exists 2. split; [lia|]. apply decimal_digits_zero_pad; cbn; lia. }
    exists 3. split; [lia|]. apply decimal_digits_zero_pad; cbn; lia. }
  destruct E as (w & Hw & ->).
  destruct (zero_pad_shape (S w) n) as [L D]. rewrite L. split; [lia | exact D].
Qed.

(** What [strptime] returns has passed the checks of the constructors. *)
Lemma build_valid (f : fields) (dt : datetime) :
  build f = Some dt ->
  check_date (year dt) (month dt) (day dt) = true.
Proof.
  unfold build.
  destruct (check_date _ (f_month_ f) (f_day f)); [|discriminate].
  match goal with
  | |- (if ?c then _ else _) = _ -> _ => destruct c eqn:E; [|discriminate]
  end.
  intros H. injection H as <-. cbn [year month day].
  apply andb_true_iff in E. destruct E as [E _].
  apply andb_true_iff in E. destruct E as [_ E]. exact E.
Qed.

Lemma strptime_valid (data format : string) (dt : datetime) :
  strptime data format = Some dt ->
  check_date (year dt) (month dt) (day dt) = true.
Proof.
  unfold strptime.
  destruct (pattern format) as [r|]; [|discriminate].
  destruct (re_match r data) as [[[t rest] g]|]; [|discriminate].
  destruct (truthy rest); [discriminate|].
  destruct (convert_all init g) as [f|]; [|discriminate].
  apply build_valid.
Qed.

Lemma check_date_year (y m d : nat) :
  check_date y m d = true -> 1 <= y /\ y < 10 * 1000.
Proof.
  unfold check_date. intros H.
  do 4 (apply andb_true_iff in H; destruct H as [H _]).
  apply andb_true_iff in H. destruct H as [H1 H2].
  apply Nat.leb_le in H1. apply Nat.ltb_lt in H2. lia.
Qed.

(** The date of a calendar day, as [strftime] writes it. *)
Lemma strftime_shape (dt : datetime) :
  check_date (year dt) (month dt) (day dt) = true ->
  is_date_text (strftime dt) = true.
Proof.
  intros H. unfold strftime.
  destruct (check_date_year _ _ _ H) as [_ Hy].
  destruct (decimal_shape (year dt) Hy) as [Ly Dy].
  destruct (zero_pad_shape 2 (month dt)) as [Lm Dm].
  destruct (zero_pad_shape 2 (day dt)) as [Ld Dd].
  apply date_text_of_parts; assumption.
Qed.

Lemma try_group_some (s : string) (pattern_group : list string) (r : string) :
  try_group s pattern_group = Some r ->
  exists format dt,
    In format pattern_group
    /\ strptime (strip s) format = Some dt /\ r = strftime dt.
Proof.
  induction pattern_group as [|f fs IH]; cbn [try_group]; [discriminate|].
  destruct (strptime (strip s) f) as [dt|] eqn:E.
  - intros H. injection H as <-. exists f, dt. simpl. auto.
  - intros H. destruct (IH H) as (f' & dt & Hin & Hs & Hr).
    exists f', dt. simpl. auto.
Qed.

(** A result of the formats is what one of them parsed. *)
Lemma try_patterns_some (s : string) (groups : list (list string)) (r : string) :
  try_patterns s groups = Some r ->
  exists format dt,
    In format (concat groups)
    /\ strptime (strip s) format = Some dt /\ r = strftime dt.
Proof.
  induction groups as [|g gs IH]; cbn [try_patterns]; [discriminate|].
  destruct (try_group s g) as [iso|] eqn:E.
  - intros H. injection H as <-.
    destruct (try_group_some s g iso E) as (f & dt & Hin & Hs & Hr).
    exists f, dt. split; [|auto]. cbn [concat]. apply in_or_app. auto.
  - intros H. destruct (IH H) as (f & dt & Hin & Hs & Hr).
    exists f, dt. split; [|auto]. cbn [concat]. apply in_or_app. auto.
Qed.

Lemma leftmost_four_shape (s y : string) :
  leftmost_four s = Some y ->
  String.length y = 4 /\ all_chars is_digit y = true.
Proof.
  induction s as [|c s IH]; cbn [leftmost_four]; [discriminate|].
  destruct (head_four (String c s)) as [y0|] eqn:E.
  - intros H. injection H as <-. unfold head_four in E.
    destruct s as [|b [|c' [|d r]]]; try discriminate E.
    destruct (is_digit c && is_digit b && is_digit c' && is_digit d) eqn:D;
      [|discriminate E].
    injection E as <-. split; [reflexivity|].
    cbn -[is_digit]. rewrite andb_true_r, !andb_assoc. exact D.
  - exact IH.
Qed.

(** A result is a date text; it has a year of four digits unless a
    format read the input. *)
Lemma parse_some_date_text (date_str : option string) (r : string) :
  parse_date_to_iso date_str = Some r ->
  is_date_text r = true
  /\ (is_iso_date_text r = true
      \/ exists s format dt,
          date_str = Some s /\ In format (concat patterns)
          /\ strptime (strip s) format = Some dt /\ r = strftime dt).
Proof.
  destruct date_str as [s|]; [|discriminate].
  unfold parse_date_to_iso.
  destruct (negb (truthy s)); [discriminate|].
  destruct (try_patterns s patterns) as [iso|] eqn:Et.
  - intros H. injection H as <-.
    destruct (try_patterns_some s patterns iso Et) as (f & dt & Hf & Hs & ->).
    split.
    + apply strftime_shape. exact (strptime_valid _ _ _ Hs).
    + right. exists s, f, dt. auto.
  - destruct (re_search ymd_re s) as [m|] eqn:Ey.
    + intros H. injection H as <-.
      destruct (search_from_in ymd_re s None m Ey) as (p & s' & Hin).
      pose proof (ymd_re_groups p s' m Hin) as Hm.
      split; [apply iso_text_is_date_text, Hm | left; exact Hm].
    + pose proof (search_year_re s None) as Hy. unfold re_search.
      destruct (search_from year_re None s) as [m|]; [|discriminate].
      intros H. injection H as <-. cbn [option_map] in Hy. symmetry in Hy.
      destruct (leftmost_four_shape s _ Hy) as [L D].
      change (group "1" m ++ "-01-01")%string
        with (group "1" m ++ "-" ++ "01" ++ "-" ++ "01")%string.
      assert (Hm : is_iso_date_text
                     (group "1" m ++ "-" ++ "01" ++ "-" ++ "01")%string = true)
        by (apply iso_text_of_parts; auto).
      split; [apply iso_text_is_date_text, Hm | left; exact Hm].
Qed.

(** X1. A result has the shape of a year of one to four digits, [-], two
    digits, [-], two digits; the year has four digits unless one of the
    formats read the input and the year is below 1000, which [strftime]
    writes without leading zeros. *)
Theorem parse_result_is_date_text (date_str : option string) (r : string) :
  parse_date_to_iso date_str = Some r ->
  is_date_text r = true
  /\ (is_iso_date_text r = true
      \/ exists s format dt,
          date_str = Some s /\ In format (concat patterns)
          /\ strptime (strip s) format = Some dt /\ year dt < 1000
          /\ r = strftime dt).
Proof.
  intros H. destruct (parse_some_date_text date_str r H) as [Hd Hc].
  split; [exact Hd|].
  destruct Hc as [Hc|(s & f & dt & -> & Hf & Hs & ->)]; [left; exact Hc|].
  destruct (Nat.lt_ge_cases (year dt) 1000) as [Hy|Hy].
  - right. exists s, f, dt. auto.
  - left. apply date_text_ten; [exact Hd|].
    pose proof (strptime_valid _ _ _ Hs) as Hv.
    destruct (check_date_year _ _ _ Hv) as [_ Hhi].
    unfold strftime. rewrite (decimal_four_digits _ Hy Hhi).
    destruct (zero_pad_shape 4 (year dt)) as [Ly _].
    destruct (zero_pad_shape 2 (month dt)) as [Lm _].
    destruct (zero_pad_shape 2 (day dt)) as [Ld _].
    rewrite !length_append, Ly, Lm, Ld. reflexivity.
Qed.

Lemma parse_result_is_date_text_witness :
  is_date_text "2019-01-01" = true
  /\ (is_iso_date_text "2019-01-01" = true
      \/ exists s format dt,
          Some "Published sometime in 2019, details TBD" = Some s
          /\ In format (concat patterns)
          /\ strptime (strip s) format = Some dt /\ year dt < 1000
          /\ "2019-01-01" = strftime dt).
Proof.
  apply (parse_result_is_date_text
           (Some "Published sometime in 2019, details TBD")).
  vm_compute. reflexivity.
Defined.

(** A text of the shape dddd-dd-dd that does not begin with [0] is read as
    itself. *)
Lemma parse_iso_text (r : string) :
  is_iso_date_text r = true -> prefix "0" r = false ->
  parse_date_to_iso (Some r) = Some r.
Proof.
  intros H H0.
  destruct r as [|y1 [|y2 [|y3 [|y4 [|s1 [|m1 [|m2 [|s2 [|d1 [|d2 [|]]]]]]]]]]];
    try discriminate H.
  cbn -[is_digit is_char] in H.
  do 9 (apply andb_true_iff in H; destruct H as [H ?]).
  repeat match goal with
         | E : is_char _ _ = true |- _ => apply Ascii.eqb_eq in E; subst
         end.
  rename H into Hy1.
  assert (Hz : Ascii.eqb y1 "0" = false).
  { cbn [prefix] in H0. destruct (Ascii.eqb_spec "0"%char y1) as [<-|N].
    - discriminate H0.
    - apply Ascii.eqb_neq. congruence. }
  match goal with
  | Hy2 : is_digit y2 = true, Hy3 : is_digit y3 = true,
    Hy4 : is_digit y4 = true, Hm1 : is_digit m1 = true,
    Hm2 : is_digit m2 = true, Hd1 : is_digit d1 = true,
    Hd2 : is_digit d2 = true |- _ =>
      pose proof (parse_ymd_text y1 y2 y3 y4 "-" m1 m2 "-" d1 d2
                    Hy1 Hy2 Hy3 Hy4 eq_refl Hm1 Hm2 eq_refl Hd1 Hd2) as Hp;
      rewrite (year_text_four y1 y2 y3 y4 Hy1 Hy2 Hy3 Hy4 Hz) in Hp
  end.
  cbv zeta in Hp. destruct Hp as [Hp|Hp]; exact Hp.
Qed.

(** X2. A result of ten characters that does not begin with [0] is a fixed
    point: normalising it again gives the same result.  The texts are, as
    everywhere here, over U+0000..U+00FF, where the digits are 0 to 9. *)
Theorem four_digit_result_is_fixed_point (date_str : option string)
  (r : string) :
  parse_date_to_iso date_str = Some r ->
  String.length r = 10 -> prefix "0" r = false ->
  parse_date_to_iso (Some r) = Some r.
Proof.
  intros H L H0. apply parse_iso_text; [|exact H0].
  apply date_text_ten; [|exact L].
  exact (proj1 (parse_some_date_text date_str r H)).
Qed.

Lemma four_digit_result_is_fixed_point_witness :
  parse_date_to_iso (Some "1234-01-01") = Some "1234-01-01".
Proof.
  apply (four_digit_result_is_fixed_point (Some "12345"));
    vm_compute; reflexivity.
Defined.


(** ** Formats and the calendar *)

Lemma try_patterns_empty : try_patterns EmptyString patterns = None.
Proof. vm_compute. reflexivity. Qed.



(** ** Blank input *)

Lemma space_not_digit (c : ascii) : is_space c = true -> is_digit c = false.
Proof.
  intros H. apply negb_true_iff. revert c H.
  apply char_impl. vm_compute. reflexivity.
Qed.

Lemma lstrip_spaces (s : string) :
  all_chars is_space s = true -> lstrip s = EmptyString.
Proof.
  induction s as [|c s IH]; simpl; [reflexivity|].
  intros H. apply andb_true_iff in H. destruct H as [Hc Hs].
  rewrite Hc. exact (IH Hs).
Qed.

Lemma head_four_not_digit (c : ascii) (s : string) :
  is_digit c = false -> head_four (String c s) = None.
Proof.
  intros H. unfold head_four. destruct s as [|b [|c' [|d r]]]; try reflexivity.
  rewrite H. reflexivity.
Qed.

Lemma leftmost_four_spaces (s : string) :
  all_chars is_space s = true -> leftmost_four s = None.
Proof.
  induction s as [|c s IH]; [reflexivity|].
  simpl all_chars. intros H. apply andb_true_iff in H. destruct H as [Hc Hs].
  cbn [leftmost_four].
  rewrite (head_four_not_digit c s (space_not_digit c Hc)). exact (IH Hs).
Qed.

Lemma parse_no_format_no_digits (s : string) :
  try_patterns s patterns = None ->
  leftmost_four s = None ->
  parse_date_to_iso (Some s) = None.
Proof.
  intros Ht Hl. unfold parse_date_to_iso.
  destruct (negb (truthy s)); [reflexivity|].
  rewrite Ht. unfold re_search. rewrite (search_ymd_re_none s None Hl).
  pose proof (search_year_re s None) as H. rewrite Hl in H.
  destruct (search_from year_re None s); [discriminate H | reflexivity].
Qed.

Lemma try_patterns_strip (s t : string) :
  strip s = strip t -> try_patterns s patterns = try_patterns t patterns.
Proof.
  intros H. unfold patterns. cbn [try_patterns try_group]. rewrite H.
  reflexivity.
Qed.

Lemma blank_input_has_no_date_aux (s : string) :
  all_chars is_space s = true -> parse_date_to_iso (Some s) = None.
Proof.
  intros H. apply parse_no_format_no_digits.
  - rewrite (try_patterns_strip s EmptyString).
    + exact try_patterns_empty.
    + unfold strip. rewrite (lstrip_spaces s H). reflexivity.
  - exact (leftmost_four_spaces s H).
Qed.

(** X4. An input of white space only, like the empty input, has no
    date. *)
Theorem blank_input_has_no_date (s : string) :
  all_chars is_space s = true -> parse_date_to_iso (Some s) = None.
Proof. apply blank_input_has_no_date_aux. Qed.

Lemma blank_input_has_no_date_witness :
  parse_date_to_iso
    (Some (String " " (String (ascii_of_nat 9) (String (ascii_of_nat 10) ""))))
  = None.
Proof. apply blank_input_has_no_date. reflexivity. Defined.


(** ** The dates that [extract_date] returns *)

Lemma first_source_some (sources : list (option node * string)) (d : string) :
  first_source sources = Some d ->
  exists v, parse_date_to_iso (Some v) = Some d.
Proof.
  induction sources as [|src rest IH]; cbn [first_source]; [discriminate|].
  destruct (candidate src) as [v|]; [|exact IH].
  destruct (parse_date_to_iso (Some v)) as [iso|] eqn:E; [|exact IH].
  intros H. injection H as <-. exists v. exact E.
Qed.

Lemma first_pattern_some (text : string) (pats : list re) (d : string) :
  first_pattern text pats = Some d ->
  exists v, parse_date_to_iso (Some v) = Some d.
Proof.
  induction pats as [|p rest IH]; cbn [first_pattern]; [discriminate|].
  destruct (re_search p text) as [m|]; [|exact IH].
  destruct (parse_date_to_iso (Some (group0 m))) as [iso|] eqn:E; [|exact IH].
  intros H. injection H as <-. exists (group0 m). exact E.
Qed.

Lemma extract_date_some (doc : soup) (d : string) :
  extract_date doc = Some d ->
  exists v, parse_date_to_iso (Some v) = Some d.
Proof.
  unfold extract_date.
  destruct (first_source (date_sources doc)) as [iso|] eqn:E.
  - intros H. injection H as <-. exact (first_source_some _ _ E).
  - destruct (post_header doc) as [h|]; [|discriminate].
    apply first_pattern_some.
Qed.

Lemma extract_date_is_date_text_aux (doc : soup) (d : string) :
  extract_date doc = Some d ->
  is_date_text d = true
  /\ (String.length d = 10 -> prefix "0" d = false ->
      parse_date_to_iso (Some d) = Some d).
Proof.
  intros H. destruct (extract_date_some doc d H) as [v Hv].
  destruct (parse_some_date_text (Some v) d Hv) as [Hd _].
  split; [exact Hd|]. intros L H0.
  exact (parse_iso_text d (date_text_ten d Hd L) H0).
Qed.

(** X5. A date found in a document, from a tag or from the header text,
    has the shape of a year of one to four digits, [-], two digits, [-],
    two digits; when it has ten characters and does not begin with [0], a
    further normalisation leaves it unchanged (texts over U+0000..U+00FF,
    where the digits are 0 to 9). *)
Theorem extract_date_is_date_text (doc : soup) (d : string) :
  extract_date doc = Some d ->
  is_date_text d = true
  /\ (String.length d = 10 -> prefix "0" d = false ->
      parse_date_to_iso (Some d) = Some d).
Proof. apply extract_date_is_date_text_aux. Qed.

Lemma extract_date_is_date_text_witness :
  is_date_text "2024-01-01" = true
  /\ (String.length "2024-01-01" = 10 -> prefix "0" "2024-01-01" = false ->
      parse_date_to_iso (Some "2024-01-01") = Some "2024-01-01").
Proof. apply (extract_date_is_date_text doc_post_header). reflexivity. Defined.

(** ** A date in the header text *)

Lemma first_source_date_sources (doc : soup) :
  first_source (date_sources doc)
  = or_else (source_date (modified_tag doc, "content"))
      (or_else (source_date (published_tag doc, "content"))
               (source_date (time_tag doc, "datetime"))).
Proof.
  unfold date_sources. rewrite !first_source_cons.
  fold (modified_tag doc) (published_tag doc) (time_tag doc).
  destruct (source_date (modified_tag doc, "content")); [reflexivity|].
  destruct (source_date (published_tag doc, "content")); [reflexivity|].
  destruct (source_date (time_tag doc, "datetime")); reflexivity.
Qed.

(** What the first pattern of the header text matches. *)
Lemma iso_pattern_match (prev : option ascii) (s : string) (m : mres) :
  In m (rmatch (nth 0 date_patterns Eps) prev s) ->
  is_iso_date_text (group0 m) = true.
Proof.
  destruct m as [[t s'] g]. cbn [nth date_patterns seqs group0 fst]. intros H.
  apply rmatch_seq_in in H.
  destruct H as (t0 & s0 & g0 & ta & ga & H0 & H & -> & ->).
  apply rmatch_bnd_in in H0. destruct H0 as (-> & _).
  apply rmatch_seq_in in H.
  destruct H as (t1 & s1 & g1 & tb & gb & H1 & H & -> & ->).
  apply digits_in in H1. destruct H1 as (_ & D1 & L1 & _).
  apply rmatch_seq_in in H.
  destruct H as (c1 & s2 & gc1 & tc & gc & Hc1 & H & -> & ->).
  apply rmatch_chr_in in Hc1. destruct Hc1 as (x1 & -> & Hx1 & _).
  apply Ascii.eqb_eq in Hx1. subst x1.
  apply rmatch_seq_in in H.
  destruct H as (t2 & s3 & g2 & td & gd & H2 & H & -> & ->).
  apply digits_in in H2. destruct H2 as (_ & D2 & L2 & _).
  apply rmatch_seq_in in H.
  destruct H as (c2 & s4 & gc2 & te & ge & Hc2 & H & -> & ->).
  apply rmatch_chr_in in Hc2. destruct Hc2 as (x2 & -> & Hx2 & _).
  apply Ascii.eqb_eq in Hx2. subst x2.
  apply rmatch_seq_in in H.
  destruct H as (t3 & s5 & g3 & tf & gf & H3 & H & -> & ->).
  apply digits_in in H3. destruct H3 as (_ & D3 & L3 & _).
  apply rmatch_bnd_in in H. destruct H as (-> & _).
  cbn [append]. rewrite append_nil_r.
  apply iso_text_of_parts; try assumption; lia.
Qed.

(** X6. When no tag gives a date and the text of the header block, as
    [get_text] gives it, holds four digits, [-], two digits, [-], two
    digits between word boundaries, the first such text, if it does not
    begin with [0], is the result as it stands, whether or not it is a day
    of the calendar and whatever else the header says.  The text of
    comments and of scripts and styles inside the header is not part of
    what is searched. *)
Theorem header_iso_text_verbatim (doc : soup) (header : node) (m : mres) :
  source_date (modified_tag doc, "content") = None ->
  source_date (published_tag doc, "content") = None ->
  source_date (time_tag doc, "datetime") = None ->
  post_header doc = Some header ->
  re_search (nth 0 date_patterns Eps) (get_text header) = Some m ->
  prefix "0" (group0 m) = false ->
  extract_date doc = Some (group0 m).
Proof.
  intros Hm Hp Ht Hh Hs H0. unfold extract_date.
  rewrite first_source_date_sources, Hm, Hp, Ht, Hh. cbn [or_else].
  destruct (search_from_in _ _ _ _ Hs) as (p & s' & Hin).
  pose proof (parse_iso_text _ (iso_pattern_match p s' m Hin) H0) as Hparse.
  unfold date_patterns. cbn [first_pattern].
  cbn [nth date_patterns] in Hs. rewrite Hs, Hparse. reflexivity.
Qed.

Lemma header_iso_text_verbatim_witness :
  extract_date doc_header_two_dates = Some "2024-13-45".
Proof.
  apply (header_iso_text_verbatim doc_header_two_dates
           (Tag "header" [] ["article-header"; "wide"]
              [Tag "script" [] []
                 [SubclassString Script "var shown = '2020-01-01';"];
               SubclassString Comment " 2021-01-01 ";
               NavigableString "Posted Feb 3, 2024";
               Tag "span" [] [] [NavigableString " (revised 2024-13-45) "]])
           ("2024-13-45", ") ", []));
    vm_compute; reflexivity.
Defined.


(** ** The record of one URL *)

(** The record in full, from the outcome of the request. *)
Lemma extract_metadata_spec (fetch : string -> result soup) (u : string) :
  extract_metadata_from_url fetch u
  = match fetch u with
    | Raise e =>
        {| url := u; og_title := None; author := None;
           article_date := None; error := Some e |}
    | Ok doc =>
        match title_of doc with
        | Raise e =>
            {| url := u; og_title := None; author := None;
               article_date := None; error := Some e |}
        | Ok title =>
            {| url := u; og_title := title;
               author := match author_meta doc with
                         | Some tag => get "content" tag
                         | None => None
                         end;
               article_date := extract_date doc; error := None |}
        end
    end.
Proof.
  unfold extract_metadata_from_url, title_of.
  destruct (fetch u) as [doc|e] eqn:Hf.
  - destruct (title_tag doc) as [tag|] eqn:Ht.
    + rewrite (try_body_title fetch u doc tag Hf Ht).
      destruct (get "content" tag); reflexivity.
    + rewrite (try_body_no_title fetch u doc Hf Ht). reflexivity.
  - rewrite (try_body_fetch_raises fetch u e Hf). reflexivity.
Qed.

(** X7. A record has an error exactly when the request raised, and then
    the error is the message of the exception, or when the page has an
    og:title tag without [content], and then the error is ['content']. *)
Theorem error_iff_fetch_or_title (fetch : string -> result soup)
  (u e : string) :
  error (extract_metadata_from_url fetch u) = Some e
  <-> fetch u = Raise e
      \/ exists doc tag,
          fetch u = Ok doc /\ title_tag doc = Some tag
          /\ get "content" tag = None /\ e = "'content'".
Proof.
  rewrite extract_metadata_spec. unfold title_of. split.
  - destruct (fetch u) as [doc|e0].
    + destruct (title_tag doc) as [tag|] eqn:Ht; [|discriminate].
      destruct (get "content" tag) eqn:Hg; [discriminate|].
      intros H. injection H as <-. right. exists doc, tag. auto.
    + intros H. injection H as <-. left. reflexivity.
  - intros [H|(doc & tag & Hf & Ht & Hg & ->)].
    + rewrite H. reflexivity.
    + rewrite Hf, Ht, Hg. reflexivity.
Qed.

(** X8. The record carries the URL it was asked for, and its date, when
    it has one, has the shape of a year of one to four digits, [-], two
    digits, [-], two digits. *)
Theorem record_url_and_date (fetch : string -> result soup) (u : string) :
  let r := extract_metadata_from_url fetch u in
  url r = u
  /\ forall d, article_date r = Some d -> is_date_text d = true.
Proof.
  cbv zeta. rewrite extract_metadata_spec.
  destruct (fetch u) as [doc|e].
  - destruct (title_of doc) as [title|e].
    + split; [reflexivity|]. cbn [article_date]. intros d H.
      exact (proj1 (extract_date_is_date_text_aux doc d H)).
    + split; [reflexivity | discriminate].
  - split; [reflexivity | discriminate].
Qed.

Lemma error_iff_fetch_or_title_witness :
  error (extract_metadata_from_url (fun _ => Raise "timed out") "u")
  = Some "timed out".
Proof.
  apply (proj2 (error_iff_fetch_or_title (fun _ => Raise "timed out")
                  "u" "timed out")).
  left. reflexivity.
Defined.

Lemma record_url_and_date_witness :
  is_date_text "2024-01-01" = true.
Proof.
  apply (proj2 (record_url_and_date (fun _ => Ok doc_post_header) "u")).
  reflexivity.
Defined.

(** ** A page without the tags that are looked up *)

Lemma list_find_none {A : Type} (f : A -> bool) (l : list A) :
  (forall x, In x l -> f x = false) -> List.find f l = None.
Proof.
  induction l as [|x l IH]; intros H; [reflexivity|].
  cbn [List.find]. rewrite (H x (or_introl eq_refl)).
  apply IH. intros y Hy. apply H. right. exact Hy.
Qed.

Lemma find_none (name : option string) (criteria : list criterion)
  (doc : soup) :
  (forall e, In e (descendants doc) ->
             is_tag_named name e && forallb (meets e) criteria = false) ->
  find name criteria doc = None.
Proof. intros H. unfold find. apply list_find_none. exact H. Qed.

Lemma plain_page_finds (doc : soup) :
  forallb is_plain (descendants doc) = true ->
  (forall c, find (Some "meta") [c] doc = None)
  /\ time_tag doc = None /\ post_header doc = None.
Proof.
  intros H. rewrite forallb_forall in H.
  assert (Hp : forall e, In e (descendants doc) ->
                         is_tag_named (Some "meta") e = false
                         /\ is_tag_named (Some "time") e
                            && meets e (AttrAny "datetime") = false
                         /\ is_tag_named (Some "div") e
                            && meets e (ClassIs "post-header") = false
                         /\ meets e (ClassIs "article-header") = false).
  { intros e He. specialize (H e He). unfold is_plain in H.
    repeat (apply andb_true_iff in H; destruct H as [H ?]).
    repeat match goal with
           | E : negb _ = true |- _ => apply negb_true_iff in E
           end.
    auto. }
  split; [|split].
  - intros c. apply find_none. intros e He.
    destruct (Hp e He) as (-> & _). reflexivity.
  - apply find_none. intros e He.
    destruct (Hp e He) as (_ & E & _). cbn [forallb].
    rewrite andb_true_r. exact E.
  - unfold post_header.
    rewrite (find_none (Some "div") [ClassIs "post-header"] doc).
    + cbn [or_else]. apply find_none. intros e He.
      destruct (Hp e He) as (_ & _ & _ & E). cbn [forallb].
      rewrite andb_true_r, E. apply andb_false_r.
    + intros e He. destruct (Hp e He) as (_ & _ & E & _). cbn [forallb].
      rewrite andb_true_r. exact E.
Qed.

(** X9. A page that was fetched and has none of the tags that are looked
    up gives the record with the URL alone: no title, no author, no date,
    and no error. *)
Theorem plain_page_gives_empty_record (fetch : string -> result soup)
  (u : string) (doc : soup) :
  fetch u = Ok doc ->
  forallb is_plain (descendants doc) = true ->
  extract_metadata_from_url fetch u
  = {| url := u; og_title := None; author := None;
       article_date := None; error := None |}.
Proof.
  intros Hf Hplain.
  destruct (plain_page_finds doc Hplain) as (Hmeta & Htime & Hhead).
  rewrite extract_metadata_spec, Hf.
  unfold title_of, title_tag, author_meta, name_author_tag,
    article_author_tag, og_author_tag.
  rewrite !Hmeta. cbn [or_else].
  unfold extract_date. rewrite first_source_date_sources.
  unfold modified_tag, published_tag. rewrite !Hmeta, Htime, Hhead.
  reflexivity.
Qed.

Lemma plain_page_gives_empty_record_witness :
  extract_metadata_from_url (fun _ => Ok doc_plain) "http://example.org/"
  = {| url := "http://example.org/"; og_title := None; author := None;
       article_date := None; error := None |}.
Proof.
  apply (plain_page_gives_empty_record (fun _ => Ok doc_plain)
           "http://example.org/" doc_plain); reflexivity.
Defined.


(** ** The list of URLs *)

Lemma lstrip_head (s : string) :
  lstrip s = EmptyString
  \/ exists c r, lstrip s = String c r /\ is_space c = false.
Proof.
  induction s as [|c s IH]; [left; reflexivity|].
  cbn [lstrip]. destruct (is_space c) eqn:E; [exact IH|].
  right. exists c, s. auto.
Qed.

Lemma rstrip_idempotent (s : string) : rstrip (rstrip s) = rstrip s.
Proof.
  induction s as [|c s IH]; [reflexivity|].
  cbn [rstrip]. destruct (rstrip s) as [|x r] eqn:E.
  - destruct (is_space c) eqn:Hc; [reflexivity|].
    cbn [rstrip]. rewrite Hc. reflexivity.
  - change (rstrip (String c (String x r)))
      with (match rstrip (String x r) with
            | EmptyString =>
                if is_space c then EmptyString else String c EmptyString
            | r0 => String c r0
            end).
    rewrite IH. reflexivity.
Qed.

Lemma rstrip_head (c : ascii) (s : string) :
  is_space c = false -> exists r, rstrip (String c s) = String c r.
Proof.
  intros Hc. cbn [rstrip]. destruct (rstrip s) as [|x r].
  - rewrite Hc. eexists. reflexivity.
  - eexists. reflexivity.
Qed.

(** Stripping twice is stripping once. *)
Lemma strip_idempotent (s : string) : strip (strip s) = strip s.
Proof.
  unfold strip. destruct (lstrip_head s) as [H|(c & r & H & Hc)]; rewrite H.
  - reflexivity.
  - destruct (rstrip_head c r Hc) as [r' Hr].
    rewrite Hr. cbn [lstrip]. rewrite Hc, <- Hr. apply rstrip_idempotent.
Qed.

(** X10. Every URL that is crawled is non-empty and carries no white space
    at its ends. *)
Theorem urls_are_stripped (lines : list string) (u : string) :
  In u (read_urls lines) -> truthy u = true /\ strip u = u.
Proof.
  unfold read_urls. intros H. apply in_map_iff in H.
  destruct H as (line & <- & H). apply filter_In in H.
  destruct H as [_ H]. apply andb_true_iff in H. destruct H as [H _].
  split; [exact H | apply strip_idempotent].
Qed.

Lemma urls_are_stripped_witness :
  truthy "http://example.org/a" = true
  /\ strip "http://example.org/a" = "http://example.org/a".
Proof.
  apply (urls_are_stripped
           ["# list"; "";
            String " " ("http://example.org/a"
                        ++ String (ascii_of_nat 10) "")]%string).
  vm_compute. left. reflexivity.
Defined.

(** X11. The comment mark is looked for at the very start of the line,
    before stripping: a line that begins with white space and is not blank
    is crawled, also when [#] is what follows the white space. *)
Theorem indented_line_is_crawled (lines : list string) (c : ascii)
  (rest : string) :
  In (String c rest) lines ->
  is_space c = true ->
  truthy (strip (String c rest)) = true ->
  In (strip (String c rest)) (read_urls lines).
Proof.
  intros Hin Hc Ht. unfold read_urls. apply in_map. apply filter_In.
  split; [exact Hin|]. rewrite Ht. cbn [andb prefix].
  destruct (ascii_dec "#" c) as [<-|]; [discriminate Hc | reflexivity].
Qed.

Lemma indented_line_is_crawled_witness :
  In "# old list" (read_urls ["http://example.org/a"; "  # old list"]).
Proof.
  apply (indented_line_is_crawled
           ["http://example.org/a"; "  # old list"] " " " # old list").
  - right. left. reflexivity.
  - reflexivity.
  - reflexivity.
Defined.

(** ** The records of a run *)

Lemma crawl_from_urls (network : nat -> string -> result soup)
  (urls : list string) :
  forall i, map url (crawl_from network i urls) = urls.
Proof.
  induction urls as [|u rest IH]; intros i; [reflexivity|].
  cbn [crawl_from map]. rewrite IH, extract_metadata_spec.
  destruct (network i u) as [doc|e]; [destruct (title_of doc)|]; reflexivity.
Qed.

Lemma filter_length_le {A : Type} (f : A -> bool) (l : list A) :
  length (filter f l) <= length l.
Proof.
  induction l as [|x l IH]; simpl; [lia|]. destruct (f x); simpl; lia.
Qed.

(** X12. A run gives one record for each URL of the list, in the order of
    the list and with that URL; the number of processed URLs is the number
    of lines of the file that are neither blank nor comments. *)
Theorem one_record_per_url (network : nat -> string -> result soup)
  (lines : list string) (output : option string) (format : string) :
  map url (crawl network lines) = read_urls lines
  /\ processed (main network lines output format)
     = length (read_urls lines)
  /\ processed (main network lines output format) <= length lines.
Proof.
  assert (H : map url (crawl network lines) = read_urls lines)
    by apply crawl_from_urls.
  split; [exact H|]. cbn [main processed].
  assert (Hlen : length (crawl network lines) = length (read_urls lines))
    by (rewrite <- H, length_map; reflexivity).
  split; [exact Hlen|]. rewrite Hlen. unfold read_urls.
  rewrite length_map. apply filter_length_le.
Qed.

Lemma no_error_spec (fetch : string -> result soup) (u : string) :
  no_error (extract_metadata_from_url fetch u)
  = negb (request_fails (fetch u)).
Proof.
  rewrite extract_metadata_spec. unfold request_fails, title_of.
  destruct (fetch u) as [doc|e]; [|reflexivity].
  destruct (title_tag doc) as [tag|]; [|reflexivity].
  destruct (get "content" tag); reflexivity.
Qed.

Lemma success_count_crawl (network : nat -> string -> result soup)
  (urls : list string) :
  forall i,
    success_count (crawl_from network i urls) = count_ok network i urls.
Proof.
  unfold success_count.
  induction urls as [|u rest IH]; intros i; [reflexivity|].
  cbn [crawl_from filter count_ok]. rewrite no_error_spec.
  destruct (request_fails (network i u)); cbn [negb length]; rewrite IH;
    reflexivity.
Qed.

(** X13. The number of successes in the summary counts the URLs whose
    request neither raised an exception with a non-empty message nor met a
    title tag without value; it is at most the number of processed URLs. *)
Theorem successful_counts_requests (network : nat -> string -> result soup)
  (lines : list string) (output : option string) (format : string) :
  successful (main network lines output format)
  = count_ok network 0 (read_urls lines)
  /\ successful (main network lines output format)
     <= processed (main network lines output format).
Proof.
  cbn [main successful processed]. split.
  - apply success_count_crawl.
  - apply filter_length_le.
Qed.

Lemma crawl_from_all_raise (network : nat -> string -> result soup)
  (e : string) (urls : list string) :
  (forall i u, network i u = Raise e) ->
  forall i,
    crawl_from network i urls
    = map (fun u => {| url := u; og_title := None; author := None;
                       article_date := None; error := Some e |}) urls.
Proof.
  intros H. induction urls as [|u rest IH]; intros i; [reflexivity|].
  cbn [crawl_from map]. rewrite IH, extract_metadata_spec, H. reflexivity.
Qed.

(** X14. An exception whose message is empty is not counted as a failure:
    when every request raises such an exception, every record has an error
    and the summary counts every URL as successful. *)
Theorem empty_message_counts_as_success
  (network : nat -> string -> result soup) (lines : list string)
  (output : option string) (format : string) :
  (forall i u, network i u = Raise EmptyString) ->
  Forall (fun r => error r = Some EmptyString) (crawl network lines)
  /\ successful (main network lines output format)
     = processed (main network lines output format).
Proof.
  intros H. cbn [main successful processed]. unfold crawl, success_count.
  rewrite (crawl_from_all_raise network EmptyString _ H). split.
  - apply Forall_forall. intros r Hr. apply in_map_iff in Hr.
    destruct Hr as (u & <- & _). reflexivity.
  - induction (read_urls lines) as [|u rest IH]; [reflexivity|].
    cbn [map filter no_error error truthy negb length]. rewrite IH.
    reflexivity.
Qed.

Lemma empty_message_counts_as_success_witness :
  successful (main (fun _ _ => Raise "") ["a"; "b"] None "csv") = 2.
Proof.
  apply (proj2 (empty_message_counts_as_success (fun _ _ => Raise "")
                  ["a"; "b"] None "csv" (fun _ _ => eq_refl))).
Defined.


(** ** Saving as CSV *)

Lemma dict_to_list_same_keys (first r : metadata) :
  has_error first = true \/ has_error r = false ->
  dict_to_list (keys first) r = Ok (row_of (keys first) r).
Proof.
  unfold has_error, dict_to_list, keys, row_of.
  destruct (error first), (error r); intros [H|H]; try discriminate H;
    reflexivity.
Qed.

Lemma dict_to_list_extra_key (first r : metadata) :
  has_error first = false -> has_error r = true ->
  dict_to_list (keys first) r = Raise extra_field_message.
Proof.
  unfold has_error, dict_to_list, keys.
  destruct (error first), (error r); intros H1 H2; try discriminate;
    reflexivity.
Qed.

Lemma writerows_all (first : metadata) (rows : list metadata) :
  (has_error first = true \/ forallb (fun r => negb (has_error r)) rows = true) ->
  writerows (keys first) rows = (map (row_of (keys first)) rows, None).
Proof.
  intros H. induction rows as [|r rest IH]; [reflexivity|].
  cbn [writerows map]. rewrite dict_to_list_same_keys.
  - rewrite IH; [reflexivity|].
    destruct H as [H|H]; [left; exact H|right].
    cbn [forallb] in H. apply andb_true_iff in H. tauto.
  - destruct H as [H|H]; [left; exact H|right].
    cbn [forallb] in H. apply andb_true_iff in H. destruct H as [H _].
    apply negb_true_iff in H. exact H.
Qed.

Lemma writerows_until (first bad : metadata) (good tail : list metadata) :
  has_error first = false ->
  forallb (fun r => negb (has_error r)) good = true ->
  has_error bad = true ->
  writerows (keys first) (good ++ bad :: tail)
  = (map (row_of (keys first)) good, Some extra_field_message).
Proof.
  intros Hf Hg Hb. induction good as [|r rest IH].
  - cbn [app writerows map]. rewrite (dict_to_list_extra_key first bad Hf Hb).
    reflexivity.
  - cbn [forallb] in Hg. apply andb_true_iff in Hg. destruct Hg as [Hr Hg].
    apply negb_true_iff in Hr.
    cbn [app writerows map]. rewrite dict_to_list_same_keys by (right; exact Hr).
    rewrite (IH Hg). reflexivity.
Qed.

(** X15. Saving as CSV goes through when the first record has an error or
    no record has one: the file holds the keys of the first record and one
    row for each record, as long as the header, a record without error
    getting an empty cell under [error]. *)
Theorem csv_saved_in_full (first : metadata) (rest : list metadata) :
  has_error first = true
  \/ forallb (fun r => negb (has_error r)) (first :: rest) = true ->
  save_csv (first :: rest)
  = (CsvRows (map Some (keys first)
              :: map (row_of (keys first)) (first :: rest)), None)
  /\ Forall (fun row => length row = length (keys first))
            (map (row_of (keys first)) (first :: rest))
  /\ forall r, In r (first :: rest) -> error r = None ->
               cell r "error" = Some EmptyString.
Proof.
  intros H. split; [|split].
  - unfold save_csv. rewrite writerows_all by exact H. reflexivity.
  - apply Forall_forall. intros row Hrow. apply in_map_iff in Hrow.
    destruct Hrow as (r & <- & _). unfold row_of. apply length_map.
  - intros r _ Hr. unfold cell. cbn. rewrite Hr. reflexivity.
Qed.

(** X16. Saving as CSV stops when the first record has no error and a
    later one has: the header and the rows of the records before that one
    are in the file, the other records are not, and the exception reports
    the field [error]. *)
Theorem csv_cut_at_first_error (first bad : metadata)
  (good tail : list metadata) :
  forallb (fun r => negb (has_error r)) (first :: good) = true ->
  has_error bad = true ->
  save_csv (first :: good ++ bad :: tail)
  = (CsvRows (map Some ["url"; "og_title"; "author"; "article_date"]
              :: map (row_of ["url"; "og_title"; "author"; "article_date"])
                     (first :: good)),
     Some extra_field_message).
Proof.
  intros Hg Hb.
  assert (Hf : has_error first = false).
  { cbn [forallb] in Hg. apply andb_true_iff in Hg. destruct Hg as [Hg _].
    apply negb_true_iff in Hg. exact Hg. }
  assert (Hk : keys first = ["url"; "og_title"; "author"; "article_date"]).
  { unfold keys. unfold has_error in Hf.
    destruct (error first); [discriminate Hf | reflexivity]. }
  unfold save_csv.
  change (first :: good ++ bad :: tail) with ((first :: good) ++ bad :: tail).
  rewrite (writerows_until first bad (first :: good) tail Hf Hg Hb).
  rewrite Hk. reflexivity.
Qed.

Lemma csv_saved_in_full_witness :
  save_csv [record_failed "a" "timed out"; record_ok "b"]
  = (CsvRows
       [[Some "url"; Some "og_title"; Some "author"; Some "article_date";
         Some "error"];
        [Some "a"; None; None; None; Some "timed out"];
        [Some "b"; Some "T"; None; Some "2025-02-15"; Some ""]], None).
Proof.
  apply (proj1 (csv_saved_in_full (record_failed "a" "timed out")
                  [record_ok "b"] (or_introl eq_refl))).
Defined.

Lemma csv_cut_at_first_error_witness :
  save_csv [record_ok "a"; record_failed "b" "timed out"; record_ok "c"]
  = (CsvRows
       [[Some "url"; Some "og_title"; Some "author"; Some "article_date"];
        [Some "a"; Some "T"; None; Some "2025-02-15"]],
     Some "dict contains fields not in fieldnames: 'error'").
Proof.
  apply (csv_cut_at_first_error (record_ok "a") (record_failed "b" "timed out")
           [] [record_ok "c"]); reflexivity.
Defined.

(** X17. With no URL to crawl, saving as CSV fails on the first record
    that is not there and leaves an empty file, while saving as JSON
    goes through with an empty list. *)
Theorem save_without_urls (network : nat -> string -> result soup)
  (lines : list string) (path : string) :
  read_urls lines = [] ->
  truthy path = true ->
  saved (main network lines (Some path) "csv")
  = Some (CsvRows [], Some "list index out of range")
  /\ saved (main network lines (Some path) "json")
     = Some (JsonRecords [], None)
  /\ processed (main network lines (Some path) "csv") = 0.
Proof.
  intros Hu Hp. cbn [main saved processed]. unfold crawl.
  rewrite Hu, Hp. cbn. auto.
Qed.

Lemma save_without_urls_witness :
  saved (main (fun _ _ => Raise "unreachable")
              ["# no pages yet"; String (ascii_of_nat 10) ""]
              (Some "out.csv") "csv")
  = Some (CsvRows [], Some "list index out of range").
Proof.
  apply (save_without_urls (fun _ _ => Raise "unreachable")
           ["# no pages yet"; String (ascii_of_nat 10) ""] "out.csv");
    reflexivity.
Defined.


(** ** White space around the input *)

Lemma rejects_space (p : ascii -> bool) (c : ascii) :
  forallb (fun c => implb (is_space c) (negb (p c))) all_ascii = true ->
  is_space c = true -> p c = false.
Proof.
  intros H Hc. apply negb_true_iff.
  exact (char_impl is_space (fun c => negb (p c)) H c Hc).
Qed.

Lemma lstrip_split (s : string) :
  exists lead,
    s = (lead ++ lstrip s)%string /\ all_chars is_space lead = true.
Proof.
  induction s as [|c s (lead & Hs & Hl)]; [exists ""; auto|].
  cbn [lstrip]. destruct (is_space c) eqn:Hc.
  - exists (String c lead). cbn [append all_chars]. rewrite <- Hs, Hc, Hl. auto.
  - exists "". auto.
Qed.

Lemma rstrip_split (s : string) :
  exists trail,
    s = (rstrip s ++ trail)%string /\ all_chars is_space trail = true.
Proof.
  induction s as [|c s (trail & Hs & Ht)]; [exists ""; auto|].
  cbn [rstrip]. destruct (rstrip s) as [|x r].
  - cbn [append] in Hs. subst trail. destruct (is_space c) eqn:Hc.
    + exists (String c s). cbn [append all_chars]. rewrite Hc, Ht. auto.
    + exists s. auto.
  - exists trail. cbn [append] in Hs |- *. rewrite <- Hs. auto.
Qed.

Lemma rep_frame (p : ascii -> bool) (ws : string) :
  (forall c, is_space c = true -> p c = false) ->
  all_chars is_space ws = true ->
  forall hi lo s,
    rep p lo hi (s ++ ws)%string
    = map (fun ts => (fst ts, (snd ts ++ ws)%string)) (rep p lo hi s).
Proof.
  intros Hp Hws. induction hi as [|hi IH]; intros lo s.
  - cbn [rep]. destruct (lo =? 0); reflexivity.
  - cbn [rep]. rewrite map_app. f_equal.
    + destruct s as [|c s].
      * cbn [append map]. destruct ws as [|w ws']; [reflexivity|].
        cbn [all_chars] in Hws. apply andb_true_iff in Hws.
        rewrite (Hp w (proj1 Hws)). reflexivity.
      * cbn [append]. destruct (p c); [|reflexivity].
        rewrite IH, !map_map. reflexivity.
    + destruct (lo =? 0); reflexivity.
Qed.

Lemma flat_map_extend (ws : string) (f f' : mres -> list mres)
  (l : list mres) :
  (forall m, f (extend ws m) = map (extend ws) (f' m)) ->
  flat_map f (map (extend ws) l) = map (extend ws) (flat_map f' l).
Proof.
  intros H. induction l as [|m l IH]; [reflexivity|].
  cbn [map flat_map]. rewrite map_app, H, IH. reflexivity.
Qed.

(** Matching does not see white space behind the text. *)
Lemma rmatch_frame (ws : string) (r : re) :
  all_chars is_space ws = true ->
  spaceless r = true ->
  forall prev s,
    rmatch r prev (s ++ ws)%string = map (extend ws) (rmatch r prev s).
Proof.
  intros Hws.
  induction r as [|p|a IHa b IHb|a IHa b IHb|p lo hi|a IHa| |n a IHa];
    cbn [spaceless]; intros Hr prev s.
  - reflexivity.
  - cbn [rmatch]. destruct s as [|c s].
    + cbn [append map]. destruct ws as [|w ws']; [reflexivity|].
      cbn [all_chars] in Hws. apply andb_true_iff in Hws.
      rewrite (rejects_space p w Hr (proj1 Hws)). reflexivity.
    + cbn [append]. destruct (p c); reflexivity.
  - apply andb_true_iff in Hr. destruct Hr as [Ha Hb].
    cbn [rmatch]. rewrite (IHa Ha). apply flat_map_extend.
    intros [[t1 s1] g1]. cbn [extend]. rewrite (IHb Hb), !map_map.
    apply map_ext. intros [[t2 s2] g2]. reflexivity.
  - apply andb_true_iff in Hr. destruct Hr as [Ha Hb].
    cbn [rmatch]. rewrite (IHa Ha), (IHb Hb), map_app. reflexivity.
  - destruct hi as [hi|]; [|discriminate Hr].
    cbn [rmatch].
    rewrite (rep_frame p ws (fun c => rejects_space p c Hr) Hws), !map_map.
    reflexivity.
  - cbn [rmatch]. rewrite (IHa Hr), map_app. reflexivity.
  - discriminate Hr.
  - cbn [rmatch]. rewrite (IHa Hr), !map_map.
    apply map_ext. intros [[t s'] g]. reflexivity.
Qed.

Lemma search_from_spaces (r : re) (ws : string) :
  spaceless r = true ->
  (forall p, rmatch r p EmptyString = []) ->
  all_chars is_space ws = true ->
  forall prev, search_from r prev ws = None.
Proof.
  intros Hr Hnil. induction ws as [|w ws IH]; intros Hws prev.
  - cbn [search_from]. rewrite Hnil. reflexivity.
  - cbn [search_from].
    pose proof (rmatch_frame (String w ws) r Hws Hr prev EmptyString) as F.
    cbn [append] in F. rewrite F, Hnil.
    cbn [map]. cbn [all_chars] in Hws. apply andb_true_iff in Hws.
    apply IH. exact (proj2 Hws).
Qed.

(** Searching does not see white space behind the text. *)
Lemma search_from_frame (r : re) (ws : string) :
  spaceless r = true ->
  (forall p, rmatch r p EmptyString = []) ->
  all_chars is_space ws = true ->
  forall s prev,
    search_from r prev (s ++ ws)%string
    = option_map (extend ws) (search_from r prev s).
Proof.
  intros Hr Hnil Hws. induction s as [|c s IH]; intros prev.
  - cbn [append]. rewrite (search_from_spaces r ws Hr Hnil Hws).
    cbn [search_from]. rewrite Hnil. reflexivity.
  - cbn [append search_from].
    change (String c (s ++ ws)) with (String c s ++ ws)%string.
    rewrite (rmatch_frame ws r Hws Hr).
    destruct (rmatch r prev (String c s)); [apply IH | reflexivity].
Qed.

Lemma search_from_prev (r : re) :
  no_bnd r = true ->
  forall s p p', search_from r p s = search_from r p' s.
Proof.
  intros Hr. induction s as [|c s IH]; intros p p'; cbn [search_from];
    rewrite (rmatch_prev r Hr p p'); [reflexivity|].
  destruct (rmatch r p' (String c s)); reflexivity.
Qed.

(** Searching for digits skips white space before the text. *)
Lemma search_from_lead (r : re) (lead : string) :
  no_bnd r = true ->
  (forall p c s, is_space c = true -> rmatch r p (String c s) = []) ->
  all_chars is_space lead = true ->
  forall s, search_from r None (lead ++ s)%string = search_from r None s.
Proof.
  intros Hr Hfail. induction lead as [|c lead IH]; intros Hl s;
    [reflexivity|].
  cbn [all_chars] in Hl. apply andb_true_iff in Hl. destruct Hl as [Hc Hl].
  cbn [append search_from]. rewrite (Hfail None c _ Hc).
  rewrite (search_from_prev r Hr _ (Some c) None). exact (IH Hl s).
Qed.

Lemma year_re_fails_on_space (p : option ascii) (c : ascii) (s : string) :
  is_space c = true -> rmatch year_re p (String c s) = [].
Proof.
  intros Hc. pose proof (rmatch_year_re p (String c s)) as H.
  rewrite (head_four_not_digit c s (space_not_digit c Hc)) in H.
  destruct (rmatch year_re p (String c s)); [reflexivity | discriminate H].
Qed.

Lemma ymd_re_fails_on_space (p : option ascii) (c : ascii) (s : string) :
  is_space c = true -> rmatch ymd_re p (String c s) = [].
Proof.
  intros Hc. apply rmatch_ymd_re_none.
  exact (head_four_not_digit c s (space_not_digit c Hc)).
Qed.

(** The groups that a search finds are those found in the stripped text. *)
Lemma search_strip (r : re) (s : string) :
  spaceless r = true -> no_bnd r = true ->
  (forall p, rmatch r p EmptyString = []) ->
  (forall p c s, is_space c = true -> rmatch r p (String c s) = []) ->
  option_map snd (re_search r s) = option_map snd (re_search r (strip s)).
Proof.
  intros Hsp Hnb Hnil Hfail. unfold re_search, strip.
  destruct (lstrip_split s) as (lead & Hs & Hlead).
  destruct (rstrip_split (lstrip s)) as (trail & Ht & Htrail).
  rewrite Hs at 1. rewrite (search_from_lead r lead Hnb Hfail Hlead).
  rewrite Ht at 1. rewrite (search_from_frame r trail Hsp Hnil Htrail).
  destruct (search_from r None (rstrip (lstrip s))) as [[[t rest] g]|];
    reflexivity.
Qed.

Lemma truthy_strip_blank (s : string) :
  truthy (strip s) = false -> all_chars is_space s = true.
Proof.
  unfold strip. destruct (lstrip_split s) as (lead & Hs & Hlead).
  destruct (lstrip_head s) as [H|(c & r & H & Hc)].
  - intros _. rewrite Hs, H, append_nil_r. exact Hlead.
  - rewrite H. destruct (rstrip_head c r Hc) as [r' ->]. discriminate.
Qed.

(** X18. White space before and after the input does not count: the
    result is that of the stripped input. *)
Theorem surrounding_space_is_ignored (s : string) :
  parse_date_to_iso (Some s) = parse_date_to_iso (Some (strip s)).
Proof.
  destruct (truthy (strip s)) eqn:Hts.
  - assert (Hs : truthy s = true).
    { destruct s; [discriminate Hts | reflexivity]. }
    pose proof (search_strip ymd_re s eq_refl eq_refl
                  (fun p => eq_refl) ymd_re_fails_on_space) as Hymd.
    pose proof (search_strip year_re s eq_refl eq_refl
                  (fun p => eq_refl) year_re_fails_on_space) as Hyear.
    unfold parse_date_to_iso. rewrite Hs, Hts. cbn [negb].
    rewrite (try_patterns_strip (strip s) s (strip_idempotent s)).
    destruct (try_patterns s patterns); [reflexivity|].
    unfold group.
    destruct (re_search ymd_re s) as [m|], (re_search ymd_re (strip s)) as [m'|];
      cbn [option_map] in Hymd; try discriminate Hymd.
    + injection Hymd as ->. reflexivity.
    + destruct (re_search year_re s) as [y|],
        (re_search year_re (strip s)) as [y'|];
        cbn [option_map] in Hyear; try discriminate Hyear.
      * injection Hyear as ->. reflexivity.
      * reflexivity.
  - rewrite (blank_input_has_no_date_aux s (truthy_strip_blank s Hts)).
    destruct (strip s); [reflexivity | discriminate Hts].
Qed.


(** ** Two-digit years *)

Lemma no_grp_captures (r : re) :
  no_grp r = true ->
  forall prev s t s' g, In (t, s', g) (rmatch r prev s) -> g = [].
Proof.
  induction r as [|p|a IHa b IHb|a IHa b IHb|p lo hi|a IHa| |n a IHa];
    cbn [no_grp]; intros Hr prev s t s' g H; try discriminate Hr.
  - destruct H as [H|[]]. congruence.
  - apply rmatch_chr_in in H. destruct H as (c & _ & _ & -> & _). reflexivity.
  - apply andb_true_iff in Hr. destruct Hr as [Ha Hb].
    apply rmatch_seq_in in H.
    destruct H as (t1 & s1 & g1 & t2 & g2 & H1 & H2 & _ & ->).
    rewrite (IHa Ha _ _ _ _ _ H1), (IHb Hb _ _ _ _ _ H2). reflexivity.
  - apply andb_true_iff in Hr. destruct Hr as [Ha Hb].
    cbn [rmatch] in H. apply in_app_or in H.
    destruct H as [H|H]; [exact (IHa Ha _ _ _ _ _ H) | exact (IHb Hb _ _ _ _ _ H)].
  - cbn [rmatch] in H. apply in_map_iff in H.
    destruct H as (ts & Heq & _). congruence.
  - cbn [rmatch] in H. apply in_app_or in H.
    destruct H as [H|[H|[]]]; [exact (IHa Hr _ _ _ _ _ H) | congruence].
  - apply rmatch_bnd_in in H. tauto.
Qed.

(** A match splits the text into what it takes and what it leaves. *)
Lemma rmatch_text (r : re) :
  forall prev s t s' g,
    In (t, s', g) (rmatch r prev s) -> s = (t ++ s')%string.
Proof.
  induction r as [|p|a IHa b IHb|a IHa b IHb|p lo hi|a IHa| |n a IHa];
    intros prev s t s' g H.
  - destruct H as [H|[]]. injection H as <- <- <-. reflexivity.
  - apply rmatch_chr_in in H. destruct H as (c & -> & _ & _ & ->). reflexivity.
  - apply rmatch_seq_in in H.
    destruct H as (t1 & s1 & g1 & t2 & g2 & H1 & H2 & -> & _).
    rewrite (IHa _ _ _ _ _ H1), (IHb _ _ _ _ _ H2), append_assoc. reflexivity.
  - cbn [rmatch] in H. apply in_app_or in H.
    destruct H as [H|H]; [exact (IHa _ _ _ _ _ H) | exact (IHb _ _ _ _ _ H)].
  - cbn [rmatch] in H. apply in_map_iff in H.
    destruct H as ([t0 s0] & Heq & H). cbn [fst snd] in Heq.
    injection Heq as <- <- <-. exact (proj2 (proj2 (rep_in _ _ _ _ _ _ H))).
  - cbn [rmatch] in H. apply in_app_or in H.
    destruct H as [H|[H|[]]]; [exact (IHa _ _ _ _ _ H)|].
    injection H as <- <- <-. reflexivity.
  - apply rmatch_bnd_in in H. destruct H as (-> & -> & _). reflexivity.
  - apply rmatch_grp_in in H. destruct H as (g' & _ & H).
    exact (IHa _ _ _ _ _ H).
Qed.

Ltac no_captures H :=
  match type of H with
  | In (_, _, ?g) (rmatch ?r _ _) =>
      let E := fresh "E" in
      pose proof (no_grp_captures r eq_refl _ _ _ _ _ H) as E; subst g
  end.

Lemma ci_dash (c : ascii) : is_char_ci "-" c = true -> c = "-"%char.
Proof.
  intros H. symmetry. apply Ascii.eqb_eq. revert c H.
  apply char_impl. vm_compute. reflexivity.
Qed.

Lemma hd_error_in {A : Type} (l : list A) (x : A) :
  hd_error l = Some x -> In x l.
Proof. destruct l; simpl; [discriminate|]. intros H. left. congruence. Qed.

Lemma pattern_short :
  pattern "%d-%b-%y"
  = Some (Seq gd (Seq (Chr (is_char_ci "-"))
                      (Seq (seqToRE a_month "b")
                           (Seq (Chr (is_char_ci "-")) (Seq gy Eps))))).
Proof. reflexivity. Qed.

(** The groups of a match of [%d-%b-%y], and the start of the text. *)
Lemma short_match (prev : option ascii) (data t s' : string) (g : captures) :
  In (t, s', g)
     (rmatch (Seq gd (Seq (Chr (is_char_ci "-"))
                          (Seq (seqToRE a_month "b")
                               (Seq (Chr (is_char_ci "-")) (Seq gy Eps)))))
             prev data) ->
  exists td tb y1 y2,
    g = [("d", td); ("b", tb); ("y", two y1 y2)]
    /\ is_digit y1 = true /\ is_digit y2 = true
    /\ t = (td ++ "-" ++ tb ++ "-" ++ two y1 y2)%string
    /\ In (td, (String "-" (tb ++ "-" ++ two y1 y2 ++ s'))%string, [])
          (rmatch (alts [Seq (chr "3") (rng "0" "1");
                         Seq (rng "1" "2") digit;
                         Seq (chr "0") (rng "1" "9");
                         rng "1" "9";
                         Seq (chr " ") (rng "1" "9")]) prev data).
Proof.
  intros H. pose proof (rmatch_text _ _ _ _ _ _ H) as Hall.
  apply rmatch_seq_in in H.
  destruct H as (td & s1 & g1 & ta & ga & Hd & H & -> & ->).
  apply rmatch_grp_in in Hd. destruct Hd as (gd' & -> & Hd).
  pose proof (rmatch_text _ _ _ _ _ _ Hd) as Hdata. no_captures Hd.
  apply rmatch_seq_in in H.
  destruct H as (c1 & s2 & gc1 & tb0 & gb0 & Hc1 & H & -> & ->).
  apply rmatch_chr_in in Hc1. destruct Hc1 as (x1 & -> & Hx1 & -> & ->).
  apply ci_dash in Hx1. subst x1.
  apply rmatch_seq_in in H.
  destruct H as (tb & s3 & gb & tc & gc & Hb & H & -> & ->).
  unfold seqToRE in Hb. apply rmatch_grp_in in Hb.
  destruct Hb as (gb' & -> & Hb).
  pose proof (rmatch_text _ _ _ _ _ _ Hb) as Hs2. no_captures Hb.
  apply rmatch_seq_in in H.
  destruct H as (c2 & s4 & gc2 & te & ge & Hc2 & H & -> & ->).
  apply rmatch_chr_in in Hc2. destruct Hc2 as (x2 & -> & Hx2 & -> & ->).
  apply ci_dash in Hx2. subst x2.
  apply rmatch_seq_in in H.
  destruct H as (ty & s5 & gy0 & tf & gf & Hy & H & -> & ->).
  destruct H as [H|[]]. injection H as <- <- <-.
  unfold gy in Hy. apply rmatch_grp_in in Hy. destruct Hy as (gy' & -> & Hy).
  apply rmatch_seq_in in Hy.
  destruct Hy as (ty1 & s6 & g61 & ty2 & g62 & Hy1 & Hy2 & -> & ->).
  apply rmatch_chr_in in Hy1. destruct Hy1 as (y1 & -> & Dy1 & -> & ->).
  apply rmatch_chr_in in Hy2. destruct Hy2 as (y2 & -> & Dy2 & -> & ->).
  exists td, tb, y1, y2. cbn [append app two].
  split; [reflexivity|]. split; [exact Dy1|]. split; [exact Dy2|].
  split; [reflexivity|].
  subst s2. cbn [append] in Hd. exact Hd.
Qed.

(** The day group takes one or two characters, the first of them a digit or
    a space. *)
Lemma gd_results (prev : option ascii) (data td s1 : string) :
  In (td, s1, [])
     (rmatch (alts [Seq (chr "3") (rng "0" "1");
                    Seq (rng "1" "2") digit;
                    Seq (chr "0") (rng "1" "9");
                    rng "1" "9";
                    Seq (chr " ") (rng "1" "9")]) prev data) ->
  exists c0,
    (is_digit c0 = true \/ is_space c0 = true)
    /\ (td = String c0 EmptyString
        \/ exists c1, is_digit c1 = true /\ td = two c0 c1).
Proof.
  cbn [alts rmatch]. intros H.
  repeat (apply in_app_or in H; destruct H as [H|H]).
  all: try (apply in_flat_map in H; destruct H as ([[t1 r1] g1] & H1 & H2);
            apply (rmatch_chr_in _ prev data t1 r1 g1) in H1;
            destruct H1 as (c0 & -> & Hc0 & -> & ->);
            apply in_map_iff in H2; destruct H2 as ([[t2 r2] g2] & Heq & H2);
            apply rmatch_chr_in in H2;
            destruct H2 as (c1 & -> & Hc1 & -> & ->);
            injection Heq as <- <-;
            exists c0; split;
            [ first [ left; digit_fact
                    | right; apply Ascii.eqb_eq in Hc0; subst c0; reflexivity ]
            | right; exists c1; split; [digit_fact | reflexivity] ]).
  apply (rmatch_chr_in _ prev data td s1 []) in H.
  destruct H as (c0 & -> & Hc0 & _). exists c0. split; [left; digit_fact|].
  left. reflexivity.
Qed.

Lemma strip_head_not_space (s : string) (c : ascii) (r : string) :
  strip s = String c r -> is_space c = false.
Proof.
  unfold strip. destruct (lstrip_head s) as [->|(c0 & r0 & -> & Hc0)].
  - discriminate.
  - destruct (rstrip_head c0 r0 Hc0) as [r' ->]. intros H.
    injection H as <- _. exact Hc0.
Qed.

Lemma strptime_year_format_short (format : string) (t : string) :
  In format year_formats -> starts_short t -> strptime t format = None.
Proof.
  intros Hf (c0 & r & _ & Ht).
  destruct (pattern_year_format format Hf) as [Hpat _].
  unfold strptime, re_match. rewrite Hpat. cbn [rmatch].
  assert (E : rmatch gY None t = []).
  { destruct Ht as [->|(c1 & _ & ->)]; cbn -[is_digit].
    - destruct (is_digit c0); reflexivity.
    - destruct (is_digit c0); [|reflexivity]. cbn -[is_digit].
      destruct (is_digit c1); reflexivity. }
  rewrite E. reflexivity.
Qed.

Lemma strptime_slash_format_short (format : string) (t : string) :
  In format ["%m/%d/%Y"; "%d/%m/%Y"] -> starts_short t ->
  strptime t format = None.
Proof.
  intros Hf (c0 & r & H0 & Ht). simpl in Hf.
  destruct Ht as [->|(c1 & H1 & ->)].
  - repeat (destruct Hf as [<-|Hf]); try contradiction.
    all: digit_cases H0.
    all: vm_compute; reflexivity.
  - repeat (destruct Hf as [<-|Hf]); try contradiction.
    all: digit_cases H0; digit_cases H1.
    all: vm_compute; reflexivity.
Qed.

Lemma strptime_name_format_short (format : string) (t : string) :
  In format ["%b %d, %Y"; "%B %d, %Y"] -> starts_short t ->
  strptime t format = None.
Proof.
  intros Hf (c0 & r & H0 & Ht).
  destruct Ht as [->|(c1 & _ & ->)];
    exact (strptime_name_format_digit format c0 _ Hf H0).
Qed.

Lemma convert_short (td tb : string) (y1 y2 : ascii) (f : fields) :
  is_digit y1 = true -> is_digit y2 = true ->
  convert_all init [("d", td); ("b", tb); ("y", two y1 y2)] = Some f ->
  f_year f = Some (pivot_year (digits_val 0 (two y1 y2))).
Proof.
  intros H1 H2.
  assert (Hy : py_int (two y1 y2) = Some (digits_val 0 (two y1 y2))).
  { apply py_int_digits; [reflexivity|]. simpl. rewrite H1, H2. reflexivity. }
  cbn -[py_int index_of digits_val two].
  destruct (py_int td) as [d|]; [|discriminate]. cbn -[py_int index_of digits_val two].
  destruct (index_of (str_lower tb) a_month 1) as [m|]; [|discriminate].
  cbn -[py_int index_of digits_val two]. rewrite Hy.
  cbn -[py_int index_of digits_val two].
  intros H. injection H as <-. reflexivity.
Qed.

Lemma build_year (f : fields) (dt : datetime) (y : nat) :
  f_year f = Some y -> build f = Some dt -> year dt = y.
Proof.
  unfold build. intros ->.
  destruct (check_date y (f_month_ f) (f_day f)); [|discriminate].
  match goal with
  | |- (if ?c then _ else _) = _ -> _ => destruct c; [|discriminate]
  end.
  intros H. injection H as <-. reflexivity.
Qed.

Lemma two_digits_bound (y1 y2 : ascii) :
  is_digit y1 = true -> is_digit y2 = true ->
  digits_val 0 (two y1 y2) < 100.
Proof.
  intros H1 H2. destruct (digit_char_val y1 H1) as [_ L1].
  destruct (digit_char_val y2 H2) as [_ L2].
  cbn [two digits_val]. lia.
Qed.

(** What [%d-%b-%y] reads: the text ends with the two digits of the year,
    and begins with one or two digits and a dash unless it begins with a
    space. *)
Lemma strptime_short (t : string) (dt : datetime) :
  strptime t "%d-%b-%y" = Some dt ->
  exists pre y1 y2,
    t = (pre ++ two y1 y2)%string
    /\ is_digit y1 = true /\ is_digit y2 = true
    /\ year dt = pivot_year (digits_val 0 (two y1 y2))
    /\ (starts_short t
        \/ exists c r, is_space c = true /\ t = String c r).
Proof.
  unfold strptime. rewrite pattern_short. unfold re_match.
  match goal with
  | |- match hd_error ?l with _ => _ end = _ -> _ =>
      destruct (hd_error l) as [[[tx rest] g]|] eqn:E; [|discriminate]
  end.
  apply hd_error_in in E.
  destruct rest; [|discriminate]. cbn [truthy].
  pose proof (rmatch_text _ _ _ _ _ _ E) as Ht. rewrite append_nil_r in Ht.
  destruct (short_match _ _ _ _ _ E)
    as (td & tb & y1 & y2 & -> & H1 & H2 & Htx & Hd).
  destruct (convert_all init _) as [f|] eqn:Ef; [|discriminate].
  intros Hb.
  exists (td ++ "-" ++ tb ++ "-")%string, y1, y2.
  split.
  { rewrite Ht, Htx, !append_assoc. reflexivity. }
  split; [exact H1|]. split; [exact H2|]. split.
  { exact (build_year f dt _ (convert_short td tb y1 y2 f H1 H2 Ef) Hb). }
  pose proof (rmatch_text _ _ _ _ _ _ Hd) as Htd.
  destruct (gd_results _ _ _ _ Hd) as (c0 & [Hc0|Hc0] & Hshape).
  - left. exists c0. destruct Hshape as [->|(c1 & Hc1 & ->)].
    + eexists. split; [exact Hc0|]. left. rewrite Htd. reflexivity.
    + eexists. split; [exact Hc0|]. right. exists c1. split; [exact Hc1|].
      rewrite Htd. reflexivity.
  - right. exists c0.
    destruct Hshape as [->|(c1 & Hc1 & ->)]; eexists;
      (split; [exact Hc0 | rewrite Htd; reflexivity]).
Qed.

(** X19. A text that the format with the two-digit year reads is read by
    that format, and its year lies in the window 1969 to 2068: the two
    digits up to 68 stand for 2000 to 2068, from 69 on for 1969 to 1999. *)
Theorem short_year_window (s : string) (dt : datetime) :
  strptime (strip s) "%d-%b-%y" = Some dt ->
  parse_date_to_iso (Some s) = Some (strftime dt)
  /\ 1969 <= year dt <= 2068
  /\ exists pre y1 y2,
      strip s = (pre ++ two y1 y2)%string
      /\ is_digit y1 = true /\ is_digit y2 = true
      /\ year dt = pivot_year (digits_val 0 (two y1 y2)).
Proof.
  intros H.
  destruct (strptime_short _ _ H)
    as (pre & y1 & y2 & Ht & H1 & H2 & Hy & Hstart).
  assert (Hshort : starts_short (strip s)).
  { destruct Hstart as [Hs|(c & r & Hc & Hs)]; [exact Hs|].
    rewrite (strip_head_not_space s c r Hs) in Hc. discriminate Hc. }
  split; [|split].
  - assert (Hs : truthy s = true).
    { destruct s; [|reflexivity]. vm_compute in H. discriminate H. }
    unfold parse_date_to_iso. rewrite Hs. cbn [negb].
    unfold patterns. cbn [try_patterns try_group].
    rewrite (strptime_year_format_short "%Y-%m-%d" _ (or_introl eq_refl) Hshort).
    rewrite (strptime_year_format_short "%Y-%m-%dT%H:%M:%S%z" _
               (or_intror (or_introl eq_refl)) Hshort).
    rewrite (strptime_year_format_short "%Y-%m-%dT%H:%M:%S" _
               (or_intror (or_intror (or_introl eq_refl))) Hshort).
    rewrite (strptime_name_format_short "%b %d, %Y" _ (or_introl eq_refl) Hshort).
    rewrite (strptime_name_format_short "%B %d, %Y" _
               (or_intror (or_introl eq_refl)) Hshort).
    rewrite (strptime_slash_format_short "%m/%d/%Y" _ (or_introl eq_refl) Hshort).
    rewrite (strptime_slash_format_short "%d/%m/%Y" _
               (or_intror (or_introl eq_refl)) Hshort).
    rewrite (strptime_year_format_short "%Y/%m/%d" _
               (or_intror (or_intror (or_intror (or_introl eq_refl)))) Hshort).
    rewrite H. reflexivity.
  - pose proof (two_digits_bound y1 y2 H1 H2) as Hb. rewrite Hy.
    unfold pivot_year.
    destruct (Nat.leb_spec (digits_val 0 (two y1 y2)) 68); lia.
  - exists pre, y1, y2. auto.
Qed.

Lemma short_year_window_witness :
  parse_date_to_iso (Some "15-Feb-69") = Some "1969-02-15"
  /\ parse_date_to_iso (Some "15-Feb-68") = Some "2068-02-15".
Proof.
  split.
  - apply (proj1 (short_year_window "15-Feb-69"
                    {| year := 1969; month := 2; day := 15;
                       hour := 0; minute := 0; second := 0 |} eq_refl)).
  - apply (proj1 (short_year_window "15-Feb-68"
                    {| year := 2068; month := 2; day := 15;
                       hour := 0; minute := 0; second := 0 |} eq_refl)).
Defined.


(** ** A text that begins with a date *)

(** The groups of a match bear names of the expression. *)
Lemma rmatch_names (r : re) :
  forall prev s t s' g k v,
    In (t, s', g) (rmatch r prev s) -> In (k, v) g -> In k (names r).
Proof.
  induction r as [|p|a IHa b IHb|a IHa b IHb|p lo hi|a IHa| |n a IHa];
    intros prev s t s' g k v H Hk; cbn [names].
  - destruct H as [H|[]]. injection H as <- <- <-. contradiction.
  - apply rmatch_chr_in in H. destruct H as (c & _ & _ & -> & _).
    contradiction.
  - apply rmatch_seq_in in H.
    destruct H as (t1 & s1 & g1 & t2 & g2 & H1 & H2 & _ & ->).
    apply in_or_app. apply in_app_or in Hk.
    destruct Hk as [Hk|Hk]; [left; exact (IHa _ _ _ _ _ _ _ H1 Hk)|].
    right. exact (IHb _ _ _ _ _ _ _ H2 Hk).
  - cbn [rmatch] in H. apply in_or_app. apply in_app_or in H.
    destruct H as [H|H]; [left; exact (IHa _ _ _ _ _ _ _ H Hk)|].
    right. exact (IHb _ _ _ _ _ _ _ H Hk).
  - cbn [rmatch] in H. apply in_map_iff in H.
    destruct H as (ts & Heq & _). injection Heq as _ _ <-. contradiction.
  - cbn [rmatch] in H. apply in_app_or in H.
    destruct H as [H|[H|[]]]; [exact (IHa _ _ _ _ _ _ _ H Hk)|].
    injection H as _ _ <-. contradiction.
  - apply rmatch_bnd_in in H. destruct H as (_ & _ & -> & _). contradiction.
  - apply rmatch_grp_in in H. destruct H as (g' & -> & H).
    destruct Hk as [Hk|Hk]; [injection Hk as <- _; left; reflexivity|].
    right. exact (IHa _ _ _ _ _ _ _ H Hk).
Qed.

Lemma convert_keeps_date (f f' : fields) (k v : string) :
  ~ In k date_keys -> convert f (k, v) = Some f' -> date_of f' = date_of f.
Proof.
  intros Hk. unfold convert.
  repeat match goal with
         | |- (if String.eqb k ?x then _ else _) = _ -> _ =>
             destruct (String.eqb_spec k x) as [->|_]
         end;
    try (exfalso; apply Hk; simpl; tauto).
  - destruct (py_int v); [|discriminate]. intros H. injection H as <-.
    reflexivity.
  - destruct (py_int v); [|discriminate]. intros H. injection H as <-.
    reflexivity.
  - destruct (py_int v); [|discriminate]. intros H. injection H as <-.
    reflexivity.
  - destruct (convert_z v); [|discriminate]. intros H. injection H as <-.
    reflexivity.
  - intros H. injection H as <-. reflexivity.
Qed.

Lemma convert_all_keeps_date (g : captures) :
  forall f f',
    (forall k v, In (k, v) g -> ~ In k date_keys) ->
    convert_all f g = Some f' -> date_of f' = date_of f.
Proof.
  induction g as [|[k v] g IH]; intros f f' Hg; cbn [convert_all].
  - intros H. injection H as <-. reflexivity.
  - destruct (convert f (k, v)) as [f1|] eqn:E; [|discriminate].
    intros H. rewrite (IH f1 f'); [|intros k' v' Hin; apply (Hg k' v'); right; exact Hin|exact H].
    apply (convert_keeps_date f f1 k v); [|exact E].
    apply (Hg k v). left. reflexivity.
Qed.

Lemma build_date (f : fields) (dt : datetime) (y : nat) :
  f_year f = Some y -> build f = Some dt ->
  year dt = y /\ month dt = f_month_ f /\ day dt = f_day f.
Proof.
  unfold build. intros ->.
  destruct (check_date y (f_month_ f) (f_day f)); [|discriminate].
  match goal with
  | |- (if ?c then _ else _) = _ -> _ => destruct c; [|discriminate]
  end.
  intros H. injection H as <-. auto.
Qed.

(** The month group takes one digit or two. *)
Lemma gm_alts_results (prev : option ascii) (data tm s1 : string) :
  In (tm, s1, [])
     (rmatch (alts [Seq (chr "1") (rng "0" "2");
                    Seq (chr "0") (rng "1" "9");
                    rng "1" "9"]) prev data) ->
  exists c0,
    is_digit c0 = true
    /\ (tm = String c0 EmptyString
        \/ exists c1, is_digit c1 = true /\ tm = two c0 c1).
Proof.
  cbn [alts rmatch]. intros H.
  repeat (apply in_app_or in H; destruct H as [H|H]).
  all: try (apply in_flat_map in H; destruct H as ([[t1 r1] g1] & H1 & H2);
            apply (rmatch_chr_in _ prev data t1 r1 g1) in H1;
            destruct H1 as (c0 & -> & Hc0 & -> & ->);
            apply in_map_iff in H2; destruct H2 as ([[t2 r2] g2] & Heq & H2);
            apply rmatch_chr_in in H2;
            destruct H2 as (c1 & -> & Hc1 & -> & ->);
            injection Heq as <- <-;
            exists c0; split;
            [ digit_fact
            | right; exists c1; split; [digit_fact | reflexivity] ]).
  apply (rmatch_chr_in _ prev data tm s1 []) in H.
  destruct H as (c0 & -> & Hc0 & _). exists c0. split; [digit_fact|].
  left. reflexivity.
Qed.

Lemma tail_re_shape (format : string) :
  In format year_formats ->
  tail_re format
  = Seq (Chr (is_char_ci (sep_of format)))
        (Seq gm (Seq (Chr (is_char_ci (sep_of format)))
                     (Seq gd (after_day format))))
  /\ (forall k, In k (names (after_day format)) -> ~ In k date_keys)
  /\ (after_day format = Eps
      \/ exists k, after_day format = Seq (Chr (is_char_ci "T")) k).
Proof.
  intros H. simpl in H.
  repeat (destruct H as [<-|H]); try contradiction.
  all: split; [reflexivity|]; split;
    [ cbn; intros k Hk Hd;
      repeat (destruct Hk as [<-|Hk]; [cbn in Hd; intuition discriminate|]);
      contradiction
    | first [ left; reflexivity | right; eexists; reflexivity ] ].
Qed.

Lemma ci_sep_not_digit (format : string) (c : ascii) :
  is_char_ci (sep_of format) c = true -> is_digit c = false.
Proof.
  unfold sep_of. destruct (String.eqb format "%Y/%m/%d"); intros H.
  - apply ci_slash in H. subst c. reflexivity.
  - apply ci_dash in H. subst c. reflexivity.
Qed.

Lemma ci_T_not_digit (c : ascii) :
  is_char_ci "T" c = true -> is_digit c = false.
Proof.
  intros H. apply negb_true_iff. revert c H. apply char_impl.
  vm_compute. reflexivity.
Qed.

(** A match, to the end of the text, of what follows the year in a
    year-led format, on a separator, two digits, a separator, two digits and
    any text: the two pairs of digits are the month and the day. *)
Lemma tail_match_groups (format : string) (prev : option ascii)
  (s1 m1 m2 s2 d1 d2 : ascii) (rest t : string) (g : captures) :
  In format year_formats ->
  is_digit m1 = true -> is_digit m2 = true ->
  is_digit d1 = true -> is_digit d2 = true ->
  In (t, EmptyString, g)
     (rmatch (tail_re format) prev
        (String s1 (String m1 (String m2
           (String s2 (String d1 (String d2 rest))))))) ->
  exists gk,
    g = ("m", two m1 m2) :: ("d", two d1 d2) :: gk
    /\ forall k v, In (k, v) gk -> ~ In k date_keys.
Proof.
  intros Hf Hm1 Hm2 Hd1 Hd2 H.
  destruct (tail_re_shape format Hf) as (Hshape & Hnames & HK).
  rewrite Hshape in H.
  apply rmatch_seq_in in H.
  destruct H as (tc1 & sa & gc1 & ta & ga & Hc1 & H & -> & ->).
  apply rmatch_chr_in in Hc1. destruct Hc1 as (x1 & -> & _ & -> & Hsa).
  injection Hsa as <- <-.
  apply rmatch_seq_in in H.
  destruct H as (tm & sb & gmg & tb & gb & Hm & H & -> & ->).
  unfold gm in Hm. apply rmatch_grp_in in Hm. destruct Hm as (g' & -> & Hm).
  pose proof (rmatch_text _ _ _ _ _ _ Hm) as Hsa. no_captures Hm.
  destruct (gm_alts_results _ _ _ _ Hm) as (c0 & Hc0 & [->|(c1 & Hc1 & ->)]).
  { exfalso. cbn [append] in Hsa. injection Hsa as <- <-.
    apply rmatch_seq_in in H.
    destruct H as (tc2 & sc & gc2 & tc & gc & Hc2 & _).
    apply rmatch_chr_in in Hc2. destruct Hc2 as (x2 & _ & Hx2 & _ & Hsb).
    injection Hsb as <- _. apply ci_sep_not_digit in Hx2. congruence. }
  cbn [two append] in Hsa. injection Hsa as <- <- <-.
  apply rmatch_seq_in in H.
  destruct H as (tc2 & sc & gc2 & tc & gc & Hc2 & H & -> & ->).
  apply rmatch_chr_in in Hc2. destruct Hc2 as (x2 & -> & _ & -> & Hsb).
  injection Hsb as <- <-.
  apply rmatch_seq_in in H.
  destruct H as (td & sd & gdg & tk & gk & Hd & Hk & -> & ->).
  unfold gd in Hd. apply rmatch_grp_in in Hd. destruct Hd as (g' & -> & Hd).
  pose proof (rmatch_text _ _ _ _ _ _ Hd) as Hsc. no_captures Hd.
  destruct (gd_results _ _ _ _ Hd) as (e0 & _ & [->|(e1 & He1 & ->)]).
  { exfalso. cbn [append] in Hsc. injection Hsc as <- <-.
    destruct HK as [HK|[k HK]]; rewrite HK in Hk.
    - destruct Hk as [Hk|[]]. discriminate Hk.
    - apply rmatch_seq_in in Hk.
      destruct Hk as (tT & sT & gT & tr & gr & HT & _).
      apply rmatch_chr_in in HT. destruct HT as (xT & _ & HxT & _ & HsT).
      injection HsT as <- _. apply ci_T_not_digit in HxT. congruence. }
  cbn [two append] in Hsc. injection Hsc as <- <- <-.
  exists gk. split; [reflexivity|].
  intros k v Hkv. apply Hnames.
  exact (rmatch_names _ _ _ _ _ _ _ _ Hk Hkv).
Qed.

Lemma convert_ymd_more (Y M D : string) (y m d : nat) (gk : captures)
  (f : fields) :
  py_int Y = Some y -> py_int M = Some m -> py_int D = Some d ->
  (forall k v, In (k, v) gk -> ~ In k date_keys) ->
  convert_all init (("Y", Y) :: ("m", M) :: ("d", D) :: gk) = Some f ->
  f_year f = Some y /\ f_month_ f = m /\ f_day f = d.
Proof.
  intros HY HM HD Hgk. cbn -[py_int]. rewrite HY. cbn -[py_int].
  rewrite HM. cbn -[py_int]. rewrite HD. cbn -[py_int].
  intros H. pose proof (convert_all_keeps_date gk _ f Hgk H) as E.
  unfold date_of in E. cbn in E. inversion E. auto.
Qed.

(** A year-led format, on four digits, a separator, two digits, a separator,
    two digits and any text, either fails or reads these three numbers. *)
Lemma strptime_year_format_prefix (format : string)
  (y1 y2 y3 y4 s1 m1 m2 s2 d1 d2 : ascii) (rest : string) :
  In format year_formats ->
  is_digit y1 = true -> is_digit y2 = true ->
  is_digit y3 = true -> is_digit y4 = true ->
  is_digit m1 = true -> is_digit m2 = true ->
  is_digit d1 = true -> is_digit d2 = true ->
  let data := (four y1 y2 y3 y4
               ++ String s1 (String m1 (String m2
                    (String s2 (String d1 (String d2 rest))))))%string in
  strptime data format = None
  \/ exists dt,
      strptime data format = Some dt
      /\ strftime dt
         = (year_text y1 y2 y3 y4 ++ "-" ++ two m1 m2 ++ "-" ++ two d1 d2)%string.
Proof.
  intros Hf Hy1 Hy2 Hy3 Hy4 Hm1 Hm2 Hd1 Hd2 data.
  destruct (pattern_year_format format Hf) as [Hpat _].
  unfold strptime. rewrite Hpat. unfold re_match, data.
  rewrite rmatch_year_then by assumption.
  destruct (rmatch (tail_re format) (Some y4) _) as [|[[t' r'] g'] l] eqn:E;
    [left; reflexivity|].
  cbn [map hd_error].
  destruct r'; [|left; reflexivity]. cbn [truthy].
  assert (Hin : In (t', EmptyString, g')
                   (rmatch (tail_re format) (Some y4)
                      (String s1 (String m1 (String m2
                         (String s2 (String d1 (String d2 rest))))))))
    by (rewrite E; left; reflexivity).
  destruct (tail_match_groups format _ s1 m1 m2 s2 d1 d2 rest t' g'
              Hf Hm1 Hm2 Hd1 Hd2 Hin) as (gk & -> & Hgk).
  destruct (convert_all init _) as [f|] eqn:Ef; [|left; reflexivity].
  destruct (build f) as [dt|] eqn:Eb; [right | left; reflexivity].
  exists dt. split; [reflexivity|].
  assert (HY : all_chars is_digit (four y1 y2 y3 y4) = true)
    by (simpl; rewrite Hy1, Hy2, Hy3, Hy4; reflexivity).
  assert (HM : all_chars is_digit (two m1 m2) = true)
    by (simpl; rewrite Hm1, Hm2; reflexivity).
  assert (HD : all_chars is_digit (two d1 d2) = true)
    by (simpl; rewrite Hd1, Hd2; reflexivity).
  pose proof (convert_ymd_more _ _ _ _ _ _ gk f
                (py_int_digits (four y1 y2 y3 y4) eq_refl HY)
                (py_int_digits (two m1 m2) eq_refl HM)
                (py_int_digits (two d1 d2) eq_refl HD) Hgk Ef)
    as (Hfy & Hfm & Hfd).
  destruct (build_date f dt _ Hfy Eb) as (Ey & Em & Ed).
  unfold strftime, year_text. rewrite Ey, Em, Ed, Hfm, Hfd.
  rewrite (zero_pad_2 (two m1 m2) eq_refl HM), (zero_pad_2 (two d1 d2) eq_refl HD).
  reflexivity.
Qed.

Lemma rstrip_keeps_prefix (a : string) :
  forall l b,
    last_char None a = Some l -> is_space l = false ->
    exists b', rstrip (a ++ b)%string = (a ++ b')%string.
Proof.
  induction a as [|c a IH]; intros l b Hl Hs; [discriminate Hl|].
  destruct a as [|x a].
  - cbn [last_char] in Hl. injection Hl as <-.
    cbn [append rstrip]. destruct (rstrip b) as [|y r].
    + rewrite Hs. exists "". reflexivity.
    + exists (String y r). reflexivity.
  - assert (Hl' : last_char None (String x a) = Some l) by exact Hl.
    destruct (IH l b Hl' Hs) as [b' Hb].
    exists b'. cbn [append rstrip] in Hb |- *. rewrite Hb. reflexivity.
Qed.

Lemma search_ymd_prefix (y1 y2 y3 y4 s1 m1 m2 s2 d1 d2 : ascii)
  (rest : string) :
  is_digit y1 = true -> is_digit y2 = true ->
  is_digit y3 = true -> is_digit y4 = true ->
  is_sep s1 = true -> is_digit m1 = true -> is_digit m2 = true ->
  is_sep s2 = true -> is_digit d1 = true -> is_digit d2 = true ->
  option_map snd
    (re_search ymd_re
       (four y1 y2 y3 y4
        ++ String s1 (String m1 (String m2
             (String s2 (String d1 (String d2 rest))))))%string)
  = Some [("1", four y1 y2 y3 y4); ("2", two m1 m2); ("3", two d1 d2)].
Proof.
  intros Hy1 Hy2 Hy3 Hy4 Hs1 Hm1 Hm2 Hs2 Hd1 Hd2.
  unfold re_search. cbn -[is_digit is_sep].
  rewrite Hy1. cbn -[is_digit is_sep]. rewrite Hy2. cbn -[is_digit is_sep].
  rewrite Hy3. cbn -[is_digit is_sep]. rewrite Hy4. cbn -[is_digit is_sep].
  rewrite Hs1. cbn -[is_digit is_sep]. rewrite Hm1. cbn -[is_digit is_sep].
  rewrite Hm2. cbn -[is_digit is_sep]. rewrite Hs2. cbn -[is_digit is_sep].
  rewrite Hd1. cbn -[is_digit is_sep]. rewrite Hd2. cbn -[is_digit is_sep].
  reflexivity.
Qed.

(** A text that begins with four digits, the first of them not [0], a
    separator, two digits, a separator and two digits is read as that date,
    whatever follows. *)
Lemma parse_leading_date (y1 y2 y3 y4 s1 m1 m2 s2 d1 d2 : ascii)
  (rest : string) :
  is_digit y1 = true -> is_digit y2 = true ->
  is_digit y3 = true -> is_digit y4 = true ->
  is_sep s1 = true -> is_digit m1 = true -> is_digit m2 = true ->
  is_sep s2 = true -> is_digit d1 = true -> is_digit d2 = true ->
  Ascii.eqb y1 "0" = false ->
  parse_date_to_iso
    (Some (four y1 y2 y3 y4
           ++ String s1 (two m1 m2 ++ String s2 (two d1 d2)) ++ rest)%string)
  = Some (four y1 y2 y3 y4 ++ "-" ++ two m1 m2 ++ "-" ++ two d1 d2)%string.
Proof.
  intros Hy1 Hy2 Hy3 Hy4 Hs1 Hm1 Hm2 Hs2 Hd1 Hd2 Hz.
  set (head := (four y1 y2 y3 y4
                ++ String s1 (two m1 m2 ++ String s2 (two d1 d2)))%string).
  change (four y1 y2 y3 y4
          ++ String s1 (two m1 m2 ++ String s2 (two d1 d2)) ++ rest)%string
    with (head ++ rest)%string.
  assert (Hstrip : exists rest', strip (head ++ rest) = (head ++ rest')%string).
  { unfold strip. unfold head at 1. cbn [four append].
    rewrite (lstrip_digit y1 _ Hy1).
    destruct (rstrip_keeps_prefix head d2 rest eq_refl
                (digit_not_space d2 Hd2)) as [b' Hb].
    exists b'. exact Hb. }
  destruct Hstrip as [rest' Hstrip].
  pose proof (fun f Hf =>
                strptime_year_format_prefix f y1 y2 y3 y4 s1 m1 m2 s2 d1 d2
                  rest' Hf Hy1 Hy2 Hy3 Hy4 Hm1 Hm2 Hd1 Hd2) as Hyear.
  pose proof (fun f Hf =>
                strptime_other_format f y1 y2 y3
                  (String y4 (String s1 (String m1 (String m2
                     (String s2 (String d1 (String d2 rest')))))))
                  Hf Hy1 Hy2 Hy3) as Hother.
  pose proof (search_ymd_prefix y1 y2 y3 y4 s1 m1 m2 s2 d1 d2 rest
                Hy1 Hy2 Hy3 Hy4 Hs1 Hm1 Hm2 Hs2 Hd1 Hd2) as Hsearch.
  cbv zeta in Hyear.
  rewrite (year_text_four y1 y2 y3 y4 Hy1 Hy2 Hy3 Hy4 Hz) in Hyear.
  change (four y1 y2 y3 y4
          ++ String s1 (String m1 (String m2
               (String s2 (String d1 (String d2 rest'))))))%string
    with (head ++ rest')%string in Hyear.
  change (String y1 (String y2 (String y3
            (String y4 (String s1 (String m1 (String m2
               (String s2 (String d1 (String d2 rest'))))))))))
    with (head ++ rest')%string in Hother.
  change (four y1 y2 y3 y4
          ++ String s1 (String m1 (String m2
               (String s2 (String d1 (String d2 rest))))))%string
    with (head ++ rest)%string in Hsearch.
  unfold parse_date_to_iso.
  change (negb (truthy (head ++ rest))) with false. cbv iota.
  unfold patterns. cbn [try_patterns try_group]. rewrite Hstrip.
  destruct (Hyear "%Y-%m-%d") as [->|(dt & -> & ->)];
    [simpl; tauto | | reflexivity].
  destruct (Hyear "%Y-%m-%dT%H:%M:%S%z") as [->|(dt & -> & ->)];
    [simpl; tauto | | reflexivity].
  destruct (Hyear "%Y-%m-%dT%H:%M:%S") as [->|(dt & -> & ->)];
    [simpl; tauto | | reflexivity].
  rewrite (Hother "%b %d, %Y") by (simpl; tauto).
  rewrite (Hother "%B %d, %Y") by (simpl; tauto).
  rewrite (Hother "%m/%d/%Y") by (simpl; tauto).
  rewrite (Hother "%d/%m/%Y") by (simpl; tauto).
  destruct (Hyear "%Y/%m/%d") as [->|(dt & -> & ->)];
    [simpl; tauto | | reflexivity].
  rewrite (Hother "%d-%b-%y") by (simpl; tauto).
  rewrite (Hother "%d-%B-%Y") by (simpl; tauto).
  unfold group.
  destruct (re_search ymd_re (head ++ rest)) as [m|];
    [|discriminate Hsearch].
  cbn [option_map] in Hsearch. injection Hsearch as ->. reflexivity.
Qed.

(** X20. A text that begins with four digits, the first of them not [0],
    a separator, two digits, a separator and two digits is read as that
    date, whatever follows: nothing, a time of day, an offset, a fraction of
    a second, or anything else. *)
Theorem leading_date_decides (y1 y2 y3 y4 s1 m1 m2 s2 d1 d2 : ascii)
  (rest : string) :
  is_digit y1 = true -> is_digit y2 = true ->
  is_digit y3 = true -> is_digit y4 = true ->
  is_sep s1 = true -> is_digit m1 = true -> is_digit m2 = true ->
  is_sep s2 = true -> is_digit d1 = true -> is_digit d2 = true ->
  Ascii.eqb y1 "0" = false ->
  parse_date_to_iso
    (Some (four y1 y2 y3 y4
           ++ String s1 (two m1 m2 ++ String s2 (two d1 d2)) ++ rest)%string)
  = Some (four y1 y2 y3 y4 ++ "-" ++ two m1 m2 ++ "-" ++ two d1 d2)%string.
Proof. apply parse_leading_date. Qed.

Lemma leading_date_decides_witness :
  parse_date_to_iso (Some "2025-02-15T10:30:00.250+01:00") = Some "2025-02-15"
  /\ parse_date_to_iso (Some "2025/02/30 at noon") = Some "2025-02-30"
  /\ parse_date_to_iso (Some "1999/12-31") = Some "1999-12-31".
Proof.
  split; [|split].
  - apply (leading_date_decides "2" "0" "2" "5" "-" "0" "2" "-" "1" "5"
             "T10:30:00.250+01:00"); reflexivity.
  - apply (leading_date_decides "2" "0" "2" "5" "/" "0" "2" "/" "3" "0"
             " at noon"); reflexivity.
  - apply (leading_date_decides "1" "9" "9" "9" "/" "1" "2" "-" "3" "1" "");
      reflexivity.
Defined.

(** X21. A modified-time tag whose value begins with a date, the year not
    beginning with [0], gives that date, whatever the value goes on with
    and whatever the published-time tag, the time element and the header
    hold. *)
Theorem modified_time_decides (doc : soup) (tag : node)
  (y1 y2 y3 y4 s1 m1 m2 s2 d1 d2 : ascii) (rest : string) :
  modified_tag doc = Some tag ->
  get "content" tag
  = Some (four y1 y2 y3 y4
          ++ String s1 (two m1 m2 ++ String s2 (two d1 d2)) ++ rest)%string ->
  is_digit y1 = true -> is_digit y2 = true ->
  is_digit y3 = true -> is_digit y4 = true ->
  is_sep s1 = true -> is_digit m1 = true -> is_digit m2 = true ->
  is_sep s2 = true -> is_digit d1 = true -> is_digit d2 = true ->
  Ascii.eqb y1 "0" = false ->
  extract_date doc
  = Some (four y1 y2 y3 y4 ++ "-" ++ two m1 m2 ++ "-" ++ two d1 d2)%string.
Proof.
  intros Htag Hget Hy1 Hy2 Hy3 Hy4 Hs1 Hm1 Hm2 Hs2 Hd1 Hd2 Hz.
  apply (extract_date_of_source doc []
           (modified_tag doc, "content")
           [(published_tag doc, "content"); (time_tag doc, "datetime")]).
  - reflexivity.
  - intros s [].
  - rewrite Htag, (source_date_tag _ _ _ Hget).
    apply parse_leading_date; assumption.
Qed.

Lemma modified_time_decides_witness :
  extract_date doc_modified_and_published = Some "2025-02-15".
Proof.
  apply (modified_time_decides doc_modified_and_published
           (Tag "meta" [("property", "article:modified_time");
                        ("content", "2025-02-15T10:30:00.250+01:00")] [] [])
           "2" "0" "2" "5" "-" "0" "2" "-" "1" "5" "T10:30:00.250+01:00");
    reflexivity.
Defined.


(** ** Years below 1000 *)









Ltac no_four_digits :=
  cbn -[is_digit];
  repeat match goal with
         | E : is_digit ?x = true |- context [is_digit ?x] => rewrite E
         end;
  reflexivity.




